(** * EBQControl_Wifi: the session and protocol engine, embedded in Rocq

    The development follows the sources file by file:

    - [Text], [Js]: the strings, numbers and parsed JSON values the code
      works on, with the regular expressions it applies to them;
    - [Codec]: the pure helpers at the top of
      [src/screens/MqttDeviceGridScreen.js];
    - [Store]: the channel-state store of the screen (batched patches,
      toggle locks, reset);
    - [Screen]: the message handler, the name write and the keep-alive
      timer of the same screen, with its publish guards;
    - [NativeModule], [NativeIos]: the native modules, Android
      ([MqttNativeModule.kt]) and iOS;
    - [NativeClient]: [src/utils/MqttNativeClient.js] (instance registry);
    - [Manager]: [src/utils/MqttManager.js] (reconnect back-off, TLS probe);
    - [Split], [Topic], [NameCache]: the topic of a saved device and the
      cached names, as the screen reads them;
    - [ClientError], [DefaultClient], [Client]: the error mapping, the
      default client and [MqttClient.connect] of
      [src/utils/MqttNativeClient.js];
    - [DeviceStorage]: [src/utils/MqttDeviceStorage.js];
    - [ConfigDialog]: the input filter of
      [src/components/MqttDeviceConfigDialog.js];
    - [ScreenLog], [Observers]: what a screen published, and the state
      listeners of the manager;
    - [Reference] and the inputs of the closed examples;
    - the properties, in the order of the modules, then the further
      properties of the code around them.

    Numbers are IEEE-754 binary64 values ([PrimFloat.float]), as in
    JavaScript.  Strings are byte strings holding UTF-8 text.  Channel ids
    are integers ([Z]), exact also where JavaScript would round (above
    2^53).  Time is the millisecond clock [Date.now()], an integer passed to
    every callback, read once per callback.  Callbacks run one at a time,
    so each is a function from state to state; what a callback awaits is
    given to it as an argument.  Console output and the status line of the
    screen are left out. *)

From Stdlib Require Import ZArith String Ascii List Floats Lia Bool.
From stdpp Require Import base option list gmap strings pretty.
Import ListNotations.

Set Warnings "-inexact-float,-register-all".
#[local] Open Scope Z_scope.

(** ** Parsed JSON, and what the JavaScript runtime provides *)

(** The value [JSON.parse] returns.  The fields of an object are listed in
    the order [Object.entries] enumerates them, each key once. *)
Inductive json : Type :=
| JNull
| JBool (b : bool)
| JNum (x : float)
| JStr (s : string)
| JArr (items : list json)
| JObj (fields : list (string * json)).

(** The built-ins whose results depend on Unicode tables, on the
    shortest-digits printing of doubles or on the JSON grammar are taken as
    given. *)
Record JsRuntime : Type := {
  (** [String.prototype.toUpperCase] *)
  toUpperCase : string -> string;
  (** [Number.prototype.toFixed] called with two fraction digits *)
  toFixed2 : float -> string;
  (** [Number(s)] for a string [s] *)
  stringToNumber : string -> float;
  (** [String(x)] for a number [x] *)
  numberToString : float -> string;
  (** [JSON.parse]; [None] when it throws *)
  jsonParse : string -> option json;
}.

(** ** Text: bytes, white space, the regular expressions of the sources *)
Module Text.

Definition code (c : ascii) : Z := Z.of_N (N_of_ascii c).

Definition isDigit (c : ascii) : bool := (48 <=? code c) && (code c <=? 57).

(** [\s], [String.prototype.trim] and the leading blanks of [parseInt] share
    one set of characters; in UTF-8 they take one, two or three bytes. *)
Definition ws1 (a : ascii) : bool :=
  ((9 <=? code a) && (code a <=? 13)) || (code a =? 32).

Definition ws2 (a b : ascii) : bool :=
  (code a =? 194) && (code b =? 160).                        (* U+00A0 *)

Definition ws3 (a b c : ascii) : bool :=
  ((code a =? 225) && (code b =? 154) && (code c =? 128))    (* U+1680 *)
  || ((code a =? 226) && (code b =? 128)
      && (((128 <=? code c) && (code c <=? 138))             (* U+2000-200A *)
          || (code c =? 168) || (code c =? 169)              (* U+2028, U+2029 *)
          || (code c =? 175)))                               (* U+202F *)
  || ((code a =? 226) && (code b =? 129) && (code c =? 159)) (* U+205F *)
  || ((code a =? 227) && (code b =? 128) && (code c =? 128)) (* U+3000 *)
  || ((code a =? 239) && (code b =? 187) && (code c =? 191)). (* U+FEFF *)

(** Drops one white-space character from the front, if there is one. *)
Definition dropWs (s : string) : option string :=
  match s with
  | String a s1 =>
      if ws1 a then Some s1 else
      match s1 with
      | String b s2 =>
          if ws2 a b then Some s2 else
          match s2 with
          | String c s3 => if ws3 a b c then Some s3 else None
          | EmptyString => None
          end
      | EmptyString => None
      end
  | EmptyString => None
  end.

Fixpoint trimStart (s : string) : string :=
  match s with
  | String a s1 =>
      if ws1 a then trimStart s1 else
      match s1 with
      | String b s2 =>
          if ws2 a b then trimStart s2 else
          match s2 with
          | String c s3 => if ws3 a b c then trimStart s3 else s
          | EmptyString => s
          end
      | EmptyString => s
      end
  | EmptyString => s
  end.

(** The same scan on the reversed text, where the bytes of a character
    come last byte first. *)
Fixpoint trimStartRev (s : string) : string :=
  match s with
  | String a s1 =>
      if ws1 a then trimStartRev s1 else
      match s1 with
      | String b s2 =>
          if ws2 b a then trimStartRev s2 else
          match s2 with
          | String c s3 => if ws3 c b a then trimStartRev s3 else s
          | EmptyString => s
          end
      | EmptyString => s
      end
  | EmptyString => s
  end.

Definition trimEnd (s : string) : string := String.rev (trimStartRev (String.rev s)).

(** [s.trim()] *)
Definition trim (s : string) : string := trimEnd (trimStart s).

Definition isEmpty (s : string) : bool :=
  match s with EmptyString => true | _ => false end.

(** The longest run of decimal digits at the front, and what follows it. *)
Fixpoint spanDigits (s : string) : string * string :=
  match s with
  | String c r =>
      if isDigit c then let '(d, rest) := spanDigits r in (String c d, rest)
      else (EmptyString, s)
  | EmptyString => (EmptyString, EmptyString)
  end.

Fixpoint digitsValue (acc : Z) (s : string) : Z :=
  match s with
  | String c r => digitsValue (10 * acc + (code c - 48)) r
  | EmptyString => acc
  end.

Definition startsWithDigit (s : string) : bool :=
  match s with String c _ => isDigit c | EmptyString => false end.

(** [parseInt(s, 10)]: blanks, a sign, then the longest digit prefix;
    [None] is [NaN]. *)
Definition parseInt10 (s : string) : option Z :=
  let t := trimStart s in
  let '(neg, u) :=
    match t with
    | String c r =>
        if code c =? 45 then (true, r)
        else if code c =? 43 then (false, r) else (false, t)
    | EmptyString => (false, t)
    end in
  if startsWithDigit u
  then let v := digitsValue 0 (fst (spanDigits u)) in Some (if neg then - v else v)
  else None.

(** [s.match(/C(\d+)/i)]: the digits of the first [C] or [c] that a digit
    follows; [None] when the expression does not match. *)
Fixpoint matchChan (s : string) : option string :=
  match s with
  | String c r =>
      if ((code c =? 67) || (code c =? 99)) && startsWithDigit r
      then Some (fst (spanDigits r))
      else matchChan r
  | EmptyString => None
  end.

(** [/^C\d+$/i.test(s)] *)
Definition testChanKey (s : string) : bool :=
  match s with
  | String c r =>
      ((code c =? 67) || (code c =? 99)) && startsWithDigit r
      && isEmpty (snd (spanDigits r))
  | EmptyString => false
  end.

(** The text [/\d+(\.\d+)?/] matches at the front of [s], which starts
    with a digit. *)
Definition numeralAt (s : string) : string :=
  let '(d, rest) := spanDigits s in
  match rest with
  | String c r =>
      if (code c =? 46) && startsWithDigit r
      then d +:+ String c (fst (spanDigits r))
      else d
  | EmptyString => d
  end.

(** [s.match(/-?\d+(\.\d+)?/)]: the leftmost match, [None] without one. *)
Fixpoint matchNumber (s : string) : option string :=
  match s with
  | String c r =>
      if (code c =? 45) && startsWithDigit r then Some (String c (numeralAt r))
      else if isDigit c then Some (numeralAt s)
      else matchNumber r
  | EmptyString => None
  end.

(** ASCII letters compared without case, as [/.../i] does for them. *)
Definition lower (c : ascii) : Z :=
  if (65 <=? code c) && (code c <=? 90) then code c + 32 else code c.

Fixpoint stripPrefixCI (p s : string) : option string :=
  match p, s with
  | EmptyString, _ => Some s
  | String a p', String b s' =>
      if lower a =? lower b then stripPrefixCI p' s' else None
  | String _ _, EmptyString => None
  end.

(** [/^Device\s+\d+$/i.test(s)] *)
Definition testPlaceholder (s : string) : bool :=
  match stripPrefixCI "Device" s with
  | Some r =>
      match dropWs r with
      | Some r1 =>
          let r2 := trimStart r1 in
          startsWithDigit r2 && isEmpty (snd (spanDigits r2))
      | None => false
      end
  | None => false
  end.

(** [s.replace(/\uFFFD/g, '')]: U+FFFD is the bytes EF BF BD. *)
Fixpoint dropReplacement (s : string) : string :=
  match s with
  | String a s1 =>
      match s1 with
      | String b (String c s3) =>
          if (code a =? 239) && (code b =? 191) && (code c =? 189)
          then dropReplacement s3 else String a (dropReplacement s1)
      | _ => String a (dropReplacement s1)
      end
  | EmptyString => s
  end.

(** [s.replace(/[\u0000-\u001F\u007F]/g, '')]: the control characters are
    single bytes that occur in no other character. *)
Fixpoint dropControls (s : string) : string :=
  match s with
  | String a r =>
      if (code a <=? 31) || (code a =? 127) then dropControls r
      else String a (dropControls r)
  | EmptyString => s
  end.

(** [s.startsWith(p)] *)
Fixpoint startsWith (p s : string) : bool :=
  match p, s with
  | EmptyString, _ => true
  | String a p', String b s' => (code a =? code b) && startsWith p' s'
  | String _ _, EmptyString => false
  end.

(** [s.includes(p)] *)
Fixpoint includes (p s : string) : bool :=
  startsWith p s ||
  match s with
  | String _ r => includes p r
  | EmptyString => false
  end.

End Text.

(** ** Js: the coercions the code applies to parsed values *)
Module Js.

(** A JavaScript value read from a message: [None] is [undefined]. *)
Definition value : Type := option json.

Fixpoint assoc (k : string) (fields : list (string * json)) : value :=
  match fields with
  | (k', v) :: rest => if String.eqb k k' then Some v else assoc k rest
  | [] => None
  end.

(** [v?.k] for the property names the sources read.  None of them is a
    built-in property of a string, number, boolean or array, so only an
    object can answer. *)
Definition get (k : string) (v : value) : value :=
  match v with
  | Some (JObj fields) => assoc k fields
  | _ => None
  end.

(** [v[i]] on an array *)
Definition index (i : nat) (v : value) : value :=
  match v with
  | Some (JArr items) => nth_error items i
  | _ => None
  end.

(** [!!v] *)
Definition truthy (v : value) : bool :=
  match v with
  | None | Some JNull => false
  | Some (JBool b) => b
  | Some (JNum x) => negb (is_zero x || is_nan x)
  | Some (JStr s) => negb (Text.isEmpty s)
  | Some (JArr _) | Some (JObj _) => true
  end.

(** [a || b] *)
Definition or (a b : value) : value := if truthy a then a else b.

(** [v != null], which also excludes [undefined] *)
Definition notNull (v : value) : bool :=
  match v with None | Some JNull => false | _ => true end.

(** [a ?? b] *)
Definition coalesce (a b : value) : value := if notNull a then a else b.

(** [v && typeof v === 'object'] *)
Definition isObject (v : value) : bool :=
  match v with Some (JArr _) | Some (JObj _) => true | _ => false end.

(** [Object.entries(v)] of an object or an array *)
Definition entries (v : json) : list (string * json) :=
  match v with
  | JObj fields => fields
  | JArr items => imap (fun i x => (pretty (Z.of_nat i), x)) items
  | _ => []
  end.

(** [Number.isFinite(x)] *)
Definition isFinite (x : float) : bool := is_finite x.

Section Coercions.
Context (rt : JsRuntime).

(** [String(v)]; inside an array, [null] prints as the empty text. *)
Fixpoint toStr (v : json) : string :=
  match v with
  | JNull => "null"
  | JBool b => if b then "true" else "false"
  | JNum x => numberToString rt x
  | JStr s => s
  | JArr items =>
      (fix join (l : list json) : string :=
         match l with
         | [] => ""
         | [x] => match x with JNull => "" | _ => toStr x end
         | x :: (_ :: _) as rest =>
             (match x with JNull => "" | _ => toStr x end) +:+ "," +:+ join rest
         end) items
  | JObj _ => "[object Object]"
  end.

Definition String_ (v : value) : string :=
  match v with Some j => toStr j | None => "undefined" end.

(** [Number(v)] *)
Definition Number_ (v : value) : float :=
  match v with
  | None => nan
  | Some JNull => 0
  | Some (JBool b) => if b then 1 else 0
  | Some (JNum x) => x
  | Some (JStr s) => stringToNumber rt s
  | Some (JArr items) => stringToNumber rt (toStr (JArr items))
  | Some (JObj _) => nan
  end.

(** [parseInt(v, 10)] *)
Definition parseInt (v : value) : option Z := Text.parseInt10 (String_ v).

End Coercions.

End Js.

(** ** Codec: the helpers of [MqttDeviceGridScreen.js] *)
Module Codec.

(** The three values the [status] field takes. *)
Inductive Status : Type := UNKNOWN | ON | OFF.

#[global] Instance Status_eq_dec : EqDecision Status.
Proof. solve_decision. Defined.

(** A channel as the [tags] map holds it.  [default1P] leaves the per-leg
    readings out; they are [None] until something writes them. *)
Record Tag : Type := mkTag {
  id : Z;
  status : Status;
  current : string;
  current1 : option string;
  current2 : option string;
  current3 : option string;
  rawStatus : Z;
  seen : bool;
  tagName : string;
  currentRating : float;
  sensitivity : float;
}.

Definition default1P (i : Z) : Tag :=
  {| id := i; status := UNKNOWN; current := "-";
     current1 := None; current2 := None; current3 := None;
     rawStatus := 0; seen := false;
     tagName := "Device " +:+ pretty i; currentRating := 0; sensitivity := 1 |}.

Definition default3P (i : Z) : Tag :=
  {| id := i; status := UNKNOWN; current := "-";
     current1 := Some "-"; current2 := Some "-"; current3 := Some "-";
     rawStatus := 0; seen := false;
     tagName := "Device " +:+ pretty i; currentRating := 0; sensitivity := 1 |}.

(** [prev[id] || (id >= 201 ? default3P(id) : default1P(id))] *)
Definition tagOrDefault (prev : gmap Z Tag) (i : Z) : Tag :=
  match prev !! i with
  | Some t => t
  | None => if 201 <=? i then default3P i else default1P i
  end.

Section WithRuntime.
Context (rt : JsRuntime).

Definition extractNameMap (j : Js.value) : Js.value :=
  let d := Js.get "d" j in
  let data := Js.get "data" j in
  let command := Js.get "command" data in
  let map :=
    Js.or (Js.get "Name" d) (Js.or (Js.get "Name1" d) (Js.or (Js.get "Name2" d)
    (Js.or (Js.get "Name" data) (Js.or (Js.get "Name1" data) (Js.or (Js.get "Name2" data)
    (Js.or (Js.get "Name" command) (Js.or (Js.get "Name1" command)
           (Js.get "Name2" command)))))))) in
  if Js.truthy map && Js.isObject map then map else None.

(** [parseCurrentMap]; [None] is its [null]. *)
Definition parseCurrentMap (objOrText : Js.value) : Js.value :=
  let parsed : option Js.value :=
    match objOrText with
    | Some (JStr text) =>
        match jsonParse rt text with
        | Some j => Some (Some j)
        | None => None
        end
    | other => Some other
    end in
  match parsed with
  | None => None
  | Some j =>
      let map :=
        Js.or (Js.get "current" (Js.get "d" j))
          (Js.or (Js.get "current" (Js.get "data" j))
             (Js.or (Js.get "current" j)
                (match j with
                 | Some o =>
                     if Js.truthy j && Js.isObject j
                        && existsb (fun kv => Text.testChanKey (fst kv)) (Js.entries o)
                     then j else None
                 | None => None
                 end))) in
      if negb (Js.truthy map) || negb (Js.isObject map) then None else map
  end.

Definition normalizeNumber (v : Js.value) : float :=
  match v with
  | Some (JNum x) => x
  | Some (JStr s) =>
      match Text.matchNumber s with
      | Some m0 => Js.Number_ rt (Some (JStr m0))
      | None => nan
      end
  | Some (JArr _) => Js.Number_ rt (Js.index 0 v)
  | _ => Js.Number_ rt v
  end.

Definition formatCurrentA (n : float) : string :=
  if negb (Js.isFinite n) then "-"
  else if (n <? 0)%float && (-0.1 <=? n)%float then "0.00"
  else toFixed2 rt n.

Definition sanitizeName (input : Js.value) : string :=
  let s := Text.trim (Js.String_ rt (Js.coalesce input (Some (JStr "")))) in
  Text.trim (Text.dropControls (Text.dropReplacement s)).

(** [parse3PhaseValue]; [None] is its [null]. *)
Definition parse3PhaseValue (v : Js.value) : option (list float) :=
  let legs (a b c : float) :=
    if forallb Js.isFinite [a; b; c] then Some [a; b; c] else None in
  match v with
  | Some (JNum x) => if Js.isFinite x then Some [x; x; x] else None
  | Some (JArr items) =>
      if (3 <=? length items)%nat
      then legs (normalizeNumber (Js.index 0 v))
                (normalizeNumber (Js.index 1 v))
                (normalizeNumber (Js.index 2 v))
      else legs (normalizeNumber None) (normalizeNumber None) (normalizeNumber None)
  | Some (JObj _) =>
      let pick k1 k2 k3 k4 k5 :=
        Js.coalesce (Js.get k1 v) (Js.coalesce (Js.get k2 v)
          (Js.coalesce (Js.get k3 v) (Js.coalesce (Js.get k4 v) (Js.get k5 v)))) in
      legs (normalizeNumber (pick "current1" "a" "A" "L1" "l1"))
           (normalizeNumber (pick "current2" "b" "B" "L2" "l2"))
           (normalizeNumber (pick "current3" "c" "C" "L3" "l3"))
  | _ => None
  end.

End WithRuntime.

End Codec.

(** ** Store: batched patches, toggle locks and the reset of the
    [tags] map in [MqttDeviceGridScreen.js] *)
Module Store.
Import Codec.

(** An entry of a patch: the keys a partial update may carry.  [None] is
    an absent key. *)
Record Partial : Type := mkPartial {
  __cur1p : option float;
  __cur3p : option (list float);
  p_status : option Status;
  p_seen : option bool;
  p_tagName : option string;
  p_currentRating : option float;
  p_sensitivity : option float;
}.

(** [{ __cur1p: x }] and [{ __cur3p: legs }] *)
Definition cur1p (x : float) : Partial :=
  mkPartial (Some x) None None None None None None.

Definition cur3p (legs : list float) : Partial :=
  mkPartial None (Some legs) None None None None None.

(** A key of the later object wins over the same key of the earlier one. *)
Definition over {A : Type} (later earlier : option A) : option A :=
  match later with Some _ => later | None => earlier end.

(** [{ ...a, ...b }] on two partial updates *)
Definition spread (a b : Partial) : Partial :=
  {| __cur1p := over (__cur1p b) (__cur1p a);
     __cur3p := over (__cur3p b) (__cur3p a);
     p_status := over (p_status b) (p_status a);
     p_seen := over (p_seen b) (p_seen a);
     p_tagName := over (p_tagName b) (p_tagName a);
     p_currentRating := over (p_currentRating b) (p_currentRating a);
     p_sensitivity := over (p_sensitivity b) (p_sensitivity a) |}.

(** [Object.keys(rest).length > 0] for
    [const { __cur1p, __cur3p, ...rest } = partial] *)
Definition hasRest (p : Partial) : bool :=
  bool_decide (is_Some (p_status p)) || bool_decide (is_Some (p_seen p))
  || bool_decide (is_Some (p_tagName p))
  || bool_decide (is_Some (p_currentRating p))
  || bool_decide (is_Some (p_sensitivity p)).

(** [{ ...out, ...rest }] *)
Definition spreadRest (out : Tag) (p : Partial) : Tag :=
  {| id := id out;
     status := default (status out) (p_status p);
     current := current out;
     current1 := current1 out;
     current2 := current2 out;
     current3 := current3 out;
     rawStatus := rawStatus out;
     seen := default (seen out) (p_seen p);
     tagName := default (tagName out) (p_tagName p);
     currentRating := default (currentRating out) (p_currentRating p);
     sensitivity := default (sensitivity out) (p_sensitivity p) |}.

Inductive Tab : Type := GRID | LIST | THREE.

Record State : Type := mkState {
  tags : gmap Z Tag;
  (** [pendingPatchRef.current] *)
  pendingPatch : gmap Z Partial;
  (** [patchTimerRef.current]: the time at which the pending flush fires *)
  patchTimer : option Z;
  suspendUiUntil : Z;
  activeTab : Tab;
  (** [toggleLockRef.current]: channel id to expiry time *)
  toggleLock : gmap Z Z;
}.

(** [toggleLockRef.current.get(id) || 0], then [Date.now() < lockExp] *)
Definition isLocked (now : Z) (locks : gmap Z Z) (i : Z) : bool :=
  now <? default 0 (locks !! i).

Section WithRuntime.
Context (rt : JsRuntime).

(** The [__cur1p] branch of the flush. *)
Definition apply1p (locked : bool) (out : Tag) (curNum : float) : Tag :=
  {| id := id out;
     status := if locked then status out
               else if (curNum <? 0)%float then OFF else ON;
     current := formatCurrentA rt curNum;
     current1 := current1 out;
     current2 := current2 out;
     current3 := current3 out;
     rawStatus := rawStatus out;
     seen := true;
     tagName := tagName out;
     currentRating := currentRating out;
     sensitivity := sensitivity out |}.

(** The [__cur3p] branch of the flush. *)
Definition apply3p (locked : bool) (out : Tag) (a b c : float) : Tag :=
  {| id := id out;
     status := if locked then status out
               else if (a <? 0)%float || (b <? 0)%float || (c <? 0)%float
                    then OFF else ON;
     current := formatCurrentA rt a;
     current1 := Some (formatCurrentA rt a);
     current2 := Some (formatCurrentA rt b);
     current3 := Some (formatCurrentA rt c);
     rawStatus := rawStatus out;
     seen := true;
     tagName := tagName out;
     currentRating := currentRating out;
     sensitivity := sensitivity out |}.

(** The body of the flush loop for one entry of the batch: the new value
    of [next[id]], or [None] where the loop leaves the entry alone
    ([out === old]). *)
Definition applyPartial (now : Z) (locks : gmap Z Z) (prev : gmap Z Tag)
    (i : Z) (partial : Partial) : option Tag :=
  let old := tagOrDefault prev i in
  let locked := isLocked now locks i in
  let s1 : Tag * bool :=
    match __cur1p partial with
    | Some curNum =>
        if Js.isFinite curNum then (apply1p locked old curNum, true)
        else (old, false)
    | None => (old, false)
    end in
  let s2 : Tag * bool :=
    match __cur3p partial with
    | Some (a :: b :: c :: _) =>
        if forallb Js.isFinite [a; b; c]
        then (apply3p locked (fst s1) a b c, true) else s1
    | _ => s1
    end in
  let s3 : Tag * bool :=
    if hasRest partial then (spreadRest (fst s2) partial, true) else s2 in
  if snd s3 then Some (fst s3) else None.

(** One turn of the flush loop: [next[id] = out] when the entry changed
    something. *)
Definition flushEntry (now : Z) (locks : gmap Z Z) (prev : gmap Z Tag)
    (i : Z) (partial : Partial) (next : gmap Z Tag) : gmap Z Tag :=
  match applyPartial now locks prev i partial with
  | Some out => <[i := out]> next
  | None => next
  end.

(** The [setTags] callback of the flush: the loop over
    [Object.entries(batch)], started from [next = prev]. *)
Definition flushTags (now : Z) (locks : gmap Z Z) (prev : gmap Z Tag)
    (batch : gmap Z Partial) : gmap Z Tag :=
  map_fold (flushEntry now locks prev) prev batch.

(** The timer callback armed by [enqueueTagPatch]. *)
Definition flush (now : Z) (st : State) : State :=
  {| tags := flushTags now (toggleLock st) (tags st) (pendingPatch st);
     pendingPatch := ∅;
     patchTimer := None;
     suspendUiUntil := suspendUiUntil st;
     activeTab := activeTab st;
     toggleLock := toggleLock st |}.

End WithRuntime.

(** [store[id] = store[id] ? { ...store[id], ...partial } : partial] *)
Definition mergeEntry (i : Z) (partial : Partial) (store : gmap Z Partial)
    : gmap Z Partial :=
  <[i := match store !! i with
         | Some old => spread old partial
         | None => partial
         end]> store.

(** The merge loop of [enqueueTagPatch] over [Object.entries(patch)]. *)
Definition mergePatch (store patch : gmap Z Partial) : gmap Z Partial :=
  map_fold mergeEntry store patch.

Definition enqueueTagPatch (now : Z) (patch : gmap Z Partial) (st : State) : State :=
  let store := mergePatch (pendingPatch st) patch in
  match patchTimer st with
  | Some t =>
      {| tags := tags st; pendingPatch := store; patchTimer := Some t;
         suspendUiUntil := suspendUiUntil st; activeTab := activeTab st;
         toggleLock := toggleLock st |}
  | None =>
      let suspendLeft := suspendUiUntil st - now in
      let baseDelay := match activeTab st with GRID => 120 | _ => 150 end in
      let delay := Z.max baseDelay suspendLeft in
      {| tags := tags st; pendingPatch := store; patchTimer := Some (now + delay);
         suspendUiUntil := suspendUiUntil st; activeTab := activeTab st;
         toggleLock := toggleLock st |}
  end.

(** [switchTab]: updates pause for 200 ms and a scheduled flush is
    cancelled; what is queued stays queued. *)
Definition switchTab (now : Z) (key : Tab) (st : State) : State :=
  {| tags := tags st; pendingPatch := pendingPatch st; patchTimer := None;
     suspendUiUntil := now + 200; activeTab := key;
     toggleLock := toggleLock st |}.

(** [old[k] !== out[k]] for some key [k] of [partial], where [out] is
    [{ ...old, ...partial }]. *)
Definition differs (old : Tag) (p : Partial) : bool :=
  match p_status p with Some s => negb (bool_decide (status old = s)) | None => false end
  || match p_seen p with Some b => negb (Bool.eqb (seen old) b) | None => false end
  || match p_tagName p with Some n => negb (String.eqb (tagName old) n) | None => false end
  || match p_currentRating p with
     | Some x => negb (currentRating old =? x)%float | None => false end
  || match p_sensitivity p with
     | Some x => negb (sensitivity old =? x)%float | None => false end.

(** The [setTags] callback of [applyTagPatchImmediate(id, partial)], for a
    partial update without readings. *)
Definition applyTagPatchImmediate (i : Z) (partial : Partial)
    (prev : gmap Z Tag) : gmap Z Tag :=
  let old := tagOrDefault prev i in
  if differs old partial then <[i := spreadRest old partial]> prev else prev.

(** [{ status: act, seen: true }] *)
Definition statusPartial (act : Status) : Partial :=
  mkPartial None None (Some act) (Some true) None None None.

(** What [handleToggle] does to the store: updates pause for 250 ms, a
    scheduled flush is cancelled, the channel is locked for 5 s on Android
    and 3 s elsewhere, and the new status is shown at once. *)
Definition toggleNow (android : bool) (now : Z) (i : Z) (act : Status)
    (st : State) : State :=
  let lockDuration := if android then 5000 else 3000 in
  {| tags := applyTagPatchImmediate i (statusPartial act) (tags st);
     pendingPatch := pendingPatch st; patchTimer := None;
     suspendUiUntil := now + 250; activeTab := activeTab st;
     toggleLock := <[i := now + lockDuration]> (toggleLock st) |}.

(** The [catch] of the toggle publish: the lock goes, and the opposite
    status is queued. *)
Definition toggleFailed (now : Z) (i : Z) (act : Status) (st : State) : State :=
  let unlocked :=
    {| tags := tags st; pendingPatch := pendingPatch st;
       patchTimer := patchTimer st; suspendUiUntil := suspendUiUntil st;
       activeTab := activeTab st; toggleLock := delete i (toggleLock st) |} in
  enqueueTagPatch now
    {[i := statusPartial (match act with ON => OFF | _ => ON end)]} unlocked.

(** One step of [clearTagsToUnknown] on the entry under key [k]. *)
Definition clearTag (k : Z) (t : Tag) : Tag :=
  if (201 <=? k) && (k <=? 224)
  then {| id := id t; status := UNKNOWN; current := "-";
          current1 := Some "-"; current2 := Some "-"; current3 := Some "-";
          rawStatus := 0; seen := false;
          tagName := tagName t; currentRating := currentRating t;
          sensitivity := sensitivity t |}
  else {| id := id t; status := UNKNOWN; current := "-";
          current1 := current1 t; current2 := current2 t; current3 := current3 t;
          rawStatus := 0; seen := false;
          tagName := tagName t; currentRating := currentRating t;
          sensitivity := sensitivity t |}.

(** The [setTags] callback of [clearTagsToUnknown]. *)
Definition clearTagsToUnknown (prev : gmap Z Tag) : gmap Z Tag :=
  map_imap (fun k t => Some (clearTag k t)) prev.

End Store.

(** ** Screen: the component state of [MqttDeviceGridScreen.js], its
    publish guards, keep-alive timer, message handler and name write *)
Module Screen.
Import Codec Store.

Inductive Conn : Type := DISCONNECTED | CONNECTING | CONNECTED | DISCONNECTING.

#[global] Instance Conn_eq_dec : EqDecision Conn.
Proof. solve_decision. Defined.

(** [derived.cpid] and [derived.deviceId], read from the device topic. *)
Record Config : Type := mkConfig { cpid : string; deviceId : string }.

(** [topics.tSlash] and [topics.tNoSlash] *)
Definition tSlash (cfg : Config) : string :=
  if Text.isEmpty (cpid cfg) || Text.isEmpty (deviceId cfg) then ""
  else "devices/" +:+ cpid cfg +:+ "/" +:+ deviceId cfg +:+ "/messages/events/".

Definition tNoSlash (cfg : Config) : string :=
  if Text.isEmpty (cpid cfg) || Text.isEmpty (deviceId cfg) then ""
  else "devices/" +:+ cpid cfg +:+ "/" +:+ deviceId cfg +:+ "/messages/events".

(** A command envelope before [JSON.stringify].  The time stamp [t], the
    constant [sdk] tag and the random [ackId] are left out. *)
Record Envelope : Type := mkEnvelope {
  cmdType : json;
  e_cpid : string;
  e_id : string;
  command : json;
  ack : bool;
}.

(** The argument of one call of [publishMqtt]. *)
Record PublishRequest : Type := mkRequest {
  topic : string;
  payload : Envelope;
  qos : Z;
  retained : bool;
}.

Inductive Bank : Type := Name1 | Name2.

Definition bankName (b : Bank) : string :=
  match b with Name1 => "Name1" | Name2 => "Name2" end.

(** What a callback does outside the component, in the order it does it. *)
Inductive Effect : Type :=
| Toast (msg : string)
| SaveNameCache (partialMap : gmap string string)
| RemoveNameCache
| PublishMqtt (req : PublishRequest).

(** The callbacks handed to [safeSetTimeout]. *)
Inductive TimeoutAction : Type :=
| ToggleSend (channel : Z) (act : Status)
| NameReadBack (bank : Bank)
| NameTimeout (channel : Z) (bank : Bank)
| RatingReadBack
| RatingTimeout (channel : Z).

Record PendingName : Type := mkPendingName { pn_value : string; pn_expiresAt : Z }.
Record PendingRating : Type :=
  mkPendingRating { pr_cur : float; pr_sens : float; pr_expiresAt : Z }.

Record State : Type := mkState {
  (** [connectionStatus], the React state *)
  conn : Conn;
  (** [connectionStatusRef.current] *)
  connRef : Conn;
  store : Store.State;
  nameLock : gmap Z Z;
  pendingName : gmap Z PendingName;
  pendingRating : gmap Z PendingRating;
  didRequestCfg : bool;
  didSendFastInterval : bool;
  (** [fastTimerRef.current]: the time at which the 58 s timer fires *)
  fastTimer : option Z;
  (** the timers of [safeSetTimeout] still pending, with their firing time *)
  timeouts : list (Z * TimeoutAction);
  (** everything done outside the component so far, oldest first *)
  effects : list Effect;
}.

Definition setConn (c : Conn) (st : State) : State :=
  mkState c (connRef st) (store st) (nameLock st) (pendingName st)
    (pendingRating st) (didRequestCfg st) (didSendFastInterval st)
    (fastTimer st) (timeouts st) (effects st).

Definition setConnRef (c : Conn) (st : State) : State :=
  mkState (conn st) c (store st) (nameLock st) (pendingName st)
    (pendingRating st) (didRequestCfg st) (didSendFastInterval st)
    (fastTimer st) (timeouts st) (effects st).

Definition setStore (s : Store.State) (st : State) : State :=
  mkState (conn st) (connRef st) s (nameLock st) (pendingName st)
    (pendingRating st) (didRequestCfg st) (didSendFastInterval st)
    (fastTimer st) (timeouts st) (effects st).

Definition setNameLock (m : gmap Z Z) (st : State) : State :=
  mkState (conn st) (connRef st) (store st) m (pendingName st)
    (pendingRating st) (didRequestCfg st) (didSendFastInterval st)
    (fastTimer st) (timeouts st) (effects st).

Definition setPendingName (m : gmap Z PendingName) (st : State) : State :=
  mkState (conn st) (connRef st) (store st) (nameLock st) m
    (pendingRating st) (didRequestCfg st) (didSendFastInterval st)
    (fastTimer st) (timeouts st) (effects st).

Definition setPendingRating (m : gmap Z PendingRating) (st : State) : State :=
  mkState (conn st) (connRef st) (store st) (nameLock st) (pendingName st)
    m (didRequestCfg st) (didSendFastInterval st)
    (fastTimer st) (timeouts st) (effects st).

Definition setDidRequestCfg (b : bool) (st : State) : State :=
  mkState (conn st) (connRef st) (store st) (nameLock st) (pendingName st)
    (pendingRating st) b (didSendFastInterval st)
    (fastTimer st) (timeouts st) (effects st).

Definition setDidSendFastInterval (b : bool) (st : State) : State :=
  mkState (conn st) (connRef st) (store st) (nameLock st) (pendingName st)
    (pendingRating st) (didRequestCfg st) b
    (fastTimer st) (timeouts st) (effects st).

Definition setFastTimer (t : option Z) (st : State) : State :=
  mkState (conn st) (connRef st) (store st) (nameLock st) (pendingName st)
    (pendingRating st) (didRequestCfg st) (didSendFastInterval st)
    t (timeouts st) (effects st).

Definition setTimeouts (l : list (Z * TimeoutAction)) (st : State) : State :=
  mkState (conn st) (connRef st) (store st) (nameLock st) (pendingName st)
    (pendingRating st) (didRequestCfg st) (didSendFastInterval st)
    (fastTimer st) l (effects st).

(** Appends to the log of effects. *)
Definition emit (es : list Effect) (st : State) : State :=
  mkState (conn st) (connRef st) (store st) (nameLock st) (pendingName st)
    (pendingRating st) (didRequestCfg st) (didSendFastInterval st)
    (fastTimer st) (timeouts st) (effects st ++ es).

(** The [useEffect] that copies [connectionStatus] into its ref after a
    render. *)
Definition syncConnRef (st : State) : State := setConnRef (conn st) st.

(** [safeSetTimeout(fn, ms)] *)
Definition safeSetTimeout (now : Z) (fn : TimeoutAction) (ms : Z) (st : State) : State :=
  setTimeouts (timeouts st ++ [(now + ms, fn)]) st.

(** [clearAllTimeouts] *)
Definition clearAllTimeouts (st : State) : State := setTimeouts [] st.

(** *** Publish helpers.  Each returns the calls of [publishMqtt] it
    makes; an empty list is the guarded return. *)

Definition publishControl (cfg : Config) (st : State) (p : Envelope)
    : list PublishRequest :=
  if negb (bool_decide (connRef st = CONNECTED)) then []
  else if Text.isEmpty (tSlash cfg) then []
  else [mkRequest (tSlash cfg) p 1 false].

Definition publishCfg (cfg : Config) (st : State) (p : Envelope)
    : list PublishRequest :=
  if negb (bool_decide (connRef st = CONNECTED)) then []
  else if Text.isEmpty (tSlash cfg) then []
  else [mkRequest (tSlash cfg) p 1 false].

Definition publishWrite (cfg : Config) (st : State) (p : Envelope)
    : list PublishRequest :=
  if negb (bool_decide (connRef st = CONNECTED)) then []
  else if Text.isEmpty (tSlash cfg) then []
  else [mkRequest (tSlash cfg) p 0 false].

(** [publishToBothTopics]: the second call waits for the first to
    resolve; both are listed. *)
Definition publishToBothTopics (cfg : Config) (p : Envelope)
    : list PublishRequest :=
  if Text.isEmpty (tSlash cfg) || Text.isEmpty (tNoSlash cfg) then []
  else [mkRequest (tSlash cfg) p 1 false; mkRequest (tNoSlash cfg) p 1 false].

Definition publishAll (reqs : list PublishRequest) (st : State) : State :=
  emit (map PublishMqtt reqs) st.

(** *** Requests *)

Definition readEnvelope (cfg : Config) (ty : string) (what : string) : Envelope :=
  mkEnvelope (JStr ty) (cpid cfg) (deviceId cfg) (JArr [JStr what]) false.

Definition requestNameBank (cfg : Config) (bank : Bank) (st : State) : State :=
  if Text.isEmpty (tSlash cfg) then st
  else if Text.isEmpty (cpid cfg) || Text.isEmpty (deviceId cfg) then st
  else publishAll (publishCfg cfg st (readEnvelope cfg "5" (bankName bank))) st.

Definition requestNameMap (cfg : Config) (st : State) : State :=
  if Text.isEmpty (tSlash cfg) && Text.isEmpty (tNoSlash cfg) then st
  else if Text.isEmpty (cpid cfg) || Text.isEmpty (deviceId cfg) then st
  else publishAll (publishToBothTopics cfg (readEnvelope cfg "5" "Name1")
                   ++ publishToBothTopics cfg (readEnvelope cfg "5" "Name2")) st.

Definition requestRatingMap (cfg : Config) (st : State) : State :=
  if Text.isEmpty (tSlash cfg) && Text.isEmpty (tNoSlash cfg) then st
  else if Text.isEmpty (cpid cfg) || Text.isEmpty (deviceId cfg) then st
  else publishAll (publishToBothTopics cfg (readEnvelope cfg "4" "Rating")) st.

(** *** The keep-alive ("fast interval") command and its timer *)

Definition fastInterval (cfg : Config) : Envelope :=
  readEnvelope cfg "4" "fast interval".

Definition sendFastIntervalOnce (cfg : Config) (st : State) : State :=
  if didSendFastInterval st then st
  else if Text.isEmpty (cpid cfg) || Text.isEmpty (deviceId cfg) then st
  else let st1 := setDidSendFastInterval true st in
       publishAll (publishCfg cfg st1 (fastInterval cfg)) st1.

Definition sendFastIntervalTick (cfg : Config) (st : State) : State :=
  if negb (bool_decide (connRef st = CONNECTED)) then st
  else if Text.isEmpty (cpid cfg) || Text.isEmpty (deviceId cfg) then st
  else publishAll (publishCfg cfg st (fastInterval cfg)) st.

Definition stopFastIntervalTimer (st : State) : State := setFastTimer None st.

(** [startFastIntervalTimer]: [loop()] arms a 58 s timer unless one runs. *)
Definition startFastIntervalTimer (now : Z) (st : State) : State :=
  match fastTimer st with
  | Some _ => st
  | None => setFastTimer (Some (now + 58000)) st
  end.

(** The callback of the 58 s timer, run when the timer fires. *)
Definition fastTimerFire (cfg : Config) (now : Z) (st : State) : State :=
  match fastTimer st with
  | None => st
  | Some _ =>
      if negb (bool_decide (connRef st = CONNECTED))
      then setFastTimer None st
      else
        let st1 := sendFastIntervalTick cfg st in
        match fastTimer st1 with
        | Some _ => setFastTimer (Some (now + 58000)) st1
        | None => st1
        end
  end.

(** *** Connecting, disconnecting, refreshing *)

Definition setTags (f : gmap Z Tag -> gmap Z Tag) (st : State) : State :=
  let s := store st in
  setStore (Store.mkState (f (Store.tags s)) (Store.pendingPatch s)
              (Store.patchTimer s) (Store.suspendUiUntil s)
              (Store.activeTab s) (Store.toggleLock s)) st.

(** [connectNow] up to its first [await]. *)
Definition connectNow (cfg : Config) (st : State) : State :=
  let isBusy := bool_decide (conn st = CONNECTING) || bool_decide (conn st = DISCONNECTING) in
  let isConnected := bool_decide (conn st = CONNECTED) in
  if isBusy || isConnected then st
  else
    let st1 := setConn CONNECTING st in
    if Text.isEmpty (cpid cfg) || Text.isEmpty (deviceId cfg)
    then setConn DISCONNECTED (emit [Toast "Topic invalid: missing cpid/deviceId"] st1)
    else setDidSendFastInterval false
           (setDidRequestCfg false (setTags clearTagsToUnknown st1)).

(** [disconnectAndStop], with [disconnectMqtt] settled. *)
Definition disconnectAndStop (st : State) : State :=
  let st1 := stopFastIntervalTimer (clearAllTimeouts st) in
  let st2 := setConn DISCONNECTING st1 in
  setDidSendFastInterval false (setDidRequestCfg false (setConn DISCONNECTED st2)).

Definition disconnectNow (st : State) : State :=
  let isBusy := bool_decide (conn st = CONNECTING) || bool_decide (conn st = DISCONNECTING) in
  if isBusy then st
  else setTags clearTagsToUnknown (disconnectAndStop st).

Definition refreshNow (cfg : Config) (st : State) : State :=
  let st1 := emit [RemoveNameCache; Toast "Refreshing..."]
               (setTags clearTagsToUnknown st) in
  if bool_decide (conn st = CONNECTED)
  then setDidRequestCfg true
         (requestRatingMap cfg (requestNameMap cfg (setDidRequestCfg false st1)))
  else st1.

Section WithRuntime.
Context (rt : JsRuntime).

(** The [onStatus] callback handed to [connectAndSubscribe]. *)
Definition onStatus (cfg : Config) (now : Z) (msg : string) (st : State) : State :=
  let up := toUpperCase rt msg in
  if Text.startsWith "CONNECTED" up then setConn CONNECTING st
  else if Text.startsWith "SUBSCRIBED" up then
    let st1 := setConn CONNECTED (setConnRef CONNECTED st) in
    if negb (didRequestCfg st1) then
      let st2 := setDidRequestCfg true st1 in
      let st3 := stopFastIntervalTimer st2 in
      let st4 := sendFastIntervalOnce cfg st3 in
      let st5 := startFastIntervalTimer now st4 in
      requestRatingMap cfg (requestNameMap cfg st5)
    else st1
  else if Text.startsWith "DISCONNECTED" up then setConn DISCONNECTED st
  else if Text.startsWith "DISCONNECT" up then setConn DISCONNECTING st
  else st.

(** The [onError] callback handed to [connectAndSubscribe]. *)
Definition onError (msg : string) (st : State) : State :=
  emit [Toast (if Text.isEmpty msg then "MQTT error" else msg)]
    (setConn DISCONNECTED st).

(** *** The [onMessage] callback *)

(** [put(id, partial)] on the patch under construction *)
Definition put (i : Z) (partial : Partial) (patch : gmap Z Partial)
    : gmap Z Partial :=
  <[i := match patch !! i with
         | Some old => spread old partial
         | None => partial
         end]> patch.

(** [mm ? parseInt(mm[1], 10) : NaN] *)
Definition chanOfKey (k : string) : option Z :=
  match Text.matchChan k with
  | Some digits => Text.parseInt10 digits
  | None => None
  end.

(** [mm ? parseInt(mm[1], 10) : parseInt(k, 10)] *)
Definition chanOfKeyOrInt (k : Js.value) : option Z :=
  match Text.matchChan (Js.String_ rt k) with
  | Some digits => Text.parseInt10 digits
  | None => Js.parseInt rt k
  end.

(** One turn of the loop over the current map. *)
Definition currentEntry (patch : gmap Z Partial) (kv : string * json)
    : gmap Z Partial :=
  match chanOfKeyOrInt (Some (JStr (fst kv))) with
  | None => patch
  | Some i =>
      if (1 <=? i) && (i <=? 120) then
        let curNum := normalizeNumber rt (Some (snd kv)) in
        if negb (Js.isFinite curNum) then patch
        else put i (cur1p curNum) patch
      else if (201 <=? i) && (i <=? 224) then
        match parse3PhaseValue rt (Some (snd kv)) with
        | None => patch
        | Some triple => put i (cur3p triple) patch
        end
      else patch
  end.

Definition currentSection (j : Js.value) (patch : gmap Z Partial)
    : gmap Z Partial :=
  match parseCurrentMap rt j with
  | Some curMap => fold_left currentEntry (Js.entries curMap) patch
  | None => patch
  end.

(** What the handler threads through its loops: the patch, the component
    state, and the [toSave] object of the name section. *)
Record Acc : Type := mkAcc {
  a_patch : gmap Z Partial;
  a_state : State;
  a_toSave : gmap string string;
}.

Definition namePartial (name : string) : Partial :=
  mkPartial None None None (Some true) (Some name) None None.

(** [saveNameCache] as called from this screen: nothing without the ids. *)
Definition saveNameCache (cfg : Config) (partialMap : gmap string string)
    (st : State) : State :=
  if Text.isEmpty (cpid cfg) || Text.isEmpty (deviceId cfg) then st
  else emit [SaveNameCache partialMap] st.

(** One turn of the loop over the name map. *)
Definition nameEntry (now : Z) (acc : Acc) (kv : string * json) : Acc :=
  match chanOfKey (fst kv) with
  | None => acc
  | Some i =>
      let gotName := sanitizeName rt (Some (snd kv)) in
      if Text.isEmpty gotName then acc
      else if Text.testPlaceholder gotName then acc
      else
        let st := a_state acc in
        let apply (st' : State) : Acc :=
          mkAcc (put i (namePartial gotName) (a_patch acc)) st'
                (<["C" +:+ pretty i := gotName]> (a_toSave acc)) in
        match pendingName st !! i with
        | Some pending =>
            if now <=? pn_expiresAt pending then
              let expected := Text.trim (pn_value pending) in
              if String.eqb gotName expected then
                apply (emit [Toast ("Name saved: C" +:+ pretty i)]
                         (setNameLock (<[i := 0]> (nameLock st))
                            (setPendingName (delete i (pendingName st)) st)))
              else acc
            else
              if now <? default 0 (nameLock st !! i) then acc else apply st
        | None =>
            if now <? default 0 (nameLock st !! i) then acc else apply st
        end
  end.

Definition nameSection (cfg : Config) (now : Z) (j : Js.value)
    (patch : gmap Z Partial) (st : State) : gmap Z Partial * State :=
  match extractNameMap j with
  | Some nameMap2 =>
      let acc := fold_left (nameEntry now) (Js.entries nameMap2)
                   (mkAcc patch st ∅) in
      (a_patch acc, saveNameCache cfg (a_toSave acc) (a_state acc))
  | None => (patch, st)
  end.

(** [Array.isArray(cmdRaw) ? cmdRaw
      : (cmdRaw && typeof cmdRaw === 'object') ? [cmdRaw] : []] *)
Definition commandList (j : Js.value) : list json :=
  let cmdRaw := Js.or (Js.get "command" (Js.get "data" j))
                      (Js.get "command" (Js.get "d" j)) in
  match cmdRaw with
  | Some (JArr items) => items
  | Some (JObj fields) => [JObj fields]
  | _ => []
  end.

(** 3a: the ON/OFF echo in the first command. *)
Definition onOffEcho (cmdList : list json) (patch : gmap Z Partial)
    : gmap Z Partial :=
  let first := head cmdList in
  let onVal := Js.coalesce (Js.get "ON" first) (Js.get "on" first) in
  let offVal := Js.coalesce (Js.get "OFF" first) (Js.get "off" first) in
  let act := if Js.notNull onVal then Some ON
             else if Js.notNull offVal then Some OFF else None in
  let ch := Js.coalesce onVal offVal in
  match act with
  | Some a =>
      if Js.notNull ch then
        match chanOfKeyOrInt ch with
        | Some i => put i (mkPartial None None (Some a) (Some true) None None None) patch
        | None => patch
        end
      else patch
  | None => patch
  end.

(** One turn of the inner loop of 3b. *)
Definition setNameEntry (cfg : Config) (now : Z) (acc : gmap Z Partial * State)
    (kv : string * json) : gmap Z Partial * State :=
  match chanOfKey (fst kv) with
  | None => acc
  | Some i =>
      let newName := sanitizeName rt (Some (snd kv)) in
      if Text.isEmpty newName then acc
      else
        let st := snd acc in
        (put i (namePartial newName) (fst acc),
         saveNameCache cfg {["C" +:+ pretty i := newName]}
           (setNameLock (<[i := now + 8000]> (nameLock st)) st))
  end.

(** 3b: the first command that carries a ["Set Name"] object. *)
Fixpoint setNameEcho (cfg : Config) (now : Z) (cmdList : list json)
    (acc : gmap Z Partial * State) : gmap Z Partial * State :=
  match cmdList with
  | one :: rest =>
      let setNameObj := Js.get "Set Name" (Some one) in
      match setNameObj with
      | Some o =>
          if Js.truthy setNameObj && Js.isObject setNameObj
          then fold_left (setNameEntry cfg now) (Js.entries o) acc
          else setNameEcho cfg now rest acc
      | None => setNameEcho cfg now rest acc
      end
  | [] => acc
  end.

(** The part shared by 3c and the rating map: a
    [[currentAmps, sensitivityLevel]] pair with both numbers finite. *)
Definition ratingPair (vv : json) : option (float * float) :=
  match vv with
  | JArr items =>
      if (length items <? 2)%nat then None
      else
        let cur := Js.Number_ rt (Js.index 0 (Some vv)) in
        let sens := Js.Number_ rt (Js.index 1 (Some vv)) in
        if negb (Js.isFinite cur) || negb (Js.isFinite sens) then None
        else Some (cur, sens)
  | _ => None
  end.

Definition ratingPartial (cur sens : float) : Partial :=
  mkPartial None None None (Some true) None (Some cur) (Some sens).

Definition setRatingEntry (patch : gmap Z Partial) (kv : string * json)
    : gmap Z Partial :=
  match chanOfKey (fst kv) with
  | None => patch
  | Some i =>
      match ratingPair (snd kv) with
      | Some (cur, sens) => put i (ratingPartial cur sens) patch
      | None => patch
      end
  end.

(** 3c: the first command that carries a ["Set Rating"] object. *)
Fixpoint setRatingEcho (cmdList : list json) (patch : gmap Z Partial)
    : gmap Z Partial :=
  match cmdList with
  | one :: rest =>
      let setRatingObj := Js.get "Set Rating" (Some one) in
      match setRatingObj with
      | Some o =>
          if Js.truthy setRatingObj && Js.isObject setRatingObj
          then fold_left setRatingEntry (Js.entries o) patch
          else setRatingEcho rest patch
      | None => setRatingEcho rest patch
      end
  | [] => patch
  end.

(** One turn of the loop over the rating map. *)
Definition ratingEntry (now : Z) (acc : gmap Z Partial * State)
    (kv : string * json) : gmap Z Partial * State :=
  match chanOfKey (fst kv) with
  | None => acc
  | Some i =>
      match ratingPair (snd kv) with
      | None => acc
      | Some (cur, sens) =>
          let patch := put i (ratingPartial cur sens) (fst acc) in
          let st := snd acc in
          match pendingRating st !! i with
          | Some p =>
              if (now <=? pr_expiresAt p)
                 && (cur =? pr_cur p)%float && (sens =? pr_sens p)%float
              then (patch,
                    emit [Toast ("Rating saved: C" +:+ pretty i)]
                      (setPendingRating (delete i (pendingRating st)) st))
              else (patch, st)
          | None => (patch, st)
          end
      end
  end.

Definition ratingMapOf (j : Js.value) : Js.value :=
  let d := Js.get "d" j in
  let data := Js.get "data" j in
  Js.or (Js.get "Rating" d) (Js.or (Js.get "Rating" data)
    (Js.or (Js.get "Rating" (Js.get "command" d))
           (Js.get "Rating" (Js.get "command" data)))).

Definition ratingSection (now : Z) (j : Js.value)
    (acc : gmap Z Partial * State) : gmap Z Partial * State :=
  let ratingMap := ratingMapOf j in
  match ratingMap with
  | Some o =>
      if Js.truthy ratingMap && Js.isObject ratingMap
      then fold_left (ratingEntry now) (Js.entries o) acc
      else acc
  | None => acc
  end.

(** The handler on the parsed message [j]. *)
Definition onMessageJson (cfg : Config) (now : Z) (j : Js.value) (st : State)
    : State :=
  let cmdType := Js.String_ rt (Js.coalesce (Js.get "cmdType" j) (Some (JStr ""))) in
  let hasCurrent :=
    Js.truthy (Js.or (Js.get "current" (Js.get "d" j))
                 (Js.or (Js.get "current" (Js.get "data" j)) (Js.get "current" j))) in
  let hasName := Js.truthy (extractNameMap j) in
  let hasRating := Js.truthy (ratingMapOf j) in
  if negb hasCurrent && negb hasName && negb hasRating
     && negb (String.eqb cmdType "1") && negb (String.eqb cmdType "4")
     && negb (String.eqb cmdType "5")
  then st
  else
    let patch1 := currentSection j ∅ in
    let '(patch2, st2) := nameSection cfg now j patch1 st in
    let cmdList := commandList j in
    let '(patch3, st3) :=
      match cmdList with
      | [] => (patch2, st2)
      | _ :: _ =>
          let '(p, s) := setNameEcho cfg now cmdList (onOffEcho cmdList patch2, st2) in
          (setRatingEcho cmdList p, s)
      end in
    let '(patch4, st4) := ratingSection now j (patch3, st3) in
    if bool_decide (patch4 = ∅) then st4
    else setStore (enqueueTagPatch now patch4 (store st4)) st4.

(** The [onMessage] callback; [text] is the payload the native event
    carries, [None] when it carries none. *)
Definition onMessage (cfg : Config) (now : Z) (text : option string)
    (st : State) : State :=
  match text with
  | None => st
  | Some s =>
      if Text.isEmpty s then st
      else match jsonParse rt s with
           | Some j => onMessageJson cfg now (Some j) st
           | None => st
           end
  end.

End WithRuntime.

(** *** Toggling a channel *)

Definition chanKey (channel : Z) : string := "C" +:+ pretty channel.

Definition actionName (act : Status) : string :=
  match act with OFF => "OFF" | _ => "ON" end.

(** [buildCmdSupervisorExact] with [useCPrefix] set *)
Definition buildCmdSupervisorExact (cfg : Config) (act : Status) (channel : Z)
    : Envelope :=
  mkEnvelope (JStr "1") (cpid cfg) (deviceId cfg)
    (JArr [JObj [(actionName act, JStr (chanKey channel))]]) false.

(** [handleToggle(id, action)]; [android] is [Platform.OS === 'android'].
    An action other than OFF counts as ON. *)
Definition handleToggle (android : bool) (now : Z) (channel : Z)
    (action : Status) (st : State) : State :=
  if negb (bool_decide (conn st = CONNECTED)) then st
  else
    let act := match action with OFF => OFF | _ => ON end in
    safeSetTimeout now (ToggleSend channel act) 0
      (setStore (toggleNow android now channel act (store st)) st).

(** *** Writing a name or a rating *)

Definition setNameEnvelopeA (cfg : Config) (channel : Z) (nameStr : string) : Envelope :=
  mkEnvelope (JNum 5) (cpid cfg) (deviceId cfg)
    (JObj [("Set Name", JObj [(chanKey channel, JStr nameStr)])]) true.

Definition setNameEnvelopeB (cfg : Config) (channel : Z) (nameStr : string) : Envelope :=
  mkEnvelope (JNum 5) (cpid cfg) (deviceId cfg)
    (JArr [JObj [("Set Name", JObj [(chanKey channel, JStr nameStr)])]]) true.

Definition bankOf (channel : Z) : Bank :=
  if (1 <=? channel) && (channel <=? 80) then Name1 else Name2.

(** [publishSetName(ch, newName)].  [now] is the time of the call.  [okA]
    and [okB] tell whether the two awaited publishes resolved; a rejected
    one ends the function there.  [sent] is the time at which both have
    resolved and the two timers are set. *)
Definition publishSetName (cfg : Config) (now sent : Z) (okA okB : bool)
    (channel : Z) (newName : string) (st : State) : State :=
  if negb (bool_decide (conn st = CONNECTED)) then st
  else if Text.isEmpty (cpid cfg) || Text.isEmpty (deviceId cfg) then st
  else
    let nameStr := Text.trim newName in
    if Text.isEmpty nameStr then emit [Toast "Invalid channel/name"] st
    else
      let st1 := setNameLock (<[channel := now + 8000]> (nameLock st))
                   (setPendingName
                      (<[channel := mkPendingName nameStr (now + 8000)]> (pendingName st))
                      st) in
      let st2 := setStore
                   (enqueueTagPatch now {[channel := namePartial nameStr]} (store st1))
                   st1 in
      let st3 := saveNameCache cfg {[chanKey channel := nameStr]} st2 in
      let st4 := publishAll (publishWrite cfg st3 (setNameEnvelopeA cfg channel nameStr)) st3 in
      if negb okA then st4
      else
        let st5 := publishAll (publishWrite cfg st4 (setNameEnvelopeB cfg channel nameStr)) st4 in
        if negb okB then st5
        else
          let bank := bankOf channel in
          let st6 := safeSetTimeout sent (NameReadBack bank) 2500 st5 in
          let st7 := emit [Toast ("Set Name " +:+ chanKey channel)] st6 in
          safeSetTimeout sent (NameTimeout channel bank) 8200 st7.

Definition setRatingEnvelopeA (cfg : Config) (channel : Z) (cur sens : float) : Envelope :=
  mkEnvelope (JNum 4) (cpid cfg) (deviceId cfg)
    (JObj [("Set Rating", JObj [(chanKey channel, JArr [JNum cur; JNum sens])])]) true.

Definition setRatingEnvelopeB (cfg : Config) (channel : Z) (cur sens : float) : Envelope :=
  mkEnvelope (JNum 4) (cpid cfg) (deviceId cfg)
    (JArr [JObj [("Set Rating", JObj [(chanKey channel, JArr [JNum cur; JNum sens])])]]) true.

(** [publishSetRating(ch, currentA, sensLevel)], with the same conventions. *)
Definition publishSetRating (cfg : Config) (now sent : Z) (okA okB : bool)
    (channel : Z) (cur sens : float) (st : State) : State :=
  if negb (bool_decide (conn st = CONNECTED)) then st
  else if Text.isEmpty (cpid cfg) || Text.isEmpty (deviceId cfg) then st
  else if negb (Js.isFinite cur) || negb (Js.isFinite sens)
  then emit [Toast "Invalid current/sensitivity"] st
  else
    let st1 := setPendingRating
                 (<[channel := mkPendingRating cur sens (now + 8000)]> (pendingRating st))
                 st in
    let st2 := publishAll (publishWrite cfg st1 (setRatingEnvelopeA cfg channel cur sens)) st1 in
    if negb okA then st2
    else
      let st3 := publishAll (publishWrite cfg st2 (setRatingEnvelopeB cfg channel cur sens)) st2 in
      if negb okB then st3
      else
        let st4 := safeSetTimeout sent RatingReadBack 2500 st3 in
        let st5 := emit [Toast ("Set Rating " +:+ chanKey channel)] st4 in
        safeSetTimeout sent (RatingTimeout channel) 8200 st5.

(** The body of a [safeSetTimeout] callback, run at time [now].  [failure]
    is the message of the error with which a publish it awaits rejects,
    [None] when the publish resolves; only the toggle has a [catch]. *)
Definition runTimeout (cfg : Config) (now : Z) (failure : option string)
    (fn : TimeoutAction) (st : State) : State :=
  match fn with
  | ToggleSend channel act =>
      if Text.isEmpty (cpid cfg) || Text.isEmpty (deviceId cfg) then st
      else
        let reqs := publishControl cfg st (buildCmdSupervisorExact cfg act channel) in
        let st1 := publishAll reqs st in
        match reqs, failure with
        | _ :: _, Some msg =>
            setStore (toggleFailed now channel act (store st1)) (emit [Toast msg] st1)
        | _, _ => st1
        end
  | NameReadBack bank => requestNameBank cfg bank st
  | NameTimeout channel bank =>
      match pendingName st !! channel with
      | None => st
      | Some _ =>
          let st1 := setPendingName (delete channel (pendingName st)) st in
          let st2 := setNameLock (<[channel := 0]> (nameLock st1)) st1 in
          let st3 := emit [Toast ("Name save timeout: " +:+ chanKey channel)] st2 in
          requestNameBank cfg bank st3
      end
  | RatingReadBack => requestRatingMap cfg st
  | RatingTimeout channel =>
      match pendingRating st !! channel with
      | None => st
      | Some _ =>
          let st1 := setPendingRating (delete channel (pendingRating st)) st in
          let st2 := emit [Toast ("Rating save timeout: " +:+ chanKey channel)] st1 in
          requestRatingMap cfg st2
      end
  end.

(** The [k]-th pending timer fires: [safeSetTimeout] forgets it, then runs
    its callback. *)
Definition fireTimeout (cfg : Config) (now : Z) (failure : option string)
    (k : nat) (st : State) : State :=
  match timeouts st !! k with
  | Some (_, fn) =>
      runTimeout cfg now failure fn (setTimeouts (delete k (timeouts st)) st)
  | None => st
  end.

(** *** Reading the log of effects *)

(** The messages of the toasts in a log of effects. *)
Definition toasts (es : list Effect) : list string :=
  omap (fun e => match e with Toast msg => Some msg | _ => None end) es.

(** Whether an effect is the publish of the keep-alive command. *)
Definition isFastInterval (e : Effect) : bool :=
  match e with
  | PublishMqtt req =>
      match command (payload req) with
      | JArr [JStr what] => String.eqb what "fast interval"
      | _ => false
      end
  | _ => false
  end.

(** How many keep-alive commands a log of effects holds. *)
Definition keepAliveCount (es : list Effect) : nat :=
  length (List.filter isFastInterval es).

(** [n] firings of the 58 s timer in a row, each at the time it was set
    for. *)
Fixpoint keepAliveTicks (cfg : Config) (n : nat) (st : State) : State :=
  match n with
  | O => st
  | S k =>
      match fastTimer st with
      | Some t => keepAliveTicks cfg k (fastTimerFire cfg t st)
      | None => st
      end
  end.
End Screen.

(** ** NativeModule: [MqttNativeModule.kt], the Android side *)
Module NativeModule.

(** What the module asks of the Paho client, in order. *)
Inductive WireOp : Type :=
| WireConnect (uri : string) (clientId : string)
| WireSubscribe (topic : string) (qos : Z)
| WirePublish (topic : string) (payload : string) (qos : Z) (retained : bool)
| WireDisconnect.

(** The [client] field: [None] is [null]; otherwise the Paho client, of
    which the module reads [isConnected]. *)
Record State : Type := mkState {
  client : option bool;
  wire : list WireOp;
}.

(** How a promise handed to a [@ReactMethod] settles. *)
Inductive Promise : Type :=
| Resolved
| Rejected (code : string).

Definition notConnected (st : State) : bool :=
  match client st with
  | None => true
  | Some isConnected => negb isConnected
  end.

(** [subscribe(topic, qos, promise)]; [granted] is the broker's answer,
    which reaches the listener of [c.subscribe]. *)
Definition subscribe (topic : string) (qos : Z) (granted : bool) (st : State)
    : State * Promise :=
  if notConnected st then (st, Rejected "MQTT_NOT_CONNECTED")
  else
    (mkState (client st) (wire st ++ [WireSubscribe topic qos]),
     if granted then Resolved else Rejected "MQTT_SUB_FAIL").

(** [publish(topic, payload, qos, retained, promise)]; [throws] tells
    whether [c.publish] throws. *)
Definition publish (topic payload : string) (qos : Z) (retained : bool)
    (throws : bool) (st : State) : State * Promise :=
  if notConnected st then (st, Rejected "MQTT_NOT_CONNECTED")
  else if throws then (st, Rejected "MQTT_PUB_FAIL")
  else
    let q := Z.max 0 (Z.min 2 qos) in
    (mkState (client st) (wire st ++ [WirePublish topic payload q retained]),
     Resolved).

End NativeModule.

(** ** NativeIos: the iOS module [MqttNative] (Swift), one client per
    client id *)
Module NativeIos.

(** [clients]: for each client id, whether the client's [connState] is
    [.connected]; and what was asked of which client, in order. *)
Record State : Type := mkState {
  clients : gmap string bool;
  wire : list (string * NativeModule.WireOp);
}.

(** The [guard] of [subscribe] and [publish], negated. *)
Definition notConnected (clientId : string) (st : State) : bool :=
  match clients st !! clientId with
  | Some connected => negb connected
  | None => true
  end.

Definition subscribe (topic : string) (qos : Z) (clientId : string) (st : State)
    : State * NativeModule.Promise :=
  if notConnected clientId st then (st, NativeModule.Rejected "MQTT_NOT_CONNECTED")
  else
    (mkState (clients st) (wire st ++ [(clientId, NativeModule.WireSubscribe topic qos)]),
     NativeModule.Resolved).

Definition publish (topic payload : string) (qos : Z) (retained : bool)
    (clientId : string) (st : State) : State * NativeModule.Promise :=
  if notConnected clientId st then (st, NativeModule.Rejected "MQTT_NOT_CONNECTED")
  else
    (mkState (clients st)
       (wire st ++ [(clientId, NativeModule.WirePublish topic payload qos retained)]),
     NativeModule.Resolved).

End NativeIos.

(** ** NativeClient: [src/utils/MqttNativeClient.js] *)
Module NativeClient.

(** [instanceMap], a JavaScript [Map] from client ids to instances of
    [MqttClient]: the entries in insertion order. *)
Abbreviation InstanceMap Inst := (list (string * Inst)).

Section Registry.
Context {Inst : Type}.

(** [Map.prototype.get] *)
Fixpoint mapGet (k : string) (m : InstanceMap Inst) : option Inst :=
  match m with
  | (k', v) :: rest => if String.eqb k k' then Some v else mapGet k rest
  | [] => None
  end.

(** [Map.prototype.set]: a present key keeps its place, a new one goes last. *)
Fixpoint mapSet (k : string) (v : Inst) (m : InstanceMap Inst) : InstanceMap Inst :=
  match m with
  | (k', v') :: rest =>
      if String.eqb k k' then (k', v) :: rest else (k', v') :: mapSet k v rest
  | [] => [(k, v)]
  end.

(** [Map.prototype.delete] *)
Fixpoint mapDelete (k : string) (m : InstanceMap Inst) : InstanceMap Inst :=
  match m with
  | (k', v') :: rest =>
      if String.eqb k k' then rest else (k', v') :: mapDelete k rest
  | [] => []
  end.

(** [getActiveInstance]: [forEach] leaves the last value in [last]. *)
Definition getActiveInstance (m : InstanceMap Inst) : option Inst :=
  fold_left (fun _ kv => Some (snd kv)) m None.

(** The [clientId] of a native event: [None] when the event has none. *)
Definition Event : Type := option string.

(** [clientId ? instanceMap.get(clientId) : getActiveInstance()], the first
    line of the three listeners; [None] is the [if (!inst) return]. *)
Definition route (e : Event) (m : InstanceMap Inst) : option Inst :=
  match e with
  | Some clientId =>
      if Text.isEmpty clientId then getActiveInstance m else mapGet clientId m
  | None => getActiveInstance m
  end.

(** The constructor of [MqttClient] registers the new instance; its
    [disconnect] removes it. *)
Inductive Op : Type :=
| Construct (clientId : string) (inst : Inst)
| Disconnect (clientId : string).

Definition step (m : InstanceMap Inst) (op : Op) : InstanceMap Inst :=
  match op with
  | Construct clientId inst => mapSet clientId inst m
  | Disconnect clientId => mapDelete clientId m
  end.

Definition run (ops : list Op) : InstanceMap Inst := fold_left step ops [].

(** *** The routing the specification describes, read off the history *)

(** The instance registered under [id] and not disconnected since, read
    off the history from its end. *)
Fixpoint registeredUnderFrom (id : string) (rops : list Op) : option Inst :=
  match rops with
  | Construct k inst :: earlier =>
      if String.eqb id k then Some inst else registeredUnderFrom id earlier
  | Disconnect k :: earlier =>
      if String.eqb id k then None else registeredUnderFrom id earlier
  | [] => None
  end.

Definition registeredUnder (id : string) (ops : list Op) : option Inst :=
  registeredUnderFrom id (rev ops).

(** The most recently registered instance that is still live: going back
    through the history, the first construction whose id has not been
    disconnected later ([gone] collects those ids). *)
Fixpoint latestLiveFrom (rops : list Op) (gone : list string) : option Inst :=
  match rops with
  | Construct k inst :: earlier =>
      if bool_decide (k ∈ gone) then latestLiveFrom earlier gone else Some inst
  | Disconnect k :: earlier => latestLiveFrom earlier (k :: gone)
  | [] => None
  end.

Definition mostRecentlyRegisteredLive (ops : list Op) : option Inst :=
  latestLiveFrom (rev ops) [].

(** Every construction uses an id that no live instance has. *)
Fixpoint freshFrom (m : InstanceMap Inst) (ops : list Op) : bool :=
  match ops with
  | Construct k inst :: later =>
      bool_decide (mapGet k m = None) && freshFrom (mapSet k inst m) later
  | Disconnect k :: later => freshFrom (mapDelete k m) later
  | [] => true
  end.

Definition freshIds (ops : list Op) : Prop := freshFrom [] ops = true.

End Registry.

Arguments Op : clear implicits.

(** *** The function-style API over the default client *)

(** [MqttClient.publish] on Android, and [publishMqtt] over
    [_defaultClient] ([hasDefault] tells whether there is one). *)
Definition publishMqtt (hasDefault : bool) (topic payload : string) (qos : Z)
    (retained throws : bool) (native : NativeModule.State)
    : NativeModule.State * NativeModule.Promise :=
  if negb hasDefault
  then (native, NativeModule.Rejected "No active MQTT connection")
  else NativeModule.publish topic payload qos retained throws native.

(** The requests of one screen helper, awaited one after the other: a
    rejection ends the helper, so the later requests are not made.
    [encode] is the [JSON.stringify] of the envelope; [throws] tells, per
    request, whether the transport throws. *)
Fixpoint deliverAll (encode : Screen.Envelope -> string) (hasDefault : bool)
    (throws : list bool) (reqs : list Screen.PublishRequest)
    (native : NativeModule.State)
    : NativeModule.State * list NativeModule.Promise :=
  match reqs with
  | [] => (native, [])
  | r :: rest =>
      let '(native1, p) :=
        publishMqtt hasDefault (Screen.topic r) (encode (Screen.payload r))
          (Screen.qos r) (Screen.retained r) (default false (head throws)) native in
      match p with
      | NativeModule.Resolved =>
          let '(native2, ps) := deliverAll encode hasDefault (tail throws) rest native1 in
          (native2, p :: ps)
      | NativeModule.Rejected _ => (native1, [p])
      end
  end.

End NativeClient.

(** ** Manager: [src/utils/MqttManager.js] *)
Module Manager.

Record Device : Type := mkDevice {
  d_host : string;
  d_port : Js.value;
  d_useTls : option bool;
  d_topic : string;
}.

(** The module variables.  Of the exported [state], the two flags are
    kept; [scheduled] lists the delays handed to [setTimeout] by
    [scheduleReconnect], oldest first. *)
Record State : Type := mkState {
  connected : bool;
  connecting : bool;
  currentDevice : option Device;
  retryCount : Z;
  (** [reconnectTimer]: the time at which the pending timer fires *)
  reconnectTimer : option Z;
  scheduled : list Z;
}.

Definition initial : State := mkState false false None 0 None [].

Definition clearTimer (st : State) : State :=
  mkState (connected st) (connecting st) (currentDevice st) (retryCount st)
    None (scheduled st).

(** [Math.min(30000, 1000 * Math.pow(2, retryCount))] *)
Definition reconnectDelay (n : Z) : Z := Z.min 30000 (1000 * 2 ^ n).

Definition scheduleReconnect (now : Z) (st : State) : State :=
  match currentDevice st with
  | None => st
  | Some _ =>
      let st1 := clearTimer st in
      let delay := reconnectDelay (retryCount st1) in
      mkState (connected st1) (connecting st1) (currentDevice st1)
        (retryCount st1) (Some (now + delay)) (scheduled st1 ++ [delay])
  end.

(** [connectDevice(device)] up to its first [await]. *)
Definition connectDevice_enter (device : Device) (st : State) : State :=
  mkState false true (Some device) 0 None (scheduled st).

(** [connectAndSubscribe] resolved: the end of the [try] block. *)
Definition connectDevice_resolved (st : State) : State :=
  mkState true false (currentDevice st) (retryCount st) (reconnectTimer st)
    (scheduled st).

(** [connectAndSubscribe] rejected: the [catch] block. *)
Definition connectDevice_rejected (now : Z) (st : State) : State :=
  scheduleReconnect now
    (mkState false false (currentDevice st) (retryCount st) (reconnectTimer st)
       (scheduled st)).

(** The callback of the reconnect timer. *)
Definition reconnectFire (st : State) : State :=
  let st1 := mkState (connected st) (connecting st) (currentDevice st)
               (retryCount st + 1) (reconnectTimer st) (scheduled st) in
  match currentDevice st1 with
  | Some device => connectDevice_enter device st1
  | None => st1
  end.

(** [disconnectDevice] *)
Definition disconnectDevice (st : State) : State :=
  mkState false false None 0 None (scheduled st).

(** A first [connectDevice(device)] that fails at time [t0], then one
    reconnect attempt per element of [times], each failing at that time. *)
Definition consecutiveFailures (device : Device) (t0 : Z) (times : list Z)
    (st : State) : State :=
  fold_left (fun s t => connectDevice_rejected t (reconnectFire s)) times
    (connectDevice_rejected t0 (connectDevice_enter device st)).

Section WithRuntime.
Context (rt : JsRuntime).

Definition onStatus (now : Z) (s : string) (st : State) : State :=
  let up := toUpperCase rt s in
  let ok := Text.startsWith "CONNECTED" up || Text.startsWith "SUBSCRIBED" up in
  let disc := Text.startsWith "DISCONNECTED" up in
  let st1 := mkState ok (negb ok && negb disc) (currentDevice st) (retryCount st)
               (reconnectTimer st) (scheduled st) in
  if disc then scheduleReconnect now st1 else st1.

Definition onError (now : Z) (st : State) : State := scheduleReconnect now st.

(** Everything that can happen to the manager: the exported calls, the
    settling of a connection attempt, the callbacks of the client and the
    reconnect timer (which fires only while it is pending). *)
Inductive Event : Type :=
| EvConnectDevice (device : Device)
| EvResolved
| EvRejected (now : Z)
| EvStatus (now : Z) (s : string)
| EvError (now : Z)
| EvTimer
| EvDisconnectDevice.

Definition step (st : State) (ev : Event) : State :=
  match ev with
  | EvConnectDevice device => connectDevice_enter device st
  | EvResolved => connectDevice_resolved st
  | EvRejected now => connectDevice_rejected now st
  | EvStatus now s => onStatus now s st
  | EvError now => onError now st
  | EvTimer =>
      match reconnectTimer st with
      | Some _ => reconnectFire st
      | None => st
      end
  | EvDisconnectDevice => disconnectDevice st
  end.

(** *** [authenticateForAddDevice] *)

Definition detectTlsByPort (p : float) : bool :=
  (p =? 8883)%float || (p =? 8812)%float.

Definition DEFAULT_CPID : string := "51c5c752".

Definition buildEventBaseTopic (cpId deviceId : string) : string :=
  let cpid := Text.trim (if Text.isEmpty cpId then DEFAULT_CPID else cpId) in
  let i := Text.trim deviceId in
  if Text.isEmpty cpid || Text.isEmpty i then ""
  else "devices/" +:+ cpid +:+ "/" +:+ i +:+ "/messages/events".

Definition buildSubscribeTopic (cpId deviceId : string) : string :=
  let base := buildEventBaseTopic cpId deviceId in
  if Text.isEmpty base then "" else base +:+ "/#".

(** An error as [authenticateForAddDevice] reads it; an empty [raw] stands
    for a missing one. *)
Record Error : Type := mkError { raw : string; message : string }.

Definition shouldFlipTls (err : Error) : bool :=
  let text := toUpperCase rt (if Text.isEmpty (raw err) then message err else raw err) in
  Text.includes "UNRECOGNIZED PACKET" text
  || Text.includes "SSLHANDSHAKE" text
  || Text.includes "HANDSHAKE" text
  || Text.includes "EOFEXCEPTION" text
  || Text.includes "CONNECTION CLOSED" text.

Record AuthInfo : Type := mkAuthInfo {
  topicSub : string;
  topicBase : string;
  useTls : bool;
}.

Inductive Outcome : Type :=
| Return (info : AuthInfo)
| Throw (err : Error).

(** What the function asks of [MqttNativeClient], in order. *)
Inductive Call : Type :=
| CallDisconnect
| CallConnect (tlsFlag : bool).

Definition connectCalls (calls : list Call) : list bool :=
  omap (fun c => match c with CallConnect b => Some b | CallDisconnect => None end) calls.

(** [Number(port) || 1883] *)
Definition portOrDefault (port : Js.value) : float :=
  let n := Js.Number_ rt port in
  if Js.truthy (Some (JNum n)) then n else 1883%float.

(** [typeof useTlsInput === 'boolean' ? useTlsInput : detectTlsByPort(p)] *)
Definition firstTlsMode (useTlsInput : option bool) (p : float) : bool :=
  match useTlsInput with
  | Some b => b
  | None => detectTlsByPort p
  end.

(** [authenticateForAddDevice].  [tryOnce k tlsFlag] is the result of the
    [k]-th call of the inner [tryOnce] (connect and subscribe under the
    timeout): [None] when it resolves, the error when it rejects. *)
Definition authenticateForAddDevice (host : string) (port : Js.value)
    (cpId deviceId : string) (useTlsInput : option bool)
    (tryOnce : nat -> bool -> option Error) : Outcome * list Call :=
  let p := portOrDefault port in
  let subTopic := buildSubscribeTopic cpId deviceId in
  if Text.isEmpty host then (Throw (mkError "" "Host is required"), [])
  else if Text.isEmpty subTopic then (Throw (mkError "" "cpId/deviceId is required"), [])
  else
    let useTls0 := firstTlsMode useTlsInput p in
    let info b := mkAuthInfo subTopic (buildEventBaseTopic cpId deviceId) b in
    let first := [CallDisconnect; CallConnect useTls0] in
    match tryOnce 0%nat useTls0 with
    | None => (Return (info useTls0), first ++ [CallDisconnect])
    | Some e1 =>
        if (p =? 1883)%float then (Throw e1, first ++ [CallDisconnect])
        else if shouldFlipTls e1 then
          let flipped := negb useTls0 in
          let second := first ++ [CallDisconnect; CallConnect flipped] in
          match tryOnce 1%nat flipped with
          | None => (Return (info flipped), second ++ [CallDisconnect])
          | Some e2 => (Throw e2, second ++ [CallDisconnect])
          end
        else (Throw e1, first ++ [CallDisconnect])
    end.

End WithRuntime.

End Manager.

(** ** Split: [split], [join], [filter(Boolean)] and [indexOf] on texts *)
Module Split.

(** [s.split(sep)] for a separator of one character *)
Fixpoint split (sep : ascii) (s : string) : list string :=
  match s with
  | EmptyString => [EmptyString]
  | String c r =>
      if Ascii.eqb c sep then EmptyString :: split sep r
      else match split sep r with
           | p :: ps => String c p :: ps
           | [] => [String c EmptyString]
           end
  end.

(** [parts.join('')] *)
Fixpoint join (parts : list string) : string :=
  match parts with
  | [] => EmptyString
  | p :: ps => p +:+ join ps
  end.

(** [parts.filter(Boolean)] *)
Definition nonEmpty (parts : list string) : list string :=
  List.filter (fun p => negb (Text.isEmpty p)) parts.

(** [parts.indexOf(x)]; [None] is -1. *)
Fixpoint indexOf (x : string) (parts : list string) : option nat :=
  match parts with
  | [] => None
  | y :: rest => if String.eqb y x then Some O else S <$> indexOf x rest
  end.

End Split.

(** ** Topic: the ids [MqttDeviceGridScreen.js] reads from the topic of
    the device it was opened with *)
Module Topic.

(** [t.replace(/\/#$/, '')] *)
Fixpoint dropWildcard (t : string) : string :=
  match t with
  | String a r =>
      match r with
      | String b EmptyString =>
          if (Text.code a =? 47) && (Text.code b =? 35) then EmptyString else t
      | _ => String a (dropWildcard r)
      end
  | EmptyString => t
  end.

(** [deriveFromEventsTopic(eventsTopic)] on a text; the result is
    [{ cpid, deviceId }]. *)
Definition deriveFromEventsTopic (eventsTopic : string) : Screen.Config :=
  let t := dropWildcard (Text.trim eventsTopic) in
  let parts := Split.nonEmpty (Split.split "/" t) in
  match Split.indexOf "devices" parts with
  | None => Screen.mkConfig "" ""
  | Some i =>
      if (length parts <? i + 3)%nat then Screen.mkConfig "" ""
      else Screen.mkConfig (nth (i + 1) parts "") (nth (i + 2) parts "")
  end.

(** [String(device.topic || device.subTopic || '').trim()], for a device
    whose two fields are texts; the empty text stands for a missing one. *)
Definition topicOf (topic subTopic : string) : string :=
  Text.trim (if Text.isEmpty topic then subTopic else topic).

End Topic.

(** ** NameCache: the cached names [MqttDeviceGridScreen.js] merges into
    [tags] when the screen opens *)
Module NameCache.
Import Codec.

(** Whether a text holds one of the characters U+0000 to U+001F or U+007F. *)
Fixpoint hasControl (s : string) : bool :=
  match s with
  | String c r => (Text.code c <=? 31) || (Text.code c =? 127) || hasControl r
  | EmptyString => false
  end.

(** [{ ...old, tagName: gotName, seen: true }] *)
Definition rename (old : Tag) (gotName : string) : Tag :=
  {| id := id old; status := status old; current := current old;
     current1 := current1 old; current2 := current2 old; current3 := current3 old;
     rawStatus := rawStatus old; seen := true; tagName := gotName;
     currentRating := currentRating old; sensitivity := sensitivity old |}.

Section WithRuntime.
Context (rt : JsRuntime).

(** One turn of the loop of [mergeNamesIntoTags]: [old] is read from
    [prev], the write goes to [next]. *)
Definition mergeName (prev next : gmap Z Tag) (kv : string * json) : gmap Z Tag :=
  match Screen.chanOfKeyOrInt rt (Some (JStr (fst kv))) with
  | None => next
  | Some i =>
      let gotName := sanitizeName rt (Some (snd kv)) in
      if Text.isEmpty gotName then next
      else if Text.testPlaceholder gotName then next
      else
        let old := tagOrDefault prev i in
        if String.eqb (tagName old) gotName then next
        else <[i := rename old gotName]> next
  end.

(** [mergeNamesIntoTags(prev, obj)], the [setTags] callback of
    [loadNameCache] *)
Definition mergeNamesIntoTags (prev : gmap Z Tag) (obj : Js.value) : gmap Z Tag :=
  match obj with
  | Some o =>
      if negb (Js.truthy obj) || negb (Js.isObject obj) then prev
      else fold_left (mergeName prev) (Js.entries o) prev
  | None => prev
  end.

End WithRuntime.
End NameCache.

(** ** ClientError: how [MqttClient.connect] in [MqttNativeClient.js]
    reports a failure *)
Module ClientError.
Section WithRuntime.
Context (rt : JsRuntime).

(** The [userMsg] of [mapMqttError(err)], for an error whose message is
    [raw]. *)
Definition mapMqttError (raw : string) : string :=
  let up := toUpperCase rt raw in
  if Text.includes "REASONCODE=5" up || Text.includes "NOT AUTHORIZED" up
  then "Connection failed: username/password required"
  else if Text.includes "UNRECOGNIZED PACKET" up
  then "Protocol mismatch: port may require TLS or WebSocket."
  else if Text.includes "SSL" up || Text.includes "HANDSHAKE" up
  then "TLS handshake failed: cert/CA/host mismatch."
  else "Connection failed".

(** The error the [catch] of [connect] throws: [new Error(userMsg)] with
    [raw] attached. *)
Definition connectError (raw : string) : Manager.Error :=
  Manager.mkError raw (mapMqttError raw).

End WithRuntime.
End ClientError.

(** ** DefaultClient: the function-style API of [MqttNativeClient.js] over
    [_defaultClient], the only place where the sources construct an
    [MqttClient] *)
Module DefaultClient.
Import NativeClient.

Section Registry.
Context {Inst : Type}.

(** [instanceMap] and [_defaultClient] (its client id and the instance). *)
Record State : Type := mkState {
  instanceMap : InstanceMap Inst;
  defaultClient : option (string * Inst);
}.

Definition initial : State := mkState [] None.

(** [_defaultClient?.disconnect()], as far as the registry goes *)
Definition dropDefault (st : State) : InstanceMap Inst :=
  match defaultClient st with
  | Some (clientId, _) => mapDelete clientId (instanceMap st)
  | None => instanceMap st
  end.

(** [connectAndSubscribe(params)] up to the call of [connect]; [clientId]
    is the id the constructor draws for the new instance [inst]. *)
Definition connectAndSubscribe (clientId : string) (inst : Inst) (st : State)
    : State :=
  mkState (mapSet clientId inst (dropDefault st)) (Some (clientId, inst)).

(** [disconnectMqtt()] *)
Definition disconnectMqtt (st : State) : State :=
  match defaultClient st with
  | Some _ => mkState (dropDefault st) None
  | None => st
  end.

Inductive Call : Type :=
| ConnectAndSubscribe (clientId : string) (inst : Inst)
| DisconnectMqtt.

Definition step (st : State) (c : Call) : State :=
  match c with
  | ConnectAndSubscribe clientId inst => connectAndSubscribe clientId inst st
  | DisconnectMqtt => disconnectMqtt st
  end.

Definition run (calls : list Call) : State := fold_left step calls initial.

End Registry.

Arguments State : clear implicits.
Arguments Call : clear implicits.

End DefaultClient.

(** ** DeviceStorage: [src/utils/MqttDeviceStorage.js], the saved devices *)
Module DeviceStorage.

Section WithRuntime.
Context (rt : JsRuntime).

(** [loadMqttDevices]; [raw] is what [AsyncStorage.getItem] gave, [None]
    for [null]. *)
Definition loadMqttDevices (raw : option string) : list json :=
  match raw with
  | None => []
  | Some text =>
      if Text.isEmpty text then []
      else match jsonParse rt text with
           | Some (JArr arr) => arr
           | _ => []
           end
  end.

(** [String(d.deviceId)]; [None] when reading the property throws, as it
    does on [null] and [undefined]. *)
Definition deviceIdOf (d : Js.value) : option string :=
  match d with
  | None | Some JNull => None
  | Some _ => Some (Js.String_ rt (Js.get "deviceId" d))
  end.

(** [devices.filter(d => String(d.deviceId) !== key)], where [key] stands
    for the right-hand side, evaluated after the left-hand side at every
    element ([None] when evaluating it throws); the result is [None] when
    the callback throws. *)
Fixpoint withoutId (key : option string) (devices : list json)
    : option (list json) :=
  match devices with
  | [] => Some []
  | d :: rest =>
      match deviceIdOf (Some d), key with
      | Some a, Some b =>
          match withoutId key rest with
          | Some rest' => Some (if String.eqb a b then rest' else d :: rest')
          | None => None
          end
      | _, _ => None
      end
  end.

(** [addMqttDevice(device)] on the loaded list [devices]: the list it
    saves and returns; [None] when it throws. *)
Definition addMqttDevice (device : json) (devices : list json)
    : option (list json) :=
  match withoutId (deviceIdOf (Some device)) devices with
  | Some others => Some (device :: others)
  | None => None
  end.

(** [removeMqttDevice(deviceId)] on the loaded list [devices] *)
Definition removeMqttDevice (deviceId : Js.value) (devices : list json)
    : option (list json) :=
  withoutId (Some (Js.String_ rt deviceId)) devices.

End WithRuntime.
End DeviceStorage.

(** ** ConfigDialog: the number field of [MqttDeviceConfigDialog] *)
Module ConfigDialog.

(** [t.replace(/,/g, '.')] *)
Fixpoint commasToDots (t : string) : string :=
  match t with
  | String c r =>
      String (if Text.code c =? 44 then "."%char else c) (commasToDots r)
  | EmptyString => t
  end.

(** [t.replace(/[^\d.]/g, '')]: every byte of a character outside ASCII
    is outside the class too. *)
Fixpoint digitsAndDots (t : string) : string :=
  match t with
  | String c r =>
      if Text.isDigit c || (Text.code c =? 46) then String c (digitsAndDots r)
      else digitsAndDots r
  | EmptyString => t
  end.

(** [sanitizeDecimalInput(text)] on a text *)
Definition sanitizeDecimalInput (text : string) : string :=
  let t := digitsAndDots (commasToDots text) in
  let parts := Split.split "." t in
  if (2 <? length parts)%nat
  then hd EmptyString parts +:+ "." +:+ Split.join (tl parts)
  else t.

(** *** Reading a text *)

(** How many dots a text holds. *)
Fixpoint dots (s : string) : nat :=
  match s with
  | String c r => if Text.code c =? 46 then S (dots r) else dots r
  | EmptyString => O
  end.

(** The decimal digits of a text, in order. *)
Fixpoint digitsOf (s : string) : string :=
  match s with
  | String c r => if Text.isDigit c then String c (digitsOf r) else digitsOf r
  | EmptyString => EmptyString
  end.

(** Whether a text holds decimal digits and dots only. *)
Fixpoint plain (s : string) : bool :=
  match s with
  | String c r => (Text.isDigit c || (Text.code c =? 46)) && plain r
  | EmptyString => true
  end.

End ConfigDialog.

(** ** Client: what [MqttClient] in [MqttNativeClient.js] asks of the
    native module *)
Module Client.

(** The call of [c.publish] the Android module makes for a request. *)
Definition toWire (encode : Screen.Envelope -> string) (r : Screen.PublishRequest)
    : NativeModule.WireOp :=
  NativeModule.WirePublish (Screen.topic r) (encode (Screen.payload r))
    (Z.max 0 (Z.min 2 (Screen.qos r))) (Screen.retained r).

(** [useTls === true || useTls === 1 || useTls === '1'] *)
Definition useTlsBool (useTls : Js.value) : bool :=
  match useTls with
  | Some (JBool b) => b
  | Some (JNum x) => (x =? 1)%float
  | Some (JStr s) => String.eqb s "1"
  | _ => false
  end.

Section WithRuntime.
Context (rt : JsRuntime).

(** The arguments [connect] hands to [MqttNative.connect]: the host, the
    port and the TLS flag; [None] when it throws [Invalid port]. *)
Definition connect (host port useTls : Js.value) : option (string * float * bool) :=
  let p := Js.Number_ rt port in
  if negb (Js.isFinite p) || (p <=? 0)%float then None
  else
    let useTlsBool := useTlsBool useTls in
    let effectiveUseTls := if (p =? 1883)%float then false else useTlsBool in
    Some (Text.trim (Js.String_ rt (Js.or host (Some (JStr "")))), p, effectiveUseTls).

(** The call of [connect] that [connectDevice(device)] of [MqttManager.js]
    makes through [connectAndSubscribe]. *)
Definition connectDevice_call (device : Manager.Device)
    : option (string * float * bool) :=
  let port := Manager.portOrDefault rt (Manager.d_port device) in
  let useTls := Manager.firstTlsMode (Manager.d_useTls device) port in
  connect (Some (JStr (Manager.d_host device))) (Some (JNum port))
    (Some (JBool useTls)).

End WithRuntime.
End Client.

(** ** ScreenLog: reading the log of effects of the screen *)
Module ScreenLog.

(** The requests handed to [publishMqtt] in a log of effects. *)
Definition published (es : list Screen.Effect) : list Screen.PublishRequest :=
  omap (fun e => match e with Screen.PublishMqtt r => Some r | _ => None end) es.

End ScreenLog.

(** ** Observers: the exported state of [MqttManager.js] and its listeners *)
Module Observers.

(** The exported [state]. *)
Record Snapshot : Type := mkSnapshot {
  deviceId : option string;
  connected : bool;
  connecting : bool;
  status : string;
  error : string;
}.

(** The argument of [setState]: [None] is an absent key. *)
Record Patch : Type := mkPatch {
  p_deviceId : option (option string);
  p_connected : option bool;
  p_connecting : option bool;
  p_status : option string;
  p_error : option string;
}.

(** [{ ...state, ...patch }] *)
Definition merge (s : Snapshot) (p : Patch) : Snapshot :=
  {| deviceId := default (deviceId s) (p_deviceId p);
     connected := default (connected s) (p_connected p);
     connecting := default (connecting s) (p_connecting p);
     status := default (status s) (p_status p);
     error := default (error s) (p_error p) |}.

(** The module variables [state] and [listeners] (a [Set] of functions,
    here numbers, in insertion order), and the calls made to listeners so
    far, oldest first. *)
Record State : Type := mkState {
  state : Snapshot;
  listeners : list nat;
  calls : list (nat * Snapshot);
}.

Definition initial : State :=
  mkState (mkSnapshot None false false "IDLE" "") [] [].

(** [notify()] *)
Definition notify (st : State) : State :=
  mkState (state st) (listeners st)
    (calls st ++ map (fun fn => (fn, state st)) (listeners st)).

(** [setState(patch)] *)
Definition setState (patch : Patch) (st : State) : State :=
  notify (mkState (merge (state st) patch) (listeners st) (calls st)).

(** [subscribeMqttState(fn)] *)
Definition subscribeMqttState (fn : nat) (st : State) : State :=
  mkState (state st)
    (if bool_decide (fn ∈ listeners st) then listeners st else listeners st ++ [fn])
    (calls st ++ [(fn, state st)]).

(** The function [subscribeMqttState(fn)] returns: [listeners.delete(fn)] *)
Definition unsubscribe (fn : nat) (st : State) : State :=
  mkState (state st) (filter (fun g => g <> fn) (listeners st)) (calls st).

(** [getMqttState()] *)
Definition getMqttState (st : State) : Snapshot := state st.

Inductive Op : Type :=
| SetState (patch : Patch)
| Subscribe (fn : nat)
| Unsubscribe (fn : nat).

Definition step (st : State) (op : Op) : State :=
  match op with
  | SetState patch => setState patch st
  | Subscribe fn => subscribeMqttState fn st
  | Unsubscribe fn => unsubscribe fn st
  end.

Definition run (ops : list Op) : State := fold_left step ops initial.

(** The snapshots a listener was called with, oldest first. *)
Definition seenBy (fn : nat) (st : State) : list Snapshot :=
  map snd (List.filter (fun c => Nat.eqb (fst c) fn) (calls st)).

End Observers.

(** ** Reference: a runtime to run the examples with

    The theorems below hold for every [JsRuntime].  This one serves the
    closed examples.  Its functions follow ECMA-262 on the inputs the
    examples use: ASCII text, numerals of the form digits or
    digits.digits with fewer than sixteen digits, and doubles that print
    without an exponent.  [JSON.parse] is not reproduced: this runtime
    takes every text for malformed, and the examples start from parsed
    messages. *)
Module Reference.

Definition upper (c : ascii) : ascii :=
  if (97 <=? Text.code c) && (Text.code c <=? 122)
  then ascii_of_N (Z.to_N (Text.code c - 32)) else c.

Fixpoint toUpperCase (s : string) : string :=
  match s with
  | String c r => String (upper c) (toUpperCase r)
  | EmptyString => EmptyString
  end.

(** The decimal digits of [n], at least [width] of them. *)
Fixpoint padded (width : nat) (n : Z) : string :=
  match width with
  | O => if n =? 0 then "" else pretty n
  | S w => padded w (n / 10) +:+ pretty (n mod 10)
  end.

Fixpoint dropZerosRev (s : string) : string :=
  match s with
  | String c r => if Text.code c =? 48 then dropZerosRev r else s
  | EmptyString => s
  end.

(** [String(x)]: the exact decimal expansion of the double. *)
Definition numberToString (x : float) : string :=
  match Prim2SF x with
  | S754_nan => "NaN"
  | S754_infinity s => if s then "-Infinity" else "Infinity"
  | S754_zero _ => "0"
  | S754_finite s m e =>
      (if s then "-" else "") +:+
      (if 0 <=? e then pretty (Z.pos m * 2 ^ e)
       else
         let k := - e in
         let num := Z.pos m * 5 ^ k in
         let frac := String.rev (dropZerosRev (String.rev (padded (Z.to_nat k) (num mod 10 ^ k)))) in
         if Text.isEmpty frac then pretty (num / 10 ^ k)
         else pretty (num / 10 ^ k) +:+ "." +:+ frac)
  end.

(** [x.toFixed(2)]: the nearest multiple of 0.01, the larger one on a tie. *)
Definition toFixed2 (x : float) : string :=
  match Prim2SF x with
  | S754_nan => "NaN"
  | S754_infinity s => if s then "-Infinity" else "Infinity"
  | S754_zero _ => "0.00"
  | S754_finite s m e =>
      if (1e21 <=? abs x)%float then numberToString x
      else
        let n := if 0 <=? e then Z.pos m * 100 * 2 ^ e
                 else (Z.pos m * 200 + 2 ^ (- e)) / (2 * 2 ^ (- e)) in
        (if s then "-" else "") +:+ pretty (n / 100) +:+ "." +:+ padded 2 (n mod 100)
  end.

Definition ofZ (z : Z) : float := of_uint63 (Uint63.of_Z z).

(** [Number(s)] on blank text and on plain decimal numerals; [NaN] on
    everything else. *)
Definition stringToNumber (s : string) : float :=
  let t := Text.trim s in
  if Text.isEmpty t then 0%float
  else
    let '(neg, u) :=
      match t with
      | String c r =>
          if Text.code c =? 45 then (true, r)
          else if Text.code c =? 43 then (false, r) else (false, t)
      | EmptyString => (false, t)
      end in
    if negb (Text.startsWithDigit u) then nan
    else
      let '(ip, rest) := Text.spanDigits u in
      let fp :=
        match rest with
        | EmptyString => Some EmptyString
        | String c r =>
            if (Text.code c =? 46) && Text.startsWithDigit r
               && Text.isEmpty (snd (Text.spanDigits r))
            then Some r else None
        end in
      match fp with
      | None => nan
      | Some f =>
          let v := (ofZ (Text.digitsValue 0 (ip +:+ f))
                    / ofZ (10 ^ Z.of_nat (String.length f)))%float in
          if neg then (- v)%float else v
      end.

Definition runtime : JsRuntime :=
  Build_JsRuntime toUpperCase toFixed2 stringToNumber numberToString
    (fun _ => None).

End Reference.

(** ** Inputs of the closed examples *)

(** The gateway [gw7] of [cp01]. *)
Definition sampleConfig : Screen.Config := Screen.mkConfig "cp01" "gw7".

(** The screen after [connectNow], waiting for the broker. *)
Definition connectingScreen : Screen.State :=
  Screen.mkState Screen.CONNECTING Screen.CONNECTING
    (Store.mkState ∅ ∅ None 0 Store.GRID ∅) ∅ ∅ ∅ false false None [] [].

(** The subscription is acknowledged at time 0. *)
Definition subscribedScreen : Screen.State :=
  Screen.onStatus Reference.runtime sampleConfig 0
    "SUBSCRIBED devices/cp01/gw7/messages/events/#" connectingScreen.

(** A connected screen with nothing on it yet. *)
Definition connectedScreen : Screen.State :=
  Screen.mkState Screen.CONNECTED Screen.CONNECTED
    (Store.mkState ∅ ∅ None 0 Store.GRID ∅) ∅ ∅ ∅ true true (Some 58000) [] [].

(** The name "Pump A" is written to channel 17 at time 1000; both
    publishes have resolved at 1010. *)
Definition afterNameWrite : Screen.State :=
  Screen.publishSetName sampleConfig 1000 1010 true true 17 "Pump A" connectedScreen.

(** The device echoes the command at 1500. *)
Definition setNameEchoMessage : json :=
  JObj [("cmdType", JNum 5);
        ("data", JObj [("cpid", JStr "cp01"); ("id", JStr "gw7");
                       ("command",
                        JArr [JObj [("Set Name", JObj [("C17", JStr "Pump A")])]])])].

Definition afterEcho : Screen.State :=
  Screen.onMessageJson Reference.runtime sampleConfig 1500
    (Some setNameEchoMessage) afterNameWrite.

(** Or it answers the read-back with its first name bank at 3600. *)
Definition nameBankMessage : json :=
  JObj [("cmdType", JStr "5");
        ("d", JObj [("Name1", JObj [("C16", JStr "Device 16");
                                    ("C17", JStr "Pump A")])])].

Definition afterNameBank : Screen.State :=
  Screen.onMessageJson Reference.runtime sampleConfig 3600
    (Some nameBankMessage) afterNameWrite.

(** A reading of -0.05 A queued for channel 5, to be flushed at 1120 with
    no lock running. *)
Definition sampleStore : Store.State :=
  Store.mkState ∅ {[5 := Store.cur1p (-0.05)]} (Some 1120) 0 Store.GRID ∅.

(** Channel 5 is switched ON at time 1000 on Android; a frame that still
    carries the reading -0.05 A arrives at 1200. *)
Definition afterToggle : Screen.State :=
  Screen.handleToggle true 1000 5 Codec.ON connectedScreen.

Definition staleReadingMessage : json :=
  JObj [("d", JObj [("current", JObj [("C5", JNum (-0.05)); ("C150", JNum 3)])])].

Definition afterStaleReading : Screen.State :=
  Screen.onMessageJson Reference.runtime sampleConfig 1200
    (Some staleReadingMessage) afterToggle.

(** Three sessions, the second one closed again. *)
Definition sampleHistory : list (NativeClient.Op nat) :=
  [NativeClient.Construct "rn_1" 1%nat; NativeClient.Construct "rn_2" 2%nat;
   NativeClient.Disconnect "rn_2"; NativeClient.Construct "rn_3" 3%nat].

(** A broker that speaks plain MQTT on the port asked for: an attempt with
    TLS ends in a handshake error, one without succeeds. *)
Definition sampleTryOnce (k : nat) (tlsFlag : bool) : option Manager.Error :=
  if tlsFlag
  then Some (Manager.mkError "SSLHandshakeException: closed" "TLS handshake failed")
  else None.

(** A native module whose client has lost its connection. *)
Definition lostConnection : NativeModule.State :=
  NativeModule.mkState (Some false)
    [NativeModule.WireConnect "ssl://broker.local:8883" "rn_1"].

(** Two saved devices, and the first of them entered again under a new
    name. *)
Definition savedDevices : list json :=
  [JObj [("friendlyName", JStr "Pump room"); ("deviceId", JStr "GW7")];
   JObj [("friendlyName", JStr "Boiler"); ("deviceId", JStr "GW9")]].

Definition renamedDevice : json :=
  JObj [("friendlyName", JStr "Pump room 2"); ("deviceId", JStr "GW7")].

(** A native module whose client is connected and has written nothing
    yet. *)
Definition connectedNative : NativeModule.State :=
  NativeModule.mkState (Some true) [].

(** What the screen reads from a topic that names no device. *)
Definition noIdsConfig : Screen.Config :=
  Topic.deriveFromEventsTopic "home/gw7/#".

(** An OFF command is echoed for channel 5 at 900; the user switches the
    channel ON at 1000 (Android); a frame with the reading 0.8 A arrives at
    1200. *)
Definition offEchoMessage : json :=
  JObj [("cmdType", JStr "1");
        ("data", JObj [("cpid", JStr "cp01"); ("id", JStr "gw7");
                       ("command", JArr [JObj [("OFF", JStr "C5")]])])].

Definition afterOffEcho : Screen.State :=
  Screen.onMessageJson Reference.runtime sampleConfig 900
    (Some offEchoMessage) connectedScreen.

Definition toggledAfterEcho : Screen.State :=
  Screen.handleToggle true 1000 5 Codec.ON afterOffEcho.

Definition loadReadingMessage : json :=
  JObj [("d", JObj [("current", JObj [("C5", JNum 0.8)])])].

Definition readingAfterEcho : Screen.State :=
  Screen.onMessageJson Reference.runtime sampleConfig 1200
    (Some loadReadingMessage) toggledAfterEcho.

(** The placeholder name "Device 17" is written to channel 17 at 1000, and
    the device answers the read-back with it at 3600. *)
Definition afterPlaceholderWrite : Screen.State :=
  Screen.publishSetName sampleConfig 1000 1010 true true 17 "Device 17" connectedScreen.

Definition placeholderBankMessage : json :=
  JObj [("cmdType", JStr "5");
        ("d", JObj [("Name1", JObj [("C17", JStr "Device 17")])])].

(** A rating of 16 A at level 2 is written to channel 5 at 1000, both
    publishes resolved at 1010.  The connection is lost at 1500: the
    listener of [mqtt_disconnected] calls the status callback, then the
    error callback.  The user presses Connect at 2000, and the native
    module reports CONNECTED at 3000: until the subscription is
    acknowledged the screen is in the state Connecting.  After each event
    the render copies the state into its ref. *)
Definition afterRatingWrite : Screen.State :=
  Screen.publishSetRating sampleConfig 1000 1010 true true 5 16 2 connectedScreen.

Definition connectionLost : Screen.State :=
  Screen.syncConnRef
    (Screen.onError "connectionLost"
       (Screen.onStatus Reference.runtime sampleConfig 1500 "DISCONNECTED"
          afterRatingWrite)).

Definition reconnectingScreen : Screen.State :=
  Screen.syncConnRef
    (Screen.onStatus Reference.runtime sampleConfig 3000
       "CONNECTED ssl://broker.local:8883"
       (Screen.syncConnRef (Screen.connectNow sampleConfig connectionLost))).

(** The two requests of [requestRatingMap] for this gateway. *)
Definition ratingRequests : list Screen.PublishRequest :=
  [Screen.mkRequest "devices/cp01/gw7/messages/events/"
     (Screen.readEnvelope sampleConfig "4" "Rating") 1 false;
   Screen.mkRequest "devices/cp01/gw7/messages/events"
     (Screen.readEnvelope sampleConfig "4" "Rating") 1 false].

(** * Properties *)

(** ** Numbers *)

Lemma nonneg_not_negative (r : float) :
  (0 <=? r)%float = true -> (r <? 0)%float = false.
Proof.
  rewrite leb_spec, ltb_spec.
  change (Prim2SF 0) with (S754_zero false).
  destruct (Prim2SF r) as [[|] | [|] | | [|] m e]; cbn; congruence.
Qed.

(** ** The channel-state store *)
Section StoreFacts.
Import Codec Store.
Context (rt : JsRuntime).

Lemma over_idem {A : Type} (a p : option A) : over p (over p a) = over p a.
Proof. by destruct p. Qed.

Lemma spread_spread (a p : Partial) : spread (spread a p) p = spread a p.
Proof. unfold spread; cbn; by rewrite !over_idem. Qed.

Lemma over_self {A : Type} (p : option A) : over p p = p.
Proof. by destruct p. Qed.

Lemma spread_self (p : Partial) : spread p p = p.
Proof. destruct p; unfold spread; cbn; by rewrite !over_self. Qed.

(** The merge loop writes each key of the patch once, so its result does
    not depend on the order of the entries. *)
Lemma lookup_mergePatch (store patch : gmap Z Partial) (k : Z) :
  mergePatch store patch !! k =
  union_with (fun old new => Some (spread old new)) (store !! k) (patch !! k).
Proof.
  unfold mergePatch.
  apply (map_fold_weak_ind (fun r m =>
    r !! k = union_with (fun old new => Some (spread old new))
               (store !! k) (m !! k))).
  - rewrite lookup_empty. by destruct (store !! k).
  - intros i x m r Hi IH. unfold mergeEntry.
    destruct (decide (i = k)) as [->|Hne].
    + rewrite !lookup_insert_eq, IH, Hi. by destruct (store !! k).
    + by rewrite !lookup_insert_ne.
Qed.

Lemma mergePatch_twice (s P : gmap Z Partial) :
  mergePatch (mergePatch s P) P = mergePatch s P.
Proof.
  apply map_eq; intros i.
  rewrite !lookup_mergePatch.
  destruct (s !! i) as [a|], (P !! i) as [p|]; cbn; try done.
  - by rewrite spread_spread.
  - by rewrite spread_self.
Qed.

Lemma enqueueTagPatch_twice (t1 t2 : Z) (P : gmap Z Partial) (st : State) :
  enqueueTagPatch t2 P (enqueueTagPatch t1 P st) = enqueueTagPatch t1 P st.
Proof.
  unfold enqueueTagPatch.
  destruct (patchTimer st) as [t|]; cbn; by rewrite mergePatch_twice.
Qed.

(** What the flush leaves under a key. *)
Lemma lookup_flushTags (now : Z) (locks : gmap Z Z) (prev : gmap Z Tag)
    (batch : gmap Z Partial) (k : Z) :
  flushTags rt now locks prev batch !! k =
  match batch !! k with
  | Some partial =>
      match applyPartial rt now locks prev k partial with
      | Some out => Some out
      | None => prev !! k
      end
  | None => prev !! k
  end.
Proof.
  unfold flushTags.
  apply (map_fold_weak_ind (fun r m =>
    r !! k = match m !! k with
             | Some partial =>
                 match applyPartial rt now locks prev k partial with
                 | Some out => Some out
                 | None => prev !! k
                 end
             | None => prev !! k
             end)).
  - by rewrite lookup_empty.
  - intros i x m r Hi IH. unfold flushEntry.
    destruct (decide (i = k)) as [->|Hne].
    + rewrite lookup_insert_eq. rewrite Hi in IH.
      destruct (applyPartial rt now locks prev k x); [|done].
      by rewrite lookup_insert_eq.
    + rewrite lookup_insert_ne by done.
      destruct (applyPartial rt now locks prev i x); [|done].
      by rewrite lookup_insert_ne.
Qed.

Lemma lookup_clearTagsToUnknown (prev : gmap Z Tag) (k : Z) :
  clearTagsToUnknown prev !! k = clearTag k <$> prev !! k.
Proof.
  unfold clearTagsToUnknown. rewrite map_lookup_imap.
  by destruct (prev !! k).
Qed.

End StoreFacts.

Section StoreClaims.
Import Codec Store.
Context (rt : JsRuntime).

(** C8.  Enqueuing the same patch a second time before the flush changes
    nothing: the pending store and the armed timer are the ones the first
    call left, so the flush ends in the same state (the same [tags] map in
    particular), whatever the starting state, the patch and the times. *)
Theorem enqueue_same_patch_twice (st : State) (P : gmap Z Partial)
    (t1 t2 tf : Z) :
  flush rt tf (enqueueTagPatch t2 P (enqueueTagPatch t1 P st))
  = flush rt tf (enqueueTagPatch t1 P st).
Proof. by rewrite enqueueTagPatch_twice. Qed.

(** C10.  [clearTagsToUnknown] keeps the set of channels; under each key it
    keeps [id], [tagName], [currentRating] and [sensitivity], resets
    [status], [current], [rawStatus] and [seen], and touches the per-leg
    readings of the ids 201 to 224 only. *)
Theorem clearTagsToUnknown_frame (prev : gmap Z Tag) (k : Z) :
  (prev !! k = None -> clearTagsToUnknown prev !! k = None)
  /\ (forall t, prev !! k = Some t ->
        exists t', clearTagsToUnknown prev !! k = Some t'
          /\ id t' = id t /\ tagName t' = tagName t
          /\ currentRating t' = currentRating t
          /\ sensitivity t' = sensitivity t
          /\ status t' = UNKNOWN /\ current t' = "-"%string
          /\ rawStatus t' = 0 /\ seen t' = false
          /\ (201 <= k <= 224 ->
                current1 t' = Some "-"%string /\ current2 t' = Some "-"%string
                /\ current3 t' = Some "-"%string)
          /\ (~ 201 <= k <= 224 ->
                current1 t' = current1 t /\ current2 t' = current2 t
                /\ current3 t' = current3 t)).
Proof.
  rewrite lookup_clearTagsToUnknown. split.
  - by intros ->.
  - intros t ->. exists (clearTag k t). cbn. unfold clearTag.
    destruct ((201 <=? k) && (k <=? 224)) eqn:E; cbn;
      repeat split; try reflexivity; intros; lia.
Qed.

Lemma formatCurrentA_zero (r : float) :
  Js.isFinite r = true -> (-0.1 <=? r)%float = true -> (r <? 0)%float = true ->
  formatCurrentA rt r = "0.00"%string.
Proof. intros Hf Hlo Hneg. unfold formatCurrentA. by rewrite Hf, Hneg, Hlo. Qed.

Lemma status_spreadRest (out : Tag) (p : Partial) :
  p_status p = None ->
  status (spreadRest out p) = status out /\ current (spreadRest out p) = current out
  /\ current1 (spreadRest out p) = current1 out
  /\ current2 (spreadRest out p) = current2 out
  /\ current3 (spreadRest out p) = current3 out.
Proof. intros H. unfold spreadRest; cbn. by rewrite H. Qed.

(** The two reading branches of the flush, by the flag they compute from
    the lock of the channel. *)
Lemma flush_reading_by_flag (now : Z) (st : State) (i : Z) (partial : Partial) :
  pendingPatch st !! i = Some partial ->
  p_status partial = None ->
  let old := tagOrDefault (tags st) i in
  let locked := isLocked now (toggleLock st) i in
  (forall r, __cur1p partial = Some r -> __cur3p partial = None ->
     Js.isFinite r = true ->
     exists t, tags (flush rt now st) !! i = Some t
       /\ current t = formatCurrentA rt r
       /\ ((-0.1 <=? r)%float = true -> (r <? 0)%float = true ->
             current t = "0.00"%string)
       /\ (locked = false -> (r <? 0)%float = true -> status t = OFF)
       /\ (locked = false -> (0 <=? r)%float = true -> status t = ON)
       /\ (locked = true -> status t = status old))
  /\ (forall a b c more, __cur3p partial = Some (a :: b :: c :: more) ->
        forallb Js.isFinite [a; b; c] = true ->
        exists t, tags (flush rt now st) !! i = Some t
          /\ current t = formatCurrentA rt a
          /\ current1 t = Some (formatCurrentA rt a)
          /\ current2 t = Some (formatCurrentA rt b)
          /\ current3 t = Some (formatCurrentA rt c)
          /\ (locked = false ->
                ((a <? 0) || (b <? 0) || (c <? 0))%float = true -> status t = OFF)
          /\ (locked = false -> (0 <=? a)%float = true -> (0 <=? b)%float = true ->
                (0 <=? c)%float = true -> status t = ON)
          /\ (locked = true -> status t = status old)).
Proof.
  intros Hp Hst old locked. split.
  - intros r H1 H3 Hfin.
    cbn [flush tags]. rewrite lookup_flushTags, Hp.
    unfold applyPartial. rewrite H1, H3, Hfin. cbn [fst snd].
    fold old. fold locked.
    set (out := apply1p rt locked old r).
    assert (Hout : current out = formatCurrentA rt r
                   /\ status out = if locked then status old
                                   else if (r <? 0)%float then OFF else ON)
      by done.
    destruct Hout as [Hc Hs].
    destruct (status_spreadRest out partial Hst) as (Hs' & Hc' & _).
    exists (if hasRest partial then spreadRest out partial else out).
    destruct (hasRest partial); cbn [fst snd];
      (split; [done|]); rewrite ?Hs', ?Hc', Hc, Hs;
      (repeat split;
       [ intros; by apply formatCurrentA_zero
       | intros -> ->; done
       | intros -> Hge; by rewrite (nonneg_not_negative _ Hge)
       | intros ->; done ]).
  - intros a b c more H3 Hfin.
    cbn [flush tags]. rewrite lookup_flushTags, Hp.
    unfold applyPartial. rewrite H3, Hfin. cbn [fst snd].
    fold old. fold locked.
    set (s1 := match __cur1p partial with
               | Some curNum => _ | None => _ end).
    assert (Hs1 : status (fst s1) = if locked then status old else status (fst s1)).
    { subst s1. destruct (__cur1p partial) as [x|]; [destruct (Js.isFinite x)|];
        cbn; by destruct locked. }
    set (out := apply3p rt locked (fst s1) a b c).
    destruct (status_spreadRest out partial Hst) as (Hs' & Hc' & H1' & H2' & H3').
    exists (if hasRest partial then spreadRest out partial else out).
    destruct (hasRest partial); cbn [fst snd];
      (split; [done|]); rewrite ?Hs', ?Hc', ?H1', ?H2', ?H3';
      (repeat split;
       [ intros -> E; cbn; by rewrite E
       | intros -> Ha Hb Hc; cbn;
         by rewrite (nonneg_not_negative _ Ha), (nonneg_not_negative _ Hb),
                    (nonneg_not_negative _ Hc)
       | intros E; cbn; rewrite E; rewrite E in Hs1; done ]).
Qed.

(** The flag is set exactly while the expiry recorded for the channel lies
    ahead; a channel without an entry counts as expired at time 0. *)
Lemma isLocked_until (now : Z) (locks : gmap Z Z) (i until : Z) :
  locks !! i = Some until -> isLocked now locks i = (now <? until).
Proof. intros H. unfold isLocked. by rewrite H. Qed.

Lemma isLocked_active (now : Z) (locks : gmap Z Z) (i : Z) :
  (exists until, locks !! i = Some until /\ now < until) ->
  isLocked now locks i = true.
Proof. intros (u & H & Hu). rewrite (isLocked_until _ _ _ _ H). lia. Qed.

Lemma isLocked_over (now : Z) (locks : gmap Z Z) (i : Z) :
  0 <= now -> (forall until, locks !! i = Some until -> until <= now) ->
  isLocked now locks i = false.
Proof.
  intros H0 H. unfold isLocked.
  destruct (locks !! i) as [u|] eqn:E; cbn; [specialize (H u eq_refl)|]; lia.
Qed.

(** C1, as the code has it.  Take the entry flushed for channel [i] at
    time [now].  A toggle lock is active when [toggleLockRef] holds an
    expiry for [i] that lies after [now]; none is when the clock is not
    negative and every expiry held for [i] has passed.

    When the entry carries no status of its own: a finite reading in it is
    rendered by [formatCurrentA], so a reading in [-0.1, 0) shows as
    "0.00"; with no lock active a negative reading gives OFF and a reading
    that is not below zero gives ON; with a lock active the status stays
    what it was while the reading is still written.  The same holds of the
    three legs of a three-phase reading, one negative leg being enough for
    OFF.  (A single-phase entry holds one number and no legs.)

    When the entry carries a status (an ON/OFF command echo queued for the
    channel puts one there), the flush shows that status, whatever the
    reading and the lock. *)
Theorem flush_current_reading (now : Z) (st : State) (i : Z) (partial : Partial) :
  pendingPatch st !! i = Some partial ->
  let old := tagOrDefault (tags st) i in
  let lockActive := exists until, toggleLock st !! i = Some until /\ now < until in
  let noLock :=
    0 <= now /\ forall until, toggleLock st !! i = Some until -> until <= now in
  (p_status partial = None ->
     (forall r, __cur1p partial = Some r -> __cur3p partial = None ->
        Js.isFinite r = true ->
        exists t, tags (flush rt now st) !! i = Some t
          /\ current t = formatCurrentA rt r
          /\ ((-0.1 <=? r)%float = true -> (r <? 0)%float = true ->
                current t = "0.00"%string)
          /\ (noLock -> (r <? 0)%float = true -> status t = OFF)
          /\ (noLock -> (0 <=? r)%float = true -> status t = ON)
          /\ (lockActive -> status t = status old))
     /\ (forall a b c more, __cur3p partial = Some (a :: b :: c :: more) ->
           forallb Js.isFinite [a; b; c] = true ->
           exists t, tags (flush rt now st) !! i = Some t
             /\ current t = formatCurrentA rt a
             /\ current1 t = Some (formatCurrentA rt a)
             /\ current2 t = Some (formatCurrentA rt b)
             /\ current3 t = Some (formatCurrentA rt c)
             /\ (noLock -> ((a <? 0) || (b <? 0) || (c <? 0))%float = true ->
                   status t = OFF)
             /\ (noLock -> (0 <=? a)%float = true -> (0 <=? b)%float = true ->
                   (0 <=? c)%float = true -> status t = ON)
             /\ (lockActive -> status t = status old)))
  /\ (forall s, p_status partial = Some s ->
        exists t, tags (flush rt now st) !! i = Some t /\ status t = s).
Proof.
  intros Hp old lockActive noLock. split.
  - intros Hst.
    destruct (flush_reading_by_flag now st i partial Hp Hst) as [H1 H3].
    split.
    + intros r Hr Hno Hfin.
      destruct (H1 r Hr Hno Hfin) as (t & Ht & Hc & Hz & Hoff & Hon & Hl).
      exists t. repeat split; try done.
      * intros [H0 Hu]. apply Hoff. by apply isLocked_over.
      * intros [H0 Hu]. apply Hon. by apply isLocked_over.
      * intros Hact. apply Hl. by apply isLocked_active.
    + intros a b c more Hl Hfin.
      destruct (H3 a b c more Hl Hfin)
        as (t & Ht & Hc & Hc1 & Hc2 & Hc3 & Hoff & Hon & Hlk).
      exists t. repeat split; try done.
      * intros [H0 Hu]. apply Hoff. by apply isLocked_over.
      * intros [H0 Hu]. apply Hon. by apply isLocked_over.
      * intros Hact. apply Hlk. by apply isLocked_active.
  - intros s Hs. cbn [flush tags]. rewrite lookup_flushTags, Hp.
    unfold applyPartial.
    assert (Hrest : hasRest partial = true).
    { unfold hasRest. rewrite Hs. by rewrite bool_decide_eq_true_2 by done. }
    rewrite Hrest. cbn [fst snd].
    eexists. split; [reflexivity|]. unfold spreadRest; cbn. by rewrite Hs.
Qed.


(** The three callers of the reset leave [tags] alone or apply it. *)
Lemma reset_callers (cfg : Screen.Config) (st : Screen.State) :
  let old := tags (Screen.store st) in
  (tags (Screen.store (Screen.connectNow cfg st)) = old
   \/ tags (Screen.store (Screen.connectNow cfg st)) = clearTagsToUnknown old)
  /\ (tags (Screen.store (Screen.disconnectNow st)) = old
      \/ tags (Screen.store (Screen.disconnectNow st)) = clearTagsToUnknown old)
  /\ tags (Screen.store (Screen.refreshNow cfg st)) = clearTagsToUnknown old.
Proof.
  cbn. repeat split.
  - unfold Screen.connectNow.
    destruct (_ || _ || _); [by left|].
    destruct (_ || _); [by left | by right].
  - unfold Screen.disconnectNow. destruct (_ || _); [by left | by right].
  - unfold Screen.refreshNow, Screen.requestRatingMap, Screen.requestNameMap.
    destruct (bool_decide _); [|done].
    repeat (match goal with |- context [if ?b then _ else _] => destruct b end);
      reflexivity.
Qed.

End StoreClaims.

(** C1 as stated fails.  The OFF echo of 900 is still queued when the
    user switches channel 5 ON at 1000, and the reading of 1200 joins it in
    the same entry.  At the flush of 1320 the lock runs until 6000, the
    reading is written, and the status goes from ON to OFF. *)
Lemma echo_overrides_lock_counterexample :
  let st := Screen.store readingAfterEcho in
  Store.toggleLock st !! 5 = Some 6000
  /\ Store.patchTimer st = Some 1320
  /\ (Store.__cur1p <$> Store.pendingPatch st !! 5) = Some (Some 0.8%float)
  /\ (Codec.status <$> Store.tags st !! 5) = Some Codec.ON
  /\ (Codec.status <$> Store.tags (Store.flush Reference.runtime 1320 st) !! 5)
     = Some Codec.OFF
  /\ (Codec.current <$> Store.tags (Store.flush Reference.runtime 1320 st) !! 5)
     = Some "0.80"%string.
Proof. vm_compute. repeat split; reflexivity. Qed.

Lemma flush_current_reading_witness :
  (exists t, Store.tags (Store.flush Reference.runtime 1320
                           (Screen.store afterStaleReading)) !! 5 = Some t
     /\ Codec.current t = "0.00"%string /\ Codec.status t = Codec.ON)
  /\ (exists t, Store.tags (Store.flush Reference.runtime 1120 sampleStore) !! 5 = Some t
        /\ Codec.current t = "0.00"%string /\ Codec.status t = Codec.OFF).
Proof.
  split.
  - assert (Hp : Store.pendingPatch (Screen.store afterStaleReading) !! 5
                 = Some (Store.cur1p (-0.05))) by (vm_compute; reflexivity).
    destruct (flush_current_reading Reference.runtime 1320
                (Screen.store afterStaleReading) 5 _ Hp) as [H _].
    destruct (H eq_refl) as [H1 _].
    destruct (H1 (-0.05)%float eq_refl eq_refl eq_refl)
      as (t & Ht & _ & Hz & _ & _ & Hl).
    exists t. split; [exact Ht|]. split; [by apply Hz|].
    rewrite Hl.
    + vm_compute. reflexivity.
    + exists 6000. split; [vm_compute; reflexivity | lia].
  - destruct (flush_current_reading Reference.runtime 1120 sampleStore 5 _ eq_refl)
      as [H _].
    destruct (H eq_refl) as [H1 _].
    destruct (H1 (-0.05)%float eq_refl eq_refl eq_refl)
      as (t & Ht & _ & Hz & Hoff & _).
    exists t. split; [exact Ht|]. split; [by apply Hz|].
    apply Hoff; [|reflexivity]. split; [lia|].
    intros u Hu. vm_compute in Hu. discriminate.
Defined.

(** ** Decoding the current map *)
Section DecodeClaims.
Import Codec Store.
Context (rt : JsRuntime).

Lemma parse3PhaseValue_finite (v : Js.value) (l : list float) :
  parse3PhaseValue rt v = Some l ->
  exists a b c, l = [a; b; c] /\ Js.isFinite a = true /\ Js.isFinite b = true
                /\ Js.isFinite c = true.
Proof.
  assert (Hlegs : forall a b c,
    (if forallb Js.isFinite [a; b; c] then Some [a; b; c] else None) = Some l ->
    exists a b c, l = [a; b; c] /\ Js.isFinite a = true /\ Js.isFinite b = true
                  /\ Js.isFinite c = true).
  { intros a b c. cbn.
    destruct (Js.isFinite a) eqn:Ea, (Js.isFinite b) eqn:Eb, (Js.isFinite c) eqn:Ec;
      cbn; intros [= <-]. by exists a, b, c. }
  unfold parse3PhaseValue.
  destruct v as [[| |x| | |]|]; try discriminate.
  - destruct (Js.isFinite x) eqn:E; intros [= <-]. by exists x, x, x.
  - destruct (3 <=? length items)%nat; apply Hlegs.
  - apply Hlegs.
Qed.

(** C7, as the code has it.  An entry of the current map counts only under
    an id in 1-120 or 201-224.  Under a single-phase id the value is reduced
    to one number by [normalizeNumber] (a number as it is, the first numeral
    found in a string, an array through its first element) and applied
    exactly when that number is finite; an object is never applied.  Under
    a three-phase id the value is applied only with three finite legs: a
    finite number stands for all three; an array of three or more elements
    is applied exactly when its first three elements reduce to finite
    numbers, and so is an object with its legs read under [current1], [a],
    [A], [L1], [l1] (and likewise for the second and third leg); a shorter
    array and a string are never applied. *)
Theorem current_map_decoding (patch : gmap Z Partial) (k : string) (v : json) (i : Z) :
  Screen.chanOfKeyOrInt rt (Some (JStr k)) = Some i ->
  let out := Screen.currentEntry rt patch (k, v) in
  let legs3 (a b c : float) :=
    (forallb Js.isFinite [a; b; c] = true -> out = Screen.put i (cur3p [a; b; c]) patch)
    /\ (forallb Js.isFinite [a; b; c] = false -> out = patch) in
  (~ 1 <= i <= 120 -> ~ 201 <= i <= 224 -> out = patch)
  /\ (1 <= i <= 120 ->
        let x := normalizeNumber rt (Some v) in
        (Js.isFinite x = true -> out = Screen.put i (cur1p x) patch)
        /\ (Js.isFinite x = false -> out = patch)
        /\ (forall y, v = JNum y -> x = y)
        /\ (forall s m0, v = JStr s -> Text.matchNumber s = Some m0 ->
              x = stringToNumber rt m0)
        /\ (forall s, v = JStr s -> Text.matchNumber s = None -> out = patch)
        /\ (forall items, v = JArr items -> x = Js.Number_ rt (nth_error items 0))
        /\ (forall y rest, v = JArr (JNum y :: rest) -> x = y)
        /\ (forall fields, v = JObj fields -> out = patch))
  /\ (201 <= i <= 224 ->
        (out = patch
         \/ exists a b c, Js.isFinite a = true /\ Js.isFinite b = true
              /\ Js.isFinite c = true /\ out = Screen.put i (cur3p [a; b; c]) patch)
        /\ (forall y, v = JNum y -> Js.isFinite y = true ->
              out = Screen.put i (cur3p [y; y; y]) patch)
        /\ (forall y, v = JNum y -> Js.isFinite y = false -> out = patch)
        /\ (forall s, v = JStr s -> out = patch)
        /\ (forall e0 e1 e2 rest, v = JArr (e0 :: e1 :: e2 :: rest) ->
              legs3 (normalizeNumber rt (Some e0)) (normalizeNumber rt (Some e1))
                    (normalizeNumber rt (Some e2)))
        /\ (forall items, v = JArr items -> (length items < 3)%nat -> out = patch)
        /\ (forall fields, v = JObj fields ->
              let leg k1 k2 k3 k4 k5 :=
                normalizeNumber rt
                  (Js.coalesce (Js.assoc k1 fields) (Js.coalesce (Js.assoc k2 fields)
                     (Js.coalesce (Js.assoc k3 fields)
                        (Js.coalesce (Js.assoc k4 fields) (Js.assoc k5 fields))))) in
              legs3 (leg "current1" "a" "A" "L1" "l1")
                    (leg "current2" "b" "B" "L2" "l2")
                    (leg "current3" "c" "C" "L3" "l3"))).
Proof.
  intros Hk out legs3. subst out legs3.
  unfold Screen.currentEntry. cbn [fst snd]. rewrite Hk.
  split; [|split].
  - intros H1 H2.
    destruct ((1 <=? i) && (i <=? 120)) eqn:E1; [lia|].
    destruct ((201 <=? i) && (i <=? 224)) eqn:E2; [lia|]. done.
  - intros H1. cbn zeta.
    replace ((1 <=? i) && (i <=? 120)) with true by lia.
    repeat split.
    + by intros ->.
    + by intros ->.
    + by intros y ->.
    + intros s m0 -> Hm. cbn. by rewrite Hm.
    + intros s -> Hm. cbn. by rewrite Hm.
    + by intros items ->.
    + by intros y rest ->.
    + by intros fields ->.
  - intros H3.
    replace ((1 <=? i) && (i <=? 120)) with false by lia.
    replace ((201 <=? i) && (i <=? 224)) with true by lia.
    split; [|split; [|split; [|split; [|split; [|split]]]]].
    + destruct (parse3PhaseValue rt (Some v)) as [l|] eqn:E; [|by left].
      destruct (parse3PhaseValue_finite _ _ E) as (a & b & c & -> & Ha & Hb & Hc).
      right. by exists a, b, c.
    + intros y -> Hy. cbn. by rewrite Hy.
    + intros y -> Hy. cbn. by rewrite Hy.
    + by intros s ->.
    + intros e0 e1 e2 rest ->.
      unfold parse3PhaseValue. cbn [length Nat.leb Js.index nth_error].
      split; intros Hf; by rewrite Hf.
    + intros items -> Hlen. unfold parse3PhaseValue.
      rewrite (proj2 (Nat.leb_gt _ _)) by lia. done.
    + intros fields ->. cbn zeta.
      unfold parse3PhaseValue. cbn [Js.get].
      split; intros Hf; by rewrite Hf.
Qed.

End DecodeClaims.

(** C7 as stated fails twice: an array is accepted under the single-phase
    id 5, and a plain number under the three-phase id 201. *)
Lemma current_map_forms_counterexample :
  Screen.currentEntry Reference.runtime ∅ ("C5"%string, JArr [JNum 1.5; JNum 2; JNum 3])
    = {[5 := Store.cur1p 1.5]}
  /\ Screen.currentEntry Reference.runtime ∅ ("C201"%string, JNum 2.5)
    = {[201 := Store.cur3p [2.5; 2.5; 2.5]%float]}.
Proof. split; reflexivity. Qed.

Lemma current_map_decoding_witness :
  Screen.currentEntry Reference.runtime ∅
    ("C201"%string, JArr [JNum 1.5; JStr "2.5 A"; JNum 3; JNum 9])
  = Screen.put 201 (Store.cur3p [1.5; 2.5; 3]%float) ∅
  /\ Screen.currentEntry Reference.runtime ∅
       ("C224"%string, JObj [("L1", JNum 1.5); ("b", JNum 2.5); ("current3", JNum 3)])
     = Screen.put 224 (Store.cur3p [1.5; 2.5; 3]%float) ∅
  /\ Screen.currentEntry Reference.runtime ∅
       ("C201"%string, JArr [JNum 1.5; JNum 2.5]) = ∅
  /\ Screen.currentEntry Reference.runtime ∅ ("C17"%string, JStr "0.5 A")
     = Screen.put 17 (Store.cur1p 0.5) ∅
  /\ Screen.currentEntry Reference.runtime ∅
       ("C17"%string, JObj [("current1", JNum 1.5); ("current2", JNum 2.5);
                            ("current3", JNum 3)]) = ∅.
Proof.
  split; [|split; [|split; [|split]]].
  - destruct (current_map_decoding Reference.runtime ∅ "C201"
                (JArr [JNum 1.5; JStr "2.5 A"; JNum 3; JNum 9]) 201 eq_refl)
      as (_ & _ & H).
    destruct (H ltac:(lia)) as (_ & _ & _ & _ & Harr & _).
    exact (proj1 (Harr _ _ _ _ eq_refl) eq_refl).
  - destruct (current_map_decoding Reference.runtime ∅ "C224"
                (JObj [("L1", JNum 1.5); ("b", JNum 2.5); ("current3", JNum 3)])
                224 eq_refl) as (_ & _ & H).
    destruct (H ltac:(lia)) as (_ & _ & _ & _ & _ & _ & Hobj).
    exact (proj1 (Hobj _ eq_refl) eq_refl).
  - destruct (current_map_decoding Reference.runtime ∅ "C201"
                (JArr [JNum 1.5; JNum 2.5]) 201 eq_refl) as (_ & _ & H).
    destruct (H ltac:(lia)) as (_ & _ & _ & _ & _ & Hshort & _).
    apply (Hshort _ eq_refl). cbn. lia.
  - destruct (current_map_decoding Reference.runtime ∅ "C17" (JStr "0.5 A") 17 eq_refl)
      as (_ & H & _).
    destruct (H ltac:(lia)) as (Hfin & _).
    exact (Hfin eq_refl).
  - destruct (current_map_decoding Reference.runtime ∅ "C17"
                (JObj [("current1", JNum 1.5); ("current2", JNum 2.5);
                       ("current3", JNum 3)]) 17 eq_refl) as (_ & H & _).
    destruct (H ltac:(lia)) as (_ & _ & _ & _ & _ & _ & _ & Hobj).
    exact (Hobj _ eq_refl).
Defined.

(** ** The registry of client instances *)
Section RegistryFacts.
Import NativeClient.
Context {Inst : Type}.
Implicit Types (m : InstanceMap Inst) (ops : list (Op Inst)).

Lemma eqb_decide (a b : string) : String.eqb a b = bool_decide (a = b).
Proof.
  destruct (String.eqb_spec a b).
  - by rewrite bool_decide_eq_true_2.
  - by rewrite bool_decide_eq_false_2.
Qed.

Lemma mapGet_None m k : mapGet k m = None <-> k ∉ map fst m.
Proof.
  induction m as [|[k' v] m IH]; cbn.
  - split; [intros _; apply not_elem_of_nil | done].
  - rewrite eqb_decide. case_bool_decide as E.
    + subst. split; [done|]. intros H. exfalso. apply H. left.
    + rewrite IH, not_elem_of_cons. tauto.
Qed.

Lemma mapSet_fresh m k v : mapGet k m = None -> mapSet k v m = m ++ [(k, v)].
Proof.
  induction m as [|[k' v'] m IH]; cbn; [done|].
  destruct (String.eqb k k'); [done|]. intros H. by rewrite IH.
Qed.

Lemma mapGet_mapSet m k v id :
  mapGet id (mapSet k v m) = if String.eqb id k then Some v else mapGet id m.
Proof.
  induction m as [|[k' v'] m IH]; cbn.
  - done.
  - rewrite !eqb_decide. rewrite !eqb_decide in IH.
    repeat case_bool_decide; subst; cbn; rewrite ?eqb_decide;
      repeat case_bool_decide; subst; try done.
Qed.

Lemma mapSet_NoDup m k v : NoDup (map fst m) -> NoDup (map fst (mapSet k v m)).
Proof.
  induction m as [|[k' v'] m IH]; cbn; intros Hnd.
  - apply NoDup_singleton.
  - apply NoDup_cons in Hnd as [Hk' Hnd].
    rewrite eqb_decide. case_bool_decide as E; cbn.
    + by apply NoDup_cons.
    + apply NoDup_cons. split; [|by apply IH].
      intros Hin. apply Hk'.
      apply mapGet_None in Hk'.
      assert (Hg : mapGet k' (mapSet k v m) = None).
      { rewrite mapGet_mapSet, eqb_decide.
        rewrite bool_decide_eq_false_2 by congruence. done. }
      by apply mapGet_None in Hg.
Qed.

Lemma filter_all {A : Type} (P : A -> Prop) `{!forall x, Decision (P x)} (l : list A) :
  (forall x, x ∈ l -> P x) -> filter P l = l.
Proof.
  induction l as [|x l IH]; intros Hall; [done|].
  rewrite filter_cons_True by (apply Hall; left).
  rewrite IH; [done|]. intros y Hy. apply Hall. by right.
Qed.

Lemma mapDelete_filter m k :
  NoDup (map fst m) -> mapDelete k m = filter (fun kv => fst kv <> k) m.
Proof.
  induction m as [|[k' v'] m IH]; cbn [mapDelete]; [done|].
  intros Hnd. apply NoDup_cons in Hnd as [Hk' Hnd].
  rewrite eqb_decide. case_bool_decide as E.
  - subst. rewrite filter_cons_False by (cbn; auto).
    symmetry. apply filter_all. intros [k2 v2] Hin <-. apply Hk'.
    cbn. apply list_elem_of_fmap. by exists (k2, v2).
  - rewrite filter_cons_True by (cbn; congruence). by rewrite IH.
Qed.

Lemma mapDelete_NoDup m k : NoDup (map fst m) -> NoDup (map fst (mapDelete k m)).
Proof.
  intros Hnd. rewrite mapDelete_filter by done.
  induction m as [|[k' v'] m IH]; [done|].
  cbn in Hnd. apply NoDup_cons in Hnd as [Hk' Hnd].
  rewrite filter_cons. case_decide; cbn; [|by apply IH].
  apply NoDup_cons. split; [|by apply IH].
  intros Hin. apply Hk'. apply list_elem_of_fmap in Hin as ([k2 v2] & -> & Hin).
  apply list_elem_of_filter in Hin as [_ Hin].
  apply list_elem_of_fmap. by exists (k2, v2).
Qed.

Lemma mapGet_mapDelete m k id :
  NoDup (map fst m) ->
  mapGet id (mapDelete k m) = if String.eqb id k then None else mapGet id m.
Proof.
  induction m as [|[k' v'] m IH]; cbn; intros Hnd.
  - by destruct (String.eqb id k).
  - apply NoDup_cons in Hnd as [Hk' Hnd].
    specialize (IH Hnd). rewrite !eqb_decide in *.
    repeat case_bool_decide; subst; cbn; rewrite ?eqb_decide;
      repeat case_bool_decide; subst; try done.
    by apply mapGet_None.
Qed.

Lemma run_snoc ops op : run (ops ++ [op]) = step (run ops) op.
Proof. unfold run. by rewrite fold_left_app. Qed.

Lemma run_NoDup ops : NoDup (map fst (run ops)).
Proof.
  induction ops as [|op ops IH] using rev_ind.
  - apply NoDup_nil_2.
  - rewrite run_snoc. destruct op; cbn.
    + by apply mapSet_NoDup.
    + by apply mapDelete_NoDup.
Qed.

Lemma mapGet_run id ops : mapGet id (run ops) = registeredUnder id ops.
Proof.
  unfold registeredUnder.
  induction ops as [|op ops IH] using rev_ind; [done|].
  rewrite run_snoc, rev_app_distr. cbn [rev app registeredUnderFrom].
  destruct op as [k inst|k]; cbn [step].
  - rewrite mapGet_mapSet. by destruct (String.eqb id k).
  - rewrite mapGet_mapDelete by apply run_NoDup. by destruct (String.eqb id k).
Qed.

Lemma getActiveInstance_last m : getActiveInstance m = snd <$> last m.
Proof.
  unfold getActiveInstance.
  induction m as [|kv m IH] using rev_ind; [done|].
  by rewrite fold_left_app, last_snoc.
Qed.

Lemma freshFrom_snoc m ops op :
  freshFrom m (ops ++ [op]) =
  freshFrom m ops &&
  match op with
  | Construct k _ => bool_decide (mapGet k (fold_left step ops m) = None)
  | Disconnect _ => true
  end.
Proof.
  revert m. induction ops as [|o ops IH]; intros m; cbn.
  - destruct op; cbn; by rewrite ?andb_true_r.
  - destruct o; cbn; rewrite IH; by rewrite ?andb_assoc.
Qed.

Lemma last_removed ops (gone : list string) :
  freshIds ops ->
  snd <$> last (filter (fun kv => fst kv ∉ gone) (run ops))
  = latestLiveFrom (rev ops) gone.
Proof.
  unfold freshIds. revert gone.
  induction ops as [|op ops IH] using rev_ind; intros gone Hfresh; [done|].
  rewrite freshFrom_snoc in Hfresh. apply andb_true_iff in Hfresh as [Hf Hop].
  rewrite run_snoc, rev_app_distr. cbn [rev app latestLiveFrom].
  destruct op as [k inst|k]; cbn [step].
  - apply bool_decide_eq_true_1 in Hop. fold (run ops) in Hop.
    rewrite mapSet_fresh by done. rewrite filter_app, filter_cons, filter_nil. cbn [fst].
    case_bool_decide as E.
    + rewrite decide_False by auto. rewrite app_nil_r. by apply IH.
    + rewrite decide_True by done. by rewrite last_snoc.
  - rewrite mapDelete_filter by apply run_NoDup.
    rewrite list_filter_filter.
    rewrite <- (IH (k :: gone)) by done.
    f_equal. f_equal. apply list_filter_iff. intros [k2 v2]; cbn.
    rewrite not_elem_of_cons. tauto.
Qed.

(** C9.  An event that carries a client id goes to the instance registered
    under exactly that id and still live, and to nobody when there is none;
    an event without a client id goes to the most recently registered live
    instance, provided every instance was given an id no live one had. *)
Theorem route_by_client_id (ops : list (Op Inst)) :
  (forall clientId, clientId <> ""%string ->
     route (Some clientId) (run ops) = registeredUnder clientId ops)
  /\ (freshIds ops ->
      route None (run ops) = mostRecentlyRegisteredLive ops
      /\ route (Some ""%string) (run ops) = mostRecentlyRegisteredLive ops).
Proof.
  split.
  - intros clientId Hne. cbn.
    destruct clientId; [done|]. cbn [Text.isEmpty]. apply mapGet_run.
  - intros Hfresh. unfold mostRecentlyRegisteredLive.
    rewrite <- (last_removed ops [] Hfresh).
    rewrite (filter_all _ (run ops)) by (intros; apply not_elem_of_nil).
    cbn. by rewrite getActiveInstance_last.
Qed.

End RegistryFacts.

Lemma route_by_client_id_witness :
  NativeClient.route (Some "rn_1"%string) (NativeClient.run sampleHistory) = Some 1%nat
  /\ NativeClient.route (Some "rn_2"%string) (NativeClient.run sampleHistory) = None
  /\ NativeClient.route None (NativeClient.run sampleHistory) = Some 3%nat.
Proof.
  destruct (route_by_client_id sampleHistory) as [Hid Hnone].
  split; [|split].
  - exact (Hid "rn_1"%string ltac:(discriminate)).
  - exact (Hid "rn_2"%string ltac:(discriminate)).
  - exact (proj1 (Hnone eq_refl)).
Defined.

(** ** The connection manager *)
Section ManagerFacts.
Import Manager.
Context (rt : JsRuntime).

(** The delay as a function of the counter is the documented one. *)
Lemma reconnectDelay_values :
  map reconnectDelay [0; 1; 2; 3; 4; 5; 6]
  = [1000; 2000; 4000; 8000; 16000; 30000; 30000].
Proof. reflexivity. Qed.

Lemma reconnectDelay_capped (n : Z) : 5 <= n -> reconnectDelay n = 30000.
Proof.
  intros Hn. unfold reconnectDelay.
  assert (2 ^ 5 <= 2 ^ n) by (apply Z.pow_le_mono_r; lia).
  change (2 ^ 5) with 32 in *. lia.
Qed.

Lemma retry_loop (device : Device) (times : list Z) (s : State) :
  currentDevice s = Some device -> retryCount s = 0 ->
  scheduled
    (fold_left (fun s t => connectDevice_rejected t (reconnectFire s)) times s)
  = scheduled s ++ repeat 1000 (length times).
Proof.
  revert s. induction times as [|t times IH]; intros s Hdev Hrc; cbn.
  - by rewrite app_nil_r.
  - rewrite IH.
    + unfold reconnectFire; cbn. rewrite Hdev; cbn.
      by rewrite <- app_assoc.
    + unfold reconnectFire; cbn. by rewrite Hdev.
    + unfold reconnectFire; cbn. by rewrite Hdev.
Qed.

(** C3, what the code does.  [connectDevice] sets [retryCount] back to 0
    each time it is entered, also when the reconnect timer calls it, so
    [scheduleReconnect] always reads 0: after a first failure and any number
    of failed reconnect attempts every delay that was scheduled is 1000 ms,
    where the comment on [scheduleReconnect] announces 1 s, 2 s, 4 s, ... *)
Theorem reconnect_delay_stays_1s (device : Device) (t0 : Z) (times : list Z)
    (st : State) :
  scheduled (consecutiveFailures device t0 times st)
  = scheduled st ++ repeat 1000 (S (length times)).
Proof.
  unfold consecutiveFailures. rewrite (retry_loop device) by done.
  cbn. by rewrite <- app_assoc.
Qed.

(** The same over every run of the manager: the counter is 0 between any
    two events, and no delay other than 1000 ms is ever scheduled. *)
Lemma retryCount_always_zero (evs : list Event) :
  let st := fold_left (step rt) evs initial in
  retryCount st = 0
  /\ Forall (fun d => d = 1000) (scheduled st)
  /\ (reconnectTimer st <> None -> currentDevice st <> None).
Proof.
  induction evs as [|ev evs IH] using rev_ind; cbn.
  - split; [done|]. split; [constructor|done].
  - rewrite fold_left_app. cbn.
    remember (fold_left (step rt) evs initial) as st eqn:Est. clear Est.
    destruct IH as (Hrc & Hall & Htimer).
    assert (Hsched : forall now s, retryCount s = 0 ->
              Forall (fun d => d = 1000) (scheduled s) ->
              (reconnectTimer s <> None -> currentDevice s <> None) ->
              retryCount (scheduleReconnect now s) = 0
              /\ Forall (fun d => d = 1000) (scheduled (scheduleReconnect now s))
              /\ (reconnectTimer (scheduleReconnect now s) <> None ->
                  currentDevice (scheduleReconnect now s) <> None)).
    { intros now s H0 HF HT. unfold scheduleReconnect.
      destruct (currentDevice s) as [d|] eqn:E; cbn; [|by rewrite E].
      rewrite H0. split; [done|]. split; [|by rewrite E].
      apply Forall_app. split; [done|]. by constructor. }
    destruct ev; cbn.
    + done.
    + done.
    + apply Hsched; cbn; done.
    + unfold onStatus. destruct (Text.startsWith "DISCONNECTED" _); [|done].
      apply Hsched; cbn; done.
    + apply Hsched; cbn; done.
    + destruct (reconnectTimer st) eqn:E; [|done].
      unfold reconnectFire; cbn.
      destruct (currentDevice st) eqn:E2; cbn; [done|].
      exfalso. apply Htimer; congruence.
    + done.
Qed.

(** C4.  When the first attempt fails with an error that
    [shouldFlipTls] recognises: on a port other than 1883 there is exactly
    one more attempt, made with the opposite TLS flag, and when it succeeds
    the flipped mode is what the caller gets (when it fails, its error); on
    port 1883 there is no second attempt and the first error is thrown. *)
Theorem tls_flip_once (host : string) (port : Js.value) (cpId deviceId : string)
    (useTlsInput : option bool) (tryOnce : nat -> bool -> option Error)
    (e1 : Error) :
  let p := portOrDefault rt port in
  let useTls0 := firstTlsMode useTlsInput p in
  let result :=
    authenticateForAddDevice rt host port cpId deviceId useTlsInput tryOnce in
  Text.isEmpty host = false ->
  Text.isEmpty (buildSubscribeTopic cpId deviceId) = false ->
  tryOnce 0%nat useTls0 = Some e1 ->
  shouldFlipTls rt e1 = true ->
  ((p =? 1883)%float = false ->
     connectCalls (snd result) = [useTls0; negb useTls0]
     /\ match tryOnce 1%nat (negb useTls0) with
        | None => exists info, fst result = Return info
                               /\ useTls info = negb useTls0
        | Some e2 => fst result = Throw e2
        end)
  /\ ((p =? 1883)%float = true ->
        connectCalls (snd result) = [useTls0] /\ fst result = Throw e1).
Proof.
  intros p useTls0 result Hhost Htopic Hfirst Hflip.
  subst result. unfold authenticateForAddDevice.
  rewrite Hhost, Htopic. fold p. fold useTls0. rewrite Hfirst, Hflip.
  split; intros Hp; rewrite Hp.
  - destruct (tryOnce 1%nat (negb useTls0)) as [e2|]; cbn.
    + done.
    + split; [done|]. eexists. split; [reflexivity|done].
  - done.
Qed.

End ManagerFacts.

Lemma tls_flip_once_witness :
  let result :=
    Manager.authenticateForAddDevice Reference.runtime "broker.local"
      (Some (JNum 8883)) "cp01" "gw7" None sampleTryOnce in
  Manager.connectCalls (snd result) = [true; false]
  /\ exists info, fst result = Manager.Return info /\ Manager.useTls info = false.
Proof.
  exact (proj1 (tls_flip_once Reference.runtime "broker.local" (Some (JNum 8883))
                  "cp01" "gw7" None sampleTryOnce _ eq_refl eq_refl eq_refl eq_refl)
               eq_refl).
Defined.

(** ** The keep-alive command *)

(** Reading a field of a state built with the setters. *)
Ltac screen_fields :=
  cbn [Screen.conn Screen.connRef Screen.store Screen.nameLock
       Screen.pendingName Screen.pendingRating Screen.didRequestCfg
       Screen.didSendFastInterval Screen.fastTimer Screen.timeouts
       Screen.effects Screen.setConn Screen.setConnRef Screen.setStore
       Screen.setNameLock Screen.setPendingName Screen.setPendingRating
       Screen.setDidRequestCfg Screen.setDidSendFastInterval
       Screen.setFastTimer Screen.setTimeouts Screen.emit
       Screen.stopFastIntervalTimer Screen.clearAllTimeouts
       Screen.safeSetTimeout Screen.publishAll] in *.

Section KeepAliveFacts.
Import Screen.
Context (rt : JsRuntime) (cfg : Config).
Hypothesis cpid_ok : Text.isEmpty (cpid cfg) = false.
Hypothesis deviceId_ok : Text.isEmpty (deviceId cfg) = false.

Lemma tSlash_ok : Text.isEmpty (tSlash cfg) = false.
Proof. unfold tSlash. by rewrite cpid_ok, deviceId_ok. Qed.

Lemma tNoSlash_ok : Text.isEmpty (tNoSlash cfg) = false.
Proof. unfold tNoSlash. by rewrite cpid_ok, deviceId_ok. Qed.

Lemma keepAliveCount_app (es1 es2 : list Effect) :
  keepAliveCount (es1 ++ es2) = (keepAliveCount es1 + keepAliveCount es2)%nat.
Proof. unfold keepAliveCount. by rewrite List.filter_app, length_app. Qed.

Lemma requestNameMap_effects (st : State) :
  exists es, requestNameMap cfg st = emit es st /\ keepAliveCount es = O.
Proof.
  unfold requestNameMap, publishToBothTopics.
  rewrite tSlash_ok, tNoSlash_ok, cpid_ok, deviceId_ok. cbn.
  eexists. split; [reflexivity|done].
Qed.

Lemma requestRatingMap_effects (st : State) :
  exists es, requestRatingMap cfg st = emit es st /\ keepAliveCount es = O.
Proof.
  unfold requestRatingMap, publishToBothTopics.
  rewrite tSlash_ok, tNoSlash_ok, cpid_ok, deviceId_ok. cbn.
  eexists. split; [reflexivity|done].
Qed.

Lemma sendFastIntervalTick_connected (st : State) :
  connRef st = CONNECTED ->
  sendFastIntervalTick cfg st
  = emit [PublishMqtt (mkRequest (tSlash cfg) (fastInterval cfg) 1 false)] st.
Proof.
  intros Hc. unfold sendFastIntervalTick, publishCfg, publishAll.
  rewrite Hc, cpid_ok, deviceId_ok, tSlash_ok. by rewrite bool_decide_eq_true_2.
Qed.

Lemma fastTimerFire_connected (now t : Z) (st : State) :
  connRef st = CONNECTED -> fastTimer st = Some t ->
  fastTimerFire cfg now st
  = setFastTimer (Some (now + 58000))
      (emit [PublishMqtt (mkRequest (tSlash cfg) (fastInterval cfg) 1 false)] st).
Proof.
  intros Hc Ht. unfold fastTimerFire.
  rewrite Ht, Hc, bool_decide_eq_true_2 by done. cbn.
  rewrite sendFastIntervalTick_connected by done. cbn. by rewrite Ht.
Qed.

Lemma keepAliveTicks_connected (n : nat) (t : Z) (st : State) :
  connRef st = CONNECTED -> fastTimer st = Some t ->
  let st' := keepAliveTicks cfg n st in
  keepAliveCount (effects st') = (keepAliveCount (effects st) + n)%nat
  /\ fastTimer st' = Some (t + 58000 * Z.of_nat n)
  /\ connRef st' = CONNECTED.
Proof.
  revert t st. induction n as [|n IH]; intros t st Hc Ht; cbn.
  - rewrite Ht. split; [lia|]. split; [f_equal; lia|done].
  - rewrite Ht. rewrite (fastTimerFire_connected t t) by done.
    destruct (IH (t + 58000)
                (setFastTimer (Some (t + 58000))
                   (emit [PublishMqtt (mkRequest (tSlash cfg) (fastInterval cfg) 1 false)] st)))
      as (Hk & Hf & Hr); [done|done|].
    cbn zeta in *. rewrite Hk, Hf, Hr. cbn [effects setFastTimer emit].
    rewrite keepAliveCount_app. cbn.
    split; [lia|]. split; [f_equal; lia|done].
Qed.

Lemma onStatus_subscribed_fresh (now : Z) (msg : string) (st : State) :
  Text.startsWith "CONNECTED" (toUpperCase rt msg) = false ->
  Text.startsWith "SUBSCRIBED" (toUpperCase rt msg) = true ->
  didRequestCfg st = false -> didSendFastInterval st = false ->
  let st1 := onStatus rt cfg now msg st in
  conn st1 = CONNECTED /\ connRef st1 = CONNECTED
  /\ keepAliveCount (effects st1) = S (keepAliveCount (effects st))
  /\ fastTimer st1 = Some (now + 58000)
  /\ didRequestCfg st1 = true /\ didSendFastInterval st1 = true.
Proof.
  intros Hnc Hsub Hreq Hsent. cbn zeta. unfold onStatus. rewrite Hnc, Hsub.
  cbn [didRequestCfg setConn setConnRef]. rewrite Hreq. cbn [negb].
  set (s3 := stopFastIntervalTimer _).
  assert (Hs4 : sendFastIntervalOnce cfg s3
                = emit [PublishMqtt (mkRequest (tSlash cfg) (fastInterval cfg) 1 false)]
                    (setDidSendFastInterval true s3)).
  { unfold sendFastIntervalOnce, publishCfg, publishAll. subst s3. cbn.
    by rewrite Hsent, cpid_ok, deviceId_ok, tSlash_ok. }
  rewrite Hs4.
  set (s4 := emit _ (setDidSendFastInterval true s3)).
  assert (Hs5 : startFastIntervalTimer now s4 = setFastTimer (Some (now + 58000)) s4)
    by done.
  rewrite Hs5.
  destruct (requestNameMap_effects (setFastTimer (Some (now + 58000)) s4))
    as (es1 & -> & Hes1).
  destruct (requestRatingMap_effects
              (emit es1 (setFastTimer (Some (now + 58000)) s4)))
    as (es2 & -> & Hes2).
  subst s4 s3. screen_fields.
  rewrite !keepAliveCount_app, Hes1, Hes2. cbn [keepAliveCount List.filter isFastInterval
    payload command fastInterval readEnvelope String.eqb Ascii.eqb Bool.eqb length].
  repeat split; try done. cbn. lia.
Qed.

Lemma onStatus_subscribed_again (now : Z) (msg : string) (st : State) :
  Text.startsWith "CONNECTED" (toUpperCase rt msg) = false ->
  Text.startsWith "SUBSCRIBED" (toUpperCase rt msg) = true ->
  didRequestCfg st = true ->
  effects (onStatus rt cfg now msg st) = effects st
  /\ fastTimer (onStatus rt cfg now msg st) = fastTimer st.
Proof.
  intros Hnc Hsub Hreq. unfold onStatus. rewrite Hnc, Hsub.
  cbn [didRequestCfg setConn setConnRef]. by rewrite Hreq.
Qed.

Lemma fastTimerFire_not_connected (t : Z) (s : State) :
  connRef s <> CONNECTED -> fastTimer s <> None ->
  effects (fastTimerFire cfg t s) = effects s
  /\ fastTimer (fastTimerFire cfg t s) = None.
Proof.
  intros Hc Ht. unfold fastTimerFire.
  destruct (fastTimer s); [|done].
  by rewrite bool_decide_eq_false_2.
Qed.

(** C5.  On the SUBSCRIBED status of a fresh connection the screen becomes
    Connected, publishes the keep-alive command once and arms the 58 s
    timer; while the session stays Connected each firing publishes once
    more and re-arms the timer 58 s later.  A further SUBSCRIBED of the same
    connection, or a second call of [sendFastIntervalOnce], publishes
    nothing.  Once the session has left Connected, a firing publishes
    nothing and clears the timer, and the explicit disconnect clears it at
    once. *)
Theorem keep_alive_schedule (now : Z) (msg : string) (st : State) :
  Text.startsWith "CONNECTED" (toUpperCase rt msg) = false ->
  Text.startsWith "SUBSCRIBED" (toUpperCase rt msg) = true ->
  let st1 := onStatus rt cfg now msg st in
  (* reaching Connected on a fresh connection: one send, timer armed *)
  (didRequestCfg st = false -> didSendFastInterval st = false ->
     conn st1 = CONNECTED /\ connRef st1 = CONNECTED
     /\ keepAliveCount (effects st1) = S (keepAliveCount (effects st))
     /\ fastTimer st1 = Some (now + 58000)
     /\ didRequestCfg st1 = true /\ didSendFastInterval st1 = true
     (* the timer then sends once per firing, 58 s apart *)
     /\ (forall n, let st2 := keepAliveTicks cfg n st1 in
           keepAliveCount (effects st2) = (S (keepAliveCount (effects st)) + n)%nat
           /\ fastTimer st2 = Some (now + 58000 + 58000 * Z.of_nat n)))
  (* a later SUBSCRIBED of the same connection, or a second call of
     sendFastIntervalOnce, sends nothing *)
  /\ (didRequestCfg st = true -> effects st1 = effects st /\ fastTimer st1 = fastTimer st)
  /\ (forall s, didSendFastInterval s = true -> sendFastIntervalOnce cfg s = s)
  (* once the session has left Connected, a firing sends nothing and
     clears the timer; the explicit disconnect clears it at once *)
  /\ (forall t s, connRef s <> CONNECTED -> fastTimer s = Some t ->
        effects (fastTimerFire cfg t s) = effects s
        /\ fastTimer (fastTimerFire cfg t s) = None)
  /\ (forall t s, fastTimer s = None -> fastTimerFire cfg t s = s)
  /\ (forall s, fastTimer (stopFastIntervalTimer s) = None
                /\ fastTimer (disconnectAndStop s) = None)
  /\ (forall t m s, Text.startsWith "CONNECTED" (toUpperCase rt m) = false ->
        Text.startsWith "SUBSCRIBED" (toUpperCase rt m) = false ->
        Text.startsWith "DISCONNECTED" (toUpperCase rt m) = true ->
        connRef (syncConnRef (onStatus rt cfg t m s)) = DISCONNECTED).
Proof.
  intros Hnc Hsub st1.
  split; [|split; [|split; [|split; [|split; [|split]]]]].
  - intros Hreq Hsent.
    destruct (onStatus_subscribed_fresh now msg st Hnc Hsub Hreq Hsent)
      as (Hc & Hr & Hk & Ht & Hq & Hs).
    fold st1 in Hc, Hr, Hk, Ht, Hq, Hs.
    repeat (split; [assumption|]).
    intros n.
    destruct (keepAliveTicks_connected n (now + 58000) st1 Hr Ht) as (Hn & Hf & _).
    cbn zeta in *. by rewrite Hn, Hf, Hk.
  - intros Hreq. by apply onStatus_subscribed_again.
  - intros s Hs. unfold sendFastIntervalOnce. by rewrite Hs.
  - intros t s Hc Ht. apply fastTimerFire_not_connected; [done|congruence].
  - intros t s Ht. unfold fastTimerFire. by rewrite Ht.
  - done.
  - intros t m s H1 H2 H3. unfold onStatus. by rewrite H1, H2, H3.
Qed.

End KeepAliveFacts.

(** ** Publishing without a connection *)

Section GuardFacts.
Import Screen.

Lemma deliverAll_not_connected (encode : Envelope -> string) (hasDefault : bool)
    (throws : list bool) (reqs : list PublishRequest) (native : NativeModule.State) :
  NativeModule.notConnected native = true ->
  fst (NativeClient.deliverAll encode hasDefault throws reqs native) = native
  /\ Forall (fun p => p <> NativeModule.Resolved)
       (snd (NativeClient.deliverAll encode hasDefault throws reqs native)).
Proof.
  intros Hn. destruct reqs as [|r rest]; cbn.
  - split; [done|constructor].
  - unfold NativeClient.publishMqtt, NativeModule.publish. rewrite Hn.
    destruct hasDefault; cbn; (split; [done|]); by repeat constructor.
Qed.

(** The guards that are there.  While the screen's state is not Connected,
    [publishControl], [publishCfg] and [publishWrite] return without a call
    of [publishMqtt]; while the native client is absent or not connected,
    [subscribe] and [publish] of the native module (Android, then iOS)
    reject with MQTT_NOT_CONNECTED and ask nothing of the transport; and
    whatever requests reach [publishMqtt] in that situation leave the
    native state as it was, each settled promise being a rejection.  The
    states before and after are equal, so nothing is kept for later. *)
Lemma publish_needs_connection :
  (forall (cfg : Config) (st : State) (p : Envelope),
     connRef st <> CONNECTED ->
     publishControl cfg st p = [] /\ publishCfg cfg st p = []
     /\ publishWrite cfg st p = [])
  /\ (forall native : NativeModule.State,
        NativeModule.notConnected native = true ->
        (forall topic payload qos retained throws,
           NativeModule.publish topic payload qos retained throws native
           = (native, NativeModule.Rejected "MQTT_NOT_CONNECTED"))
        /\ (forall topic qos granted,
              NativeModule.subscribe topic qos granted native
              = (native, NativeModule.Rejected "MQTT_NOT_CONNECTED"))
        /\ (forall encode hasDefault throws reqs,
              fst (NativeClient.deliverAll encode hasDefault throws reqs native) = native
              /\ Forall (fun p => p <> NativeModule.Resolved)
                   (snd (NativeClient.deliverAll encode hasDefault throws reqs native))))
  /\ (forall (ios : NativeIos.State) (clientId : string),
        NativeIos.notConnected clientId ios = true ->
        (forall topic payload qos retained,
           NativeIos.publish topic payload qos retained clientId ios
           = (ios, NativeModule.Rejected "MQTT_NOT_CONNECTED"))
        /\ (forall topic qos,
              NativeIos.subscribe topic qos clientId ios
              = (ios, NativeModule.Rejected "MQTT_NOT_CONNECTED"))).
Proof.
  split; [|split].
  - intros cfg st p Hc. unfold publishControl, publishCfg, publishWrite.
    by rewrite bool_decide_eq_false_2.
  - intros native Hn. split; [|split].
    + intros. unfold NativeModule.publish. by rewrite Hn.
    + intros. unfold NativeModule.subscribe. by rewrite Hn.
    + intros. by apply deliverAll_not_connected.
  - intros ios clientId Hn. split.
    + intros. unfold NativeIos.publish. by rewrite Hn.
    + intros. unfold NativeIos.subscribe. by rewrite Hn.
Qed.

End GuardFacts.

Section UnguardedFacts.
Import Screen.
Context (cfg : Config).
Hypothesis cpid_ok : Text.isEmpty (cpid cfg) = false.
Hypothesis deviceId_ok : Text.isEmpty (deviceId cfg) = false.

(** [publishToBothTopics] looks at the two topics and at nothing else, and
    the two map requests go through it: whatever the state of the screen,
    their requests are handed to [publishMqtt]. *)
Lemma publishToBothTopics_unguarded (st : State) (p : Envelope) :
  publishToBothTopics cfg p
  = [mkRequest (tSlash cfg) p 1 false; mkRequest (tNoSlash cfg) p 1 false]
  /\ requestRatingMap cfg st
     = emit (map PublishMqtt (publishToBothTopics cfg (readEnvelope cfg "4" "Rating"))) st
  /\ requestNameMap cfg st
     = emit (map PublishMqtt
               (publishToBothTopics cfg (readEnvelope cfg "5" "Name1")
                ++ publishToBothTopics cfg (readEnvelope cfg "5" "Name2"))) st.
Proof.
  unfold requestRatingMap, requestNameMap, publishToBothTopics, publishAll.
  rewrite (tSlash_ok cfg cpid_ok deviceId_ok), (tNoSlash_ok cfg cpid_ok deviceId_ok).
  by rewrite cpid_ok, deviceId_ok.
Qed.

End UnguardedFacts.

(** C6, what the code does.  The rating write of 1000 has armed its
    read-back for 3510.  When the timer fires, the screen is in the state
    Connecting (state and ref) and the native client is connected again.
    [publishCfg] would return at its guard; [requestRatingMap] goes through
    [publishToBothTopics], which has none: its two requests are handed to
    [publishMqtt], written to the transport, and both promises resolve. *)
Theorem rating_read_back_while_connecting :
  let fired := Screen.fireTimeout sampleConfig 3510 None 0 reconnectingScreen in
  Screen.conn reconnectingScreen = Screen.CONNECTING
  /\ Screen.connRef reconnectingScreen = Screen.CONNECTING
  /\ Screen.timeouts reconnectingScreen !! 0%nat = Some (3510, Screen.RatingReadBack)
  /\ Screen.publishCfg sampleConfig reconnectingScreen
       (Screen.readEnvelope sampleConfig "4" "Rating") = []
  /\ ScreenLog.published (Screen.effects fired)
     = ScreenLog.published (Screen.effects reconnectingScreen) ++ ratingRequests
  /\ NativeClient.deliverAll (fun _ => "{}"%string) true [] ratingRequests connectedNative
     = (NativeModule.mkState (Some true)
          [NativeModule.WirePublish "devices/cp01/gw7/messages/events/" "{}" 1 false;
           NativeModule.WirePublish "devices/cp01/gw7/messages/events" "{}" 1 false],
        [NativeModule.Resolved; NativeModule.Resolved]).
Proof. vm_compute. repeat split; reflexivity. Qed.

Section NameWriteFacts.
Import Codec Store Screen.
Context (rt : JsRuntime) (cfg : Config).
Hypothesis cpid_ok : Text.isEmpty (cpid cfg) = false.
Hypothesis deviceId_ok : Text.isEmpty (deviceId cfg) = false.

Lemma toasts_app (es1 es2 : list Effect) : toasts (es1 ++ es2) = toasts es1 ++ toasts es2.
Proof. unfold toasts. apply omap_app. Qed.

Lemma publishSetName_records (now sent : Z) (okA okB : bool) (N : Z)
    (newName : string) (st : State) :
  conn st = CONNECTED -> Text.isEmpty (Text.trim newName) = false ->
  let st' := publishSetName cfg now sent okA okB N newName st in
  pendingName st' !! N = Some (mkPendingName (Text.trim newName) (now + 8000))
  /\ nameLock st' !! N = Some (now + 8000)
  /\ (okA = true -> okB = true ->
      timeouts st' = timeouts st ++ [(sent + 2500, NameReadBack (bankOf N));
                                     (sent + 8200, NameTimeout N (bankOf N))]).
Proof.
  intros Hc Hname. cbn zeta. unfold publishSetName.
  rewrite Hc, bool_decide_eq_true_2 by done. cbn [negb].
  rewrite cpid_ok, deviceId_ok, Hname. cbn [orb].
  unfold saveNameCache. rewrite cpid_ok, deviceId_ok. cbn [orb].
  destruct okA, okB; cbn [negb]; screen_fields; rewrite ?lookup_insert_eq;
    (split; [done|]); (split; [done|]); try done.
  intros _ _. by rewrite <- app_assoc.
Qed.

Lemma nameEntry_confirms (now : Z) (acc : Acc) (k : string) (v : json) (N : Z)
    (p : PendingName) :
  chanOfKey k = Some N ->
  pendingName (a_state acc) !! N = Some p -> now <= pn_expiresAt p ->
  sanitizeName rt (Some v) = Text.trim (pn_value p) ->
  Text.isEmpty (sanitizeName rt (Some v)) = false ->
  Text.testPlaceholder (sanitizeName rt (Some v)) = false ->
  let acc' := nameEntry rt now acc (k, v) in
  pendingName (a_state acc') !! N = None
  /\ nameLock (a_state acc') !! N = Some 0
  /\ effects (a_state acc')
     = effects (a_state acc) ++ [Toast ("Name saved: C" +:+ pretty N)]
  /\ exists partial, a_patch acc' !! N = Some partial
       /\ p_tagName partial = Some (Text.trim (pn_value p)).
Proof.
  intros Hk Hp Hnow Heq Hne Hph. cbn zeta. unfold nameEntry. cbn [fst snd].
  rewrite Hk, Hne, Hph, Hp.
  replace (now <=? pn_expiresAt p) with true by lia.
  rewrite Heq, String.eqb_refl. cbn [a_state a_patch]. screen_fields.
  rewrite lookup_delete_eq, lookup_insert_eq.
  repeat split; try done.
  unfold put. rewrite lookup_insert_eq.
  destruct (a_patch acc !! N); eexists; (split; [reflexivity|done]).
Qed.

Lemma setNameEntry_rearms (now : Z) (acc : gmap Z Partial * State) (k : string)
    (v : json) (N : Z) :
  chanOfKey k = Some N ->
  Text.isEmpty (sanitizeName rt (Some v)) = false ->
  let acc' := setNameEntry rt cfg now acc (k, v) in
  pendingName (snd acc') = pendingName (snd acc)
  /\ nameLock (snd acc') !! N = Some (now + 8000)
  /\ toasts (effects (snd acc')) = toasts (effects (snd acc)).
Proof.
  intros Hk Hne. cbn zeta. unfold setNameEntry. cbn [fst snd].
  rewrite Hk, Hne. unfold saveNameCache. rewrite cpid_ok, deviceId_ok.
  cbn [orb snd]. screen_fields. rewrite lookup_insert_eq, toasts_app.
  cbn. by rewrite app_nil_r.
Qed.

Lemma put_tagName (i : Z) (name : string) (patch : gmap Z Partial) :
  exists partial, put i (namePartial name) patch !! i = Some partial
    /\ p_tagName partial = Some name /\ p_seen partial = Some true.
Proof.
  unfold put. rewrite lookup_insert_eq.
  destruct (patch !! i); eexists; (split; [reflexivity|done]).
Qed.

Lemma setNameEntry_applies (now : Z) (acc : gmap Z Partial * State) (k : string)
    (v : json) (N : Z) :
  chanOfKey k = Some N ->
  Text.isEmpty (sanitizeName rt (Some v)) = false ->
  exists partial, fst (setNameEntry rt cfg now acc (k, v)) !! N = Some partial
    /\ p_tagName partial = Some (sanitizeName rt (Some v))
    /\ p_seen partial = Some true.
Proof.
  intros Hk Hne. unfold setNameEntry. cbn [fst snd]. rewrite Hk, Hne.
  cbn [fst]. apply put_tagName.
Qed.

(** An entry whose cleaned value is empty or a placeholder is skipped
    before the pending write is looked at. *)
Lemma nameEntry_skips (now : Z) (acc : Acc) (k : string) (v : json) :
  Text.isEmpty (sanitizeName rt (Some v)) = true
  \/ Text.testPlaceholder (sanitizeName rt (Some v)) = true ->
  nameEntry rt now acc (k, v) = acc.
Proof.
  intros H. unfold nameEntry. cbn [fst snd].
  destruct (chanOfKey k); [|done].
  destruct H as [H|H]; rewrite H; [done|].
  by destruct (Text.isEmpty (sanitizeName rt (Some v))).
Qed.

Lemma nameTimeout_fires (now : Z) (failure : option string) (N : Z) (bank : Bank)
    (st : State) (p : PendingName) :
  pendingName st !! N = Some p ->
  let st' := runTimeout cfg now failure (NameTimeout N bank) st in
  pendingName st' !! N = None
  /\ nameLock st' !! N = Some 0
  /\ toasts (effects st') = toasts (effects st) ++ ["Name save timeout: " +:+ chanKey N]
  /\ (connRef st = CONNECTED ->
      effects st' = effects st
        ++ [Toast ("Name save timeout: " +:+ chanKey N);
            PublishMqtt (mkRequest (tSlash cfg)
                           (readEnvelope cfg "5" (bankName bank)) 1 false)]).
Proof.
  intros Hp. cbn zeta. unfold runTimeout. rewrite Hp.
  unfold requestNameBank, publishCfg.
  assert (Ht : Text.isEmpty (tSlash cfg) = false)
    by (unfold tSlash; by rewrite cpid_ok, deviceId_ok).
  rewrite Ht, cpid_ok, deviceId_ok. cbn [orb]. screen_fields.
  destruct (bool_decide (connRef st = CONNECTED)) eqn:E; cbn [negb];
    screen_fields; rewrite lookup_delete_eq, lookup_insert_eq, ?toasts_app; cbn.
  - split; [done|]. split; [done|]. split; [by rewrite ?app_nil_r|].
    intros _. by rewrite <- app_assoc.
  - split; [done|]. split; [done|]. split; [by rewrite ?app_nil_r|].
    intros Hc. by rewrite Hc, bool_decide_eq_true_2 in E.
Qed.

End NameWriteFacts.

Section NameWriteClaim.
Import Codec Store Screen.
Context (rt : JsRuntime) (cfg : Config).
Hypothesis cpid_ok : Text.isEmpty (cpid cfg) = false.
Hypothesis deviceId_ok : Text.isEmpty (deviceId cfg) = false.

(** C2, as the code has it.  A name write made while connected, of a text
    that is not empty once trimmed, records the pending operation and the
    name lock, both for 8 s, and arms the read-back at 2.5 s and the 8.2 s
    timer once its two publishes have resolved.  What confirms it is an
    entry of an inbound name map read before the pending operation expires
    whose cleaned value is the pending one and is not a placeholder
    "Device n": that applies the name, clears the pending operation, sets
    the lock to 0 and raises "Name saved".  An entry whose cleaned value is
    empty or such a placeholder is skipped before the pending operation is
    looked at, so the write of a placeholder is never confirmed.  A
    "Set Name" command echo with a value that is not empty once cleaned
    applies the name and arms the lock for another 8 s; it leaves the
    pending operation and raises nothing.  When the 8.2 s timer fires with
    the pending operation still there, the operation is removed, the lock
    is set to 0, "Name save timeout" is raised and, if the screen is
    connected, the name bank is requested again. *)
Theorem name_write_round_trip (N : Z) :
  (forall now sent okA okB newName st,
     conn st = CONNECTED -> Text.isEmpty (Text.trim newName) = false ->
     let st' := publishSetName cfg now sent okA okB N newName st in
     pendingName st' !! N = Some (mkPendingName (Text.trim newName) (now + 8000))
     /\ nameLock st' !! N = Some (now + 8000)
     /\ (okA = true -> okB = true ->
         timeouts st' = timeouts st ++ [(sent + 2500, NameReadBack (bankOf N));
                                        (sent + 8200, NameTimeout N (bankOf N))]))
  /\ (forall now acc k v p,
        chanOfKey k = Some N ->
        pendingName (a_state acc) !! N = Some p -> now <= pn_expiresAt p ->
        sanitizeName rt (Some v) = Text.trim (pn_value p) ->
        Text.isEmpty (sanitizeName rt (Some v)) = false ->
        Text.testPlaceholder (sanitizeName rt (Some v)) = false ->
        let acc' := nameEntry rt now acc (k, v) in
        pendingName (a_state acc') !! N = None
        /\ nameLock (a_state acc') !! N = Some 0
        /\ effects (a_state acc')
           = effects (a_state acc) ++ [Toast ("Name saved: C" +:+ pretty N)]
        /\ exists partial, a_patch acc' !! N = Some partial
             /\ p_tagName partial = Some (Text.trim (pn_value p)))
  /\ (forall now acc k v,
        Text.isEmpty (sanitizeName rt (Some v)) = true
        \/ Text.testPlaceholder (sanitizeName rt (Some v)) = true ->
        nameEntry rt now acc (k, v) = acc)
  /\ (forall now acc k v,
        chanOfKey k = Some N ->
        Text.isEmpty (sanitizeName rt (Some v)) = false ->
        let acc' := setNameEntry rt cfg now acc (k, v) in
        pendingName (snd acc') = pendingName (snd acc)
        /\ nameLock (snd acc') !! N = Some (now + 8000)
        /\ toasts (effects (snd acc')) = toasts (effects (snd acc))
        /\ exists partial, fst acc' !! N = Some partial
             /\ p_tagName partial = Some (sanitizeName rt (Some v))
             /\ p_seen partial = Some true)
  /\ (forall now failure bank st p,
        pendingName st !! N = Some p ->
        let st' := runTimeout cfg now failure (NameTimeout N bank) st in
        pendingName st' !! N = None
        /\ nameLock st' !! N = Some 0
        /\ toasts (effects st')
           = toasts (effects st) ++ ["Name save timeout: " +:+ chanKey N]
        /\ (connRef st = CONNECTED ->
            effects st' = effects st
              ++ [Toast ("Name save timeout: " +:+ chanKey N);
                  PublishMqtt (mkRequest (tSlash cfg)
                                 (readEnvelope cfg "5" (bankName bank)) 1 false)]))
  /\ (forall now failure bank st,
        pendingName st !! N = None ->
        runTimeout cfg now failure (NameTimeout N bank) st = st).
Proof.
  split; [|split; [|split; [|split; [|split]]]].
  - intros. by apply publishSetName_records.
  - intros now acc k v p Hk Hp Hnow Heq Hne Hph. by apply nameEntry_confirms.
  - intros. by apply nameEntry_skips.
  - intros now acc k v Hk Hne.
    destruct (setNameEntry_rearms rt cfg cpid_ok deviceId_ok now acc k v N Hk Hne)
      as (H1 & H2 & H3).
    repeat split; try done. by apply setNameEntry_applies.
  - intros. by eapply nameTimeout_fires.
  - intros now failure bank st Hp. unfold runTimeout. by rewrite Hp.
Qed.

End NameWriteClaim.

(** C2 as stated fails: after the echo [{"Set Name": {"C17": "Pump A"}}] the
    pending operation is still there, the lock runs until 9500 and no
    confirmation has been raised; the 8.2 s timer then raises the timeout.
    The same text with nothing around it is not even looked at. *)
Lemma set_name_echo_counterexample :
  Screen.pendingName afterNameWrite !! 17 = Some (Screen.mkPendingName "Pump A" 9000)
  /\ Screen.pendingName afterEcho !! 17 = Some (Screen.mkPendingName "Pump A" 9000)
  /\ Screen.nameLock afterEcho !! 17 = Some 9500
  /\ Screen.toasts (Screen.effects afterEcho) = ["Set Name C17"%string]
  /\ Screen.timeouts afterEcho !! 1%nat
     = Some (9210, Screen.NameTimeout 17 Screen.Name1)
  /\ Screen.toasts (Screen.effects (Screen.fireTimeout sampleConfig 9210 None 1 afterEcho))
     = ["Set Name C17"%string; "Name save timeout: C17"%string]
  /\ Screen.onMessageJson Reference.runtime sampleConfig 1500
       (Some (JObj [("Set Name", JObj [("C17", JStr "Pump A")])])) afterNameWrite
     = afterNameWrite.
Proof. vm_compute. repeat split; reflexivity. Qed.

Lemma name_write_round_trip_witness :
  (Screen.pendingName afterNameWrite !! 17 = Some (Screen.mkPendingName "Pump A" 9000)
   /\ Screen.nameLock afterNameWrite !! 17 = Some 9000
   /\ Screen.timeouts afterNameWrite
      = [(3510, Screen.NameReadBack Screen.Name1);
         (9210, Screen.NameTimeout 17 Screen.Name1)])
  /\ (let read := Screen.nameEntry Reference.runtime 3600
                     (Screen.mkAcc ∅ afterNameWrite ∅) ("C17"%string, JStr "Pump A") in
      Screen.pendingName (Screen.a_state read) !! 17 = None
      /\ Screen.nameLock (Screen.a_state read) !! 17 = Some 0
      /\ exists partial, Screen.a_patch read !! 17 = Some partial
           /\ Store.p_tagName partial = Some "Pump A"%string)
  /\ (let echoed := Screen.setNameEntry Reference.runtime sampleConfig 1500
                       (∅, afterNameWrite) ("C17"%string, JStr "Pump A") in
      Screen.pendingName (snd echoed) = Screen.pendingName afterNameWrite
      /\ Screen.nameLock (snd echoed) !! 17 = Some 9500
      /\ exists partial, fst echoed !! 17 = Some partial
           /\ Store.p_tagName partial = Some "Pump A"%string).
Proof.
  destruct (name_write_round_trip Reference.runtime sampleConfig eq_refl eq_refl 17)
    as (Hwrite & Hread & _ & Hecho & _).
  split; [|split].
  - destruct (Hwrite 1000 1010 true true "Pump A"%string connectedScreen
                eq_refl eq_refl) as (Hp & Hl & Ht).
    split; [exact Hp|]. split; [exact Hl|]. exact (Ht eq_refl eq_refl).
  - assert (Hp : Screen.pendingName afterNameWrite !! 17
                 = Some (Screen.mkPendingName "Pump A" 9000))
      by (vm_compute; reflexivity).
    destruct (Hread 3600 (Screen.mkAcc ∅ afterNameWrite ∅) "C17"%string
                (JStr "Pump A") _ eq_refl Hp ltac:(cbn; lia) eq_refl eq_refl eq_refl)
      as (H1 & H2 & _ & H4).
    split; [exact H1|]. split; [exact H2 | exact H4].
  - destruct (Hecho 1500 (∅, afterNameWrite) "C17"%string (JStr "Pump A")
                eq_refl eq_refl) as (H1 & H2 & _ & partial & H4 & H5 & _).
    split; [exact H1|]. split; [exact H2|]. by exists partial.
Defined.

(** The write of a placeholder name is never confirmed: the entry that
    answers the read-back is skipped, and the timer raises the timeout. *)
Example placeholder_write_times_out :
  let answered :=
    Screen.onMessageJson Reference.runtime sampleConfig 3600
      (Some placeholderBankMessage) afterPlaceholderWrite in
  Screen.pendingName answered !! 17 = Some (Screen.mkPendingName "Device 17" 9000)
  /\ Screen.toasts (Screen.effects answered) = ["Set Name C17"%string]
  /\ Screen.toasts (Screen.effects (Screen.fireTimeout sampleConfig 9210 None 1 answered))
     = ["Set Name C17"%string; "Name save timeout: C17"%string].
Proof. vm_compute. repeat split; reflexivity. Qed.

(** The read-back confirms the write. *)
Example name_bank_confirms :
  Screen.pendingName afterNameBank !! 17 = None
  /\ Screen.nameLock afterNameBank !! 17 = Some 0
  /\ Screen.toasts (Screen.effects afterNameBank)
     = ["Set Name C17"%string; "Name saved: C17"%string].
Proof. vm_compute. repeat split; reflexivity. Qed.

Lemma keep_alive_schedule_witness :
  Screen.connRef subscribedScreen = Screen.CONNECTED
  /\ Screen.keepAliveCount (Screen.effects subscribedScreen) = 1%nat
  /\ Screen.fastTimer subscribedScreen = Some 58000
  /\ Screen.keepAliveCount
       (Screen.effects (Screen.keepAliveTicks sampleConfig 3 subscribedScreen)) = 4%nat
  /\ Screen.fastTimer (Screen.keepAliveTicks sampleConfig 3 subscribedScreen)
     = Some 232000.
Proof.
  destruct (keep_alive_schedule Reference.runtime sampleConfig eq_refl eq_refl 0
              "SUBSCRIBED devices/cp01/gw7/messages/events/#" connectingScreen
              eq_refl eq_refl) as (Hfresh & _).
  destruct (Hfresh eq_refl eq_refl) as (_ & Hr & Hk & Ht & _ & _ & Hticks).
  destruct (Hticks 3%nat) as (Hk3 & Ht3).
  split; [exact Hr|]. split; [exact Hk|]. split; [exact Ht|].
  split; [exact Hk3 | exact Ht3].
Defined.

(** The guards at work: a keep-alive on the screen that is still
    connecting, and a publish and a subscribe on a native client that has
    lost its connection. *)
Lemma guards_on_lost_connection :
  Screen.publishCfg sampleConfig connectingScreen (Screen.fastInterval sampleConfig) = []
  /\ NativeModule.publish "devices/cp01/gw7/messages/events/" "{}" 1 false false
       lostConnection
     = (lostConnection, NativeModule.Rejected "MQTT_NOT_CONNECTED")
  /\ NativeModule.subscribe "devices/cp01/gw7/messages/events/#" 0 true lostConnection
     = (lostConnection, NativeModule.Rejected "MQTT_NOT_CONNECTED").
Proof.
  destruct publish_needs_connection as (Hscreen & Hnative & _).
  destruct (Hscreen sampleConfig connectingScreen (Screen.fastInterval sampleConfig)
              ltac:(discriminate)) as (_ & Hcfg & _).
  destruct (Hnative lostConnection eq_refl) as (Hpub & Hsub & _).
  split; [exact Hcfg|]. split; [apply Hpub | apply Hsub].
Defined.

(** ** Closed runs *)

(** The frame that arrives 200 ms after the toggle is flushed at 1320: it
    writes the reading and leaves the status ON.  The same flush after the
    lock has run out at 6000 gives OFF.  The entry under the id 150, which
    is in neither range, was dropped by the decoder. *)
Example stale_reading_keeps_toggle :
  Store.patchTimer (Screen.store afterStaleReading) = Some 1320
  /\ Store.toggleLock (Screen.store afterStaleReading) !! 5 = Some 6000
  /\ (Codec.status <$> Store.tags (Store.flush Reference.runtime 1320
                                    (Screen.store afterStaleReading)) !! 5)
     = Some Codec.ON
  /\ (Codec.current <$> Store.tags (Store.flush Reference.runtime 1320
                                     (Screen.store afterStaleReading)) !! 5)
     = Some "0.00"%string
  /\ (Codec.status <$> Store.tags (Store.flush Reference.runtime 6001
                                    (Screen.store afterStaleReading)) !! 5)
     = Some Codec.OFF
  /\ Store.pendingPatch (Screen.store afterStaleReading) !! 150 = None.
Proof. vm_compute. repeat split; reflexivity. Qed.

(** Three failures in a row, one second apart each time. *)
Example three_failures :
  Manager.scheduled
    (Manager.consecutiveFailures
       (Manager.mkDevice "broker.local" (Some (JNum 8883)) None
          "devices/cp01/gw7/messages/events/#")
       0 [1000; 2000] Manager.initial)
  = [1000; 1000; 1000].
Proof. reflexivity. Qed.

(** On port 1883 the same handshake error is not followed by a retry. *)
Example no_flip_on_1883 :
  Manager.authenticateForAddDevice Reference.runtime "broker.local"
    (Some (JStr "1883")) "cp01" "gw7" (Some true) sampleTryOnce
  = (Manager.Throw (Manager.mkError "SSLHandshakeException: closed" "TLS handshake failed"),
     [Manager.CallDisconnect; Manager.CallConnect true; Manager.CallDisconnect]).
Proof. reflexivity. Qed.

(** * Further properties *)

(** ** The topic of a saved device *)
Section TopicFacts.
Import Split Topic.

Lemma append_cons (x : ascii) (a b : string) :
  String x a +:+ b = String x (a +:+ b).
Proof. reflexivity. Qed.

Lemma append_assoc (a b c : string) : (a +:+ b) +:+ c = a +:+ (b +:+ c).
Proof. induction a as [|x a IH]; [done|]. by rewrite !append_cons, IH. Qed.

Lemma rev_app_append (a b acc : string) :
  String.rev_app (a +:+ b) acc = String.rev_app b (String.rev_app a acc).
Proof.
  revert acc. induction a as [|c a IH]; intros acc; [done|].
  rewrite append_cons. cbn [String.rev_app]. apply IH.
Qed.

Lemma rev_app_rev_app (s a b : string) :
  String.rev_app (String.rev_app s a) b = String.rev_app a (s +:+ b).
Proof.
  revert a b. induction s as [|c s IH]; intros a b; [done|].
  cbn [String.rev_app]. by rewrite IH.
Qed.

(** A text that ends in [/#] has nothing to trim at its end. *)
Lemma trimEnd_wildcard (s : string) : Text.trimEnd (s +:+ "/#") = s +:+ "/#".
Proof.
  unfold Text.trimEnd, String.rev. rewrite rev_app_append. cbn [String.rev_app].
  assert (H : Text.trimStartRev (String "#" (String "/" (String.rev_app s "")))
              = String "#" (String "/" (String.rev_app s ""))).
  { destruct (String.rev_app s "") as [|c r]; [done|].
    cbn [Text.trimStartRev].
    change (Text.ws1 "#") with false. change (Text.ws2 "/" "#") with false.
    cbn iota.
    assert (H3 : Text.ws3 c "/" "#" = false).
    { unfold Text.ws3.
      change (Text.code "/") with 47. change (Text.code "#") with 35.
      cbn. by rewrite !andb_false_r. }
    by rewrite H3. }
  rewrite H. cbn [String.rev_app]. by rewrite rev_app_rev_app.
Qed.

Lemma trimStart_dev (r : string) : Text.trimStart ("dev" +:+ r) = "dev" +:+ r.
Proof. reflexivity. Qed.

Lemma dropWildcard_append (s : string) : dropWildcard (s +:+ "/#") = s.
Proof.
  induction s as [|a s IH]; [done|].
  rewrite append_cons. cbn [dropWildcard]. rewrite IH.
  destruct s as [|b [|c s]]; reflexivity.
Qed.

Lemma slashFree_cons (c : ascii) (s : string) :
  Text.includes "/" (String c s) = false ->
  Ascii.eqb c "/" = false /\ Text.includes "/" s = false.
Proof.
  cbn [Text.includes Text.startsWith].
  rewrite andb_true_r. intros H. apply orb_false_iff in H as [H1 H2].
  split; [|done].
  by destruct (Ascii.eqb_spec c "/") as [->|].
Qed.

Lemma split_slashFree (s r : string) :
  Text.includes "/" s = false -> split "/" (s +:+ String "/" r) = s :: split "/" r.
Proof.
  induction s as [|c s IH]; intros Hs; [done|].
  apply slashFree_cons in Hs as [Hc Hs].
  rewrite append_cons. cbn [split]. by rewrite Hc, IH.
Qed.

Lemma split_last (s : string) : Text.includes "/" s = false -> split "/" s = [s].
Proof.
  induction s as [|c s IH]; intros Hs; cbn [split]; [done|].
  apply slashFree_cons in Hs as [Hc Hs]. by rewrite Hc, IH.
Qed.

Lemma split_base (c d : string) :
  Text.includes "/" c = false -> Text.includes "/" d = false ->
  split "/" ("devices/" +:+ c +:+ "/" +:+ d +:+ "/messages/events")
  = ["devices"; c; d; "messages"; "events"]%string.
Proof.
  intros Hc Hd.
  change ("devices/" +:+ c +:+ "/" +:+ d +:+ "/messages/events")
    with ("devices" +:+ String "/" (c +:+ String "/" (d +:+ String "/"
            ("messages" +:+ String "/" "events")))).
  rewrite (split_slashFree "devices") by reflexivity.
  rewrite (split_slashFree c), (split_slashFree d) by done.
  rewrite (split_slashFree "messages") by reflexivity.
  by rewrite (split_last "events").
Qed.

(** X1.  The topic [authenticateForAddDevice] returns, and [AddMqttDevice]
    saves under [topic], gives the screen back the ids it was built from:
    when the trimmed [cpId] (the default one if none is given) and the
    trimmed [deviceId] are not empty and hold no [/],
    [deriveFromEventsTopic] reads exactly them from the saved topic, so the
    screen publishes on the manager's events topic, with and without the
    closing slash. *)
Theorem topic_round_trip (cpId deviceId subTopic : string) :
  let c := Text.trim (if Text.isEmpty cpId then Manager.DEFAULT_CPID else cpId) in
  let d := Text.trim deviceId in
  Text.isEmpty c = false -> Text.isEmpty d = false ->
  Text.includes "/" c = false -> Text.includes "/" d = false ->
  let cfg := deriveFromEventsTopic
               (topicOf (Manager.buildSubscribeTopic cpId deviceId) subTopic) in
  cfg = Screen.mkConfig c d
  /\ Screen.tNoSlash cfg = Manager.buildEventBaseTopic cpId deviceId
  /\ Screen.tSlash cfg = Manager.buildEventBaseTopic cpId deviceId +:+ "/".
Proof.
  intros c d Hc Hd Hsc Hsd.
  assert (Hbase : Manager.buildEventBaseTopic cpId deviceId
                  = "devices/" +:+ c +:+ "/" +:+ d +:+ "/messages/events").
  { unfold Manager.buildEventBaseTopic. fold c d. by rewrite Hc, Hd. }
  assert (Hcfg : deriveFromEventsTopic
                   (topicOf (Manager.buildSubscribeTopic cpId deviceId) subTopic)
                 = Screen.mkConfig c d).
  { unfold Manager.buildSubscribeTopic. rewrite Hbase.
    change (Text.isEmpty ("devices/" +:+ c +:+ "/" +:+ d +:+ "/messages/events"))
      with false. cbn iota.
    set (base := "devices/" +:+ c +:+ "/" +:+ d +:+ "/messages/events").
    assert (Htrim : Text.trim (base +:+ "/#") = base +:+ "/#").
    { unfold Text.trim.
      replace (Text.trimStart (base +:+ "/#")) with (base +:+ "/#")
        by (symmetry; apply (trimStart_dev _)).
      apply trimEnd_wildcard. }
    unfold topicOf, deriveFromEventsTopic.
    change (Text.isEmpty (base +:+ "/#")) with false. cbn iota.
    rewrite !Htrim, dropWildcard_append.
    subst base. rewrite split_base by done.
    unfold nonEmpty. cbn [List.filter Text.isEmpty negb].
    rewrite Hc, Hd. reflexivity. }
  intros cfg. subst cfg. rewrite Hcfg. split; [done|].
  unfold Screen.tNoSlash, Screen.tSlash. cbn [Screen.cpid Screen.deviceId].
  rewrite Hc, Hd, Hbase. cbn [orb]. split; [done|].
  by rewrite !append_assoc.
Qed.

End TopicFacts.

Lemma topic_round_trip_witness :
  Topic.deriveFromEventsTopic
    (Topic.topicOf (Manager.buildSubscribeTopic "" " GW7 ") "")
  = Screen.mkConfig "51c5c752" "GW7".
Proof.
  exact (proj1 (topic_round_trip "" " GW7 " "" eq_refl eq_refl eq_refl eq_refl)).
Defined.

(** ** Names: cleaning, and the cache read when the screen opens *)
Section NameFacts.
Import Codec NameCache.
Context (rt : JsRuntime).

Lemma hasControl_tail (c : ascii) (s : string) :
  hasControl (String c s) = false -> hasControl s = false.
Proof. cbn [hasControl]. intros H. by apply orb_false_iff in H as [_ H]. Qed.

Lemma hasControl_trimStart (s : string) :
  hasControl s = false -> hasControl (Text.trimStart s) = false.
Proof.
  assert (H : forall n s, (String.length s <= n)%nat ->
            hasControl s = false -> hasControl (Text.trimStart s) = false).
  { clear s. induction n as [|n IH]; intros s Hn Hs.
    - destruct s; [done|cbn in Hn; lia].
    - destruct s as [|a s1]; [done|]. cbn [Text.trimStart].
      cbn [String.length] in Hn.
      pose proof (hasControl_tail _ _ Hs) as Hs1.
      destruct (Text.ws1 a); [apply IH; [lia|done]|].
      destruct s1 as [|b s2]; [done|].
      cbn [String.length] in Hn.
      pose proof (hasControl_tail _ _ Hs1) as Hs2.
      destruct (Text.ws2 a b); [apply IH; [lia|done]|].
      destruct s2 as [|c s3]; [done|].
      cbn [String.length] in Hn.
      pose proof (hasControl_tail _ _ Hs2) as Hs3.
      destruct (Text.ws3 a b c); [apply IH; [lia|done]|done]. }
  by apply (H (String.length s)).
Qed.

Lemma hasControl_trimStartRev (s : string) :
  hasControl s = false -> hasControl (Text.trimStartRev s) = false.
Proof.
  assert (H : forall n s, (String.length s <= n)%nat ->
            hasControl s = false -> hasControl (Text.trimStartRev s) = false).
  { clear s. induction n as [|n IH]; intros s Hn Hs.
    - destruct s; [done|cbn in Hn; lia].
    - destruct s as [|a s1]; [done|]. cbn [Text.trimStartRev].
      cbn [String.length] in Hn.
      pose proof (hasControl_tail _ _ Hs) as Hs1.
      destruct (Text.ws1 a); [apply IH; [lia|done]|].
      destruct s1 as [|b s2]; [done|].
      cbn [String.length] in Hn.
      pose proof (hasControl_tail _ _ Hs1) as Hs2.
      destruct (Text.ws2 b a); [apply IH; [lia|done]|].
      destruct s2 as [|c s3]; [done|].
      cbn [String.length] in Hn.
      pose proof (hasControl_tail _ _ Hs2) as Hs3.
      destruct (Text.ws3 c b a); [apply IH; [lia|done]|done]. }
  by apply (H (String.length s)).
Qed.

Lemma hasControl_rev_app (s acc : string) :
  hasControl (String.rev_app s acc) = hasControl s || hasControl acc.
Proof.
  revert acc. induction s as [|c s IH]; intros acc; [done|].
  cbn [String.rev_app hasControl]. rewrite IH. cbn [hasControl].
  destruct ((Text.code c <=? 31) || (Text.code c =? 127)), (hasControl s),
    (hasControl acc); reflexivity.
Qed.

Lemma hasControl_trim (s : string) :
  hasControl s = false -> hasControl (Text.trim s) = false.
Proof.
  intros Hs. unfold Text.trim, Text.trimEnd, String.rev.
  rewrite hasControl_rev_app, orb_false_r.
  apply hasControl_trimStartRev.
  rewrite hasControl_rev_app, orb_false_r.
  by apply hasControl_trimStart.
Qed.

Lemma hasControl_dropControls (s : string) :
  hasControl (Text.dropControls s) = false.
Proof.
  induction s as [|c s IH]; [done|]. cbn [Text.dropControls].
  destruct (_ || _) eqn:E; [done|]. cbn [hasControl]. by rewrite E, IH.
Qed.

Lemma hasControl_sanitizeName (v : Js.value) :
  hasControl (sanitizeName rt v) = false.
Proof. unfold sanitizeName. apply hasControl_trim, hasControl_dropControls. Qed.

(** X2.  Whatever value it is given, [sanitizeName] returns a text without
    control characters; a missing value, [null] and the empty text give the
    empty text, which every caller skips. *)
Theorem sanitizeName_clean :
  (forall v, hasControl (sanitizeName rt v) = false)
  /\ sanitizeName rt None = ""%string
  /\ sanitizeName rt (Some JNull) = ""%string
  /\ sanitizeName rt (Some (JStr "")) = ""%string.
Proof.
  split; [apply hasControl_sanitizeName|]. by repeat split.
Qed.

(** X3.  [mergeNamesIntoTags] loses no channel, and under each key it
    either leaves what was there or puts the channel it read from [prev]
    (the default channel where [prev] has none) with a new name and [seen]
    set: status, readings and ratings are never touched.  The new name is
    not empty, is not a placeholder ["Device n"], holds no control
    character and differs from the name the channel had. *)
Theorem mergeNamesIntoTags_frame (prev : gmap Z Tag) (obj : Js.value) (i : Z) :
  let next := mergeNamesIntoTags rt prev obj in
  (forall t, prev !! i = Some t -> is_Some (next !! i))
  /\ (forall t, next !! i = Some t ->
        prev !! i = Some t
        \/ exists name, t = rename (tagOrDefault prev i) name
             /\ Text.isEmpty name = false /\ Text.testPlaceholder name = false
             /\ hasControl name = false
             /\ name <> tagName (tagOrDefault prev i)).
Proof.
  cbn zeta.
  set (good := fun next : gmap Z Tag =>
    (forall t, prev !! i = Some t -> is_Some (next !! i))
    /\ (forall t, next !! i = Some t ->
          prev !! i = Some t
          \/ exists name, t = rename (tagOrDefault prev i) name
               /\ Text.isEmpty name = false /\ Text.testPlaceholder name = false
               /\ hasControl name = false
               /\ name <> tagName (tagOrDefault prev i))).
  assert (Hstep : forall entries next,
            good next -> good (fold_left (mergeName rt prev) entries next)).
  { induction entries as [|kv entries IH]; intros next Hnext; [exact Hnext|].
    cbn [fold_left]. apply IH. unfold mergeName.
    destruct (Screen.chanOfKeyOrInt rt _) as [j|]; [|exact Hnext].
    destruct (Text.isEmpty (sanitizeName rt _)) eqn:E1; [exact Hnext|].
    destruct (Text.testPlaceholder _) eqn:E2; [exact Hnext|].
    destruct (String.eqb _ _) eqn:E3; [exact Hnext|].
    destruct Hnext as [Hd Hv].
    destruct (decide (j = i)) as [->|Hne].
    - split.
      + intros t _. rewrite lookup_insert_eq. by eexists.
      + intros t. rewrite lookup_insert_eq. intros [= <-]. right.
        eexists. split; [reflexivity|]. split; [done|]. split; [done|].
        split; [apply hasControl_sanitizeName|].
        apply String.eqb_neq in E3. congruence.
    - split.
      + intros t Ht. rewrite lookup_insert_ne by done. by eapply Hd.
      + intros t. rewrite lookup_insert_ne by done. apply Hv. }
  assert (Hprev : good prev).
  { split; [by eexists|by left]. }
  unfold mergeNamesIntoTags.
  destruct obj as [o|]; [|exact Hprev].
  destruct (_ || _); [exact Hprev|].
  by apply Hstep.
Qed.

End NameFacts.

(** ** Toggling against the stream of readings *)
Section ToggleFacts.
Import Codec Store Screen.
Context (rt : JsRuntime) (cfg : Config).
Hypothesis cpid_ok : Text.isEmpty (cpid cfg) = false.
Hypothesis deviceId_ok : Text.isEmpty (deviceId cfg) = false.

(** What a flush makes of an entry that carries a status. *)
Lemma applyPartial_status (now : Z) (locks : gmap Z Z) (prev : gmap Z Tag)
    (i : Z) (partial : Partial) (s : Status) (b : bool) :
  p_status partial = Some s -> p_seen partial = Some b ->
  exists out, applyPartial rt now locks prev i partial = Some out
              /\ status out = s /\ seen out = b.
Proof.
  intros Hs Hb. unfold applyPartial.
  assert (Hrest : hasRest partial = true).
  { unfold hasRest. rewrite Hs. by rewrite bool_decide_eq_true_2. }
  rewrite Hrest. cbn [fst snd].
  eexists. split; [reflexivity|]. cbn. by rewrite Hs, Hb.
Qed.


(** X5.  When the publish of a toggle is rejected, the error is shown, the
    lock of the channel is removed and the opposite status is queued with a
    flush armed: whatever else is queued for the channel, the next flush
    leaves it with the status it had before the toggle, marked as seen. *)
Theorem toggle_failure_rolls_back (now t : Z) (msg : string) (i : Z)
    (act : Status) (st : State) :
  connRef st = CONNECTED ->
  let st1 := runTimeout cfg now (Some msg) (ToggleSend i act) st in
  let back := match act with ON => OFF | _ => ON end in
  toasts (effects st1) = toasts (effects st) ++ [msg]
  /\ toggleLock (store st1) !! i = None
  /\ is_Some (patchTimer (store st1))
  /\ exists tag, tags (flush rt t (store st1)) !! i = Some tag
                 /\ status tag = back /\ seen tag = true.
Proof.
  intros Hc. cbn zeta. unfold runTimeout, publishControl.
  assert (Ht : Text.isEmpty (tSlash cfg) = false)
    by (unfold tSlash; by rewrite cpid_ok, deviceId_ok).
  rewrite cpid_ok, deviceId_ok, Hc, Ht, bool_decide_eq_true_2 by done.
  cbn [orb negb]. screen_fields.
  split; [|split; [|split]].
  - rewrite !toasts_app. cbn. by rewrite app_nil_r.
  - unfold toggleFailed, enqueueTagPatch. cbn [patchTimer].
    destruct (patchTimer (store st)); cbn; by rewrite lookup_delete_eq.
  - unfold toggleFailed, enqueueTagPatch. cbn [patchTimer].
    destruct (patchTimer (store st)); cbn; by eexists.
  - cbn [flush tags]. rewrite (lookup_flushTags rt).
    assert (Hp : exists partial,
               pendingPatch (toggleFailed now i act (store st)) !! i = Some partial
               /\ p_status partial = Some (match act with ON => OFF | _ => ON end)
               /\ p_seen partial = Some true).
    { unfold toggleFailed, enqueueTagPatch.
      assert (Hm : forall s, exists partial,
                 mergePatch s {[i := statusPartial (match act with ON => OFF | _ => ON end)]} !! i
                 = Some partial
                 /\ p_status partial = Some (match act with ON => OFF | _ => ON end)
                 /\ p_seen partial = Some true).
      { intros s. rewrite lookup_mergePatch, lookup_singleton_eq.
        destruct (s !! i); cbn; eexists; (split; [reflexivity|done]). }
      cbn [patchTimer]. destruct (patchTimer (store st)); cbn; apply Hm. }
    destruct Hp as (partial & -> & Hs & Hb).
    destruct (applyPartial_status t (toggleLock (toggleFailed now i act (store st)))
                (tags (toggleFailed now i act (store st))) i partial _ _ Hs Hb)
      as (out & -> & Ho).
    by exists out.
Qed.

End ToggleFacts.


Lemma toggle_failure_rolls_back_witness :
  Screen.toasts (Screen.effects
    (Screen.runTimeout sampleConfig 1001 (Some "MQTT_NOT_CONNECTED")
       (Screen.ToggleSend 5 Codec.ON) afterToggle))
  = ["MQTT_NOT_CONNECTED"%string]
  /\ exists tag,
       Store.tags (Store.flush Reference.runtime 1260
         (Screen.store
            (Screen.runTimeout sampleConfig 1001 (Some "MQTT_NOT_CONNECTED")
               (Screen.ToggleSend 5 Codec.ON) afterToggle))) !! 5 = Some tag
       /\ Codec.status tag = Codec.OFF.
Proof.
  destruct (toggle_failure_rolls_back Reference.runtime sampleConfig eq_refl eq_refl
              1001 1260 "MQTT_NOT_CONNECTED" 5 Codec.ON afterToggle eq_refl)
    as (Htoast & _ & _ & tag & Htag & Hstatus & _).
  split; [exact Htoast|]. exists tag. split; [exact Htag | exact Hstatus].
Defined.

(** ** Immediate patches, the pause of the flush, decoded readings *)
Section StoreMore.
Import Codec Store.
Context (rt : JsRuntime).

(** X6.  [applyTagPatchImmediate] with a patch that carries no reading
    touches no other channel, leaves the channel with the status, name and
    seen flag the patch gives, and applied a second time changes nothing. *)
Theorem applyTagPatchImmediate_twice (i : Z) (partial : Partial) (prev : gmap Z Tag) :
  __cur1p partial = None -> __cur3p partial = None ->
  let next := applyTagPatchImmediate i partial prev in
  applyTagPatchImmediate i partial next = next
  /\ (forall k, k <> i -> next !! k = prev !! k)
  /\ (forall s, p_status partial = Some s -> status (tagOrDefault next i) = s)
  /\ (forall n, p_tagName partial = Some n -> tagName (tagOrDefault next i) = n)
  /\ (forall b, p_seen partial = Some b -> seen (tagOrDefault next i) = b).
Proof.
  intros _ _. cbn zeta. unfold applyTagPatchImmediate.
  destruct (differs (tagOrDefault prev i) partial) eqn:E.
  - assert (Hnew : tagOrDefault (<[i:=spreadRest (tagOrDefault prev i) partial]> prev) i
                   = spreadRest (tagOrDefault prev i) partial).
    { unfold tagOrDefault at 1. by rewrite lookup_insert_eq. }
    rewrite Hnew. split; [|split; [|split; [|split]]].
    + assert (Hss : spreadRest (spreadRest (tagOrDefault prev i) partial) partial
                    = spreadRest (tagOrDefault prev i) partial).
      { unfold spreadRest. cbn.
        by destruct (p_status partial), (p_seen partial), (p_tagName partial),
             (p_currentRating partial), (p_sensitivity partial). }
      rewrite Hss.
      destruct (differs (spreadRest (tagOrDefault prev i) partial) partial).
      * apply insert_insert_eq.
      * reflexivity.
    + intros k Hk. by rewrite lookup_insert_ne.
    + intros s Hs. cbn. by rewrite Hs.
    + intros n Hn. cbn. by rewrite Hn.
    + intros b Hb. cbn. by rewrite Hb.
  - rewrite E. split; [done|]. split; [done|].
    unfold differs in E.
    apply orb_false_iff in E as [E _]. apply orb_false_iff in E as [E _].
    apply orb_false_iff in E as [E E3]. apply orb_false_iff in E as [E1 E2].
    split; [|split].
    + intros s Hs. rewrite Hs in E1.
      by apply negb_false_iff, bool_decide_eq_true_1 in E1.
    + intros n Hn. rewrite Hn in E3.
      by apply negb_false_iff, String.eqb_eq in E3.
    + intros b Hb. rewrite Hb in E2.
      apply negb_false_iff in E2. by apply Bool.eqb_prop in E2.
Qed.

(** X7.  A patch enqueued after a tab switch is flushed no earlier than
    200 ms after the switch, one enqueued after a toggle no earlier than
    250 ms after the toggle, and in both cases no earlier than 120 ms after
    it was enqueued; what was queued before is still queued, although the
    switch and the toggle cancel the flush that was armed. *)
Theorem flush_waits_for_pause (now t : Z) (P : gmap Z Partial) (st : State) :
  (forall key,
     let st2 := enqueueTagPatch t P (switchTab now key st) in
     exists fireAt, patchTimer st2 = Some fireAt
       /\ now + 200 <= fireAt /\ t + 120 <= fireAt
       /\ tags st2 = tags st
       /\ forall i, is_Some (pendingPatch st !! i) -> is_Some (pendingPatch st2 !! i))
  /\ (forall android i act,
        let st2 := enqueueTagPatch t P (toggleNow android now i act st) in
        exists fireAt, patchTimer st2 = Some fireAt
          /\ now + 250 <= fireAt /\ t + 120 <= fireAt
          /\ forall k, is_Some (pendingPatch st !! k) -> is_Some (pendingPatch st2 !! k)).
Proof.
  assert (Hkeep : forall (s : gmap Z Partial) i,
            is_Some (s !! i) -> is_Some (mergePatch s P !! i)).
  { intros s i [p Hp]. rewrite lookup_mergePatch, Hp.
    destruct (P !! i); by eexists. }
  split.
  - intros key. cbn zeta. unfold enqueueTagPatch, switchTab.
    cbn [patchTimer suspendUiUntil activeTab pendingPatch tags].
    eexists. split; [reflexivity|]. split; [|split; [|split]].
    + lia.
    + destruct key; lia.
    + done.
    + apply Hkeep.
  - intros android i act. cbn zeta. unfold enqueueTagPatch, toggleNow.
    cbn [patchTimer suspendUiUntil activeTab pendingPatch tags].
    eexists. split; [reflexivity|]. split; [|split].
    + lia.
    + destruct (activeTab st); lia.
    + apply Hkeep.
Qed.

(** X8.  Whatever message it is read from, the patch the handler builds
    from a current map holds entries under the ids 1 to 120 and 201 to 224
    only; under an id of the first range exactly one finite reading, under
    an id of the second exactly three finite legs.  So the flush never
    meets a reading it would have to drop. *)
Theorem current_patch_readings (j : Js.value) (i : Z) (p : Partial) :
  Screen.currentSection rt j ∅ !! i = Some p ->
  (1 <= i <= 120 /\ exists x, p = cur1p x /\ Js.isFinite x = true)
  \/ (201 <= i <= 224
      /\ exists a b c, p = cur3p [a; b; c] /\ Js.isFinite a = true
           /\ Js.isFinite b = true /\ Js.isFinite c = true).
Proof.
  set (good := fun (patch : gmap Z Partial) => forall i p, patch !! i = Some p ->
    (1 <= i <= 120 /\ exists x, p = cur1p x /\ Js.isFinite x = true)
    \/ (201 <= i <= 224
        /\ exists a b c, p = cur3p [a; b; c] /\ Js.isFinite a = true
             /\ Js.isFinite b = true /\ Js.isFinite c = true)).
  assert (Hstep : forall patch kv, good patch -> good (Screen.currentEntry rt patch kv)).
  { intros patch kv Hg. unfold Screen.currentEntry.
    destruct (Screen.chanOfKeyOrInt rt _) as [k|]; [|done].
    destruct ((1 <=? k) && (k <=? 120)) eqn:E1.
    - destruct (Js.isFinite (normalizeNumber rt (Some kv.2))) eqn:Ef; [|done].
      cbn [negb]. intros i' p'. unfold Screen.put.
      destruct (decide (k = i')) as [->|Hne].
      + rewrite lookup_insert_eq. intros [= <-]. left. split; [lia|].
        destruct (patch !! i') as [old|] eqn:Eo; [|by eexists].
        destruct (Hg _ _ Eo) as [(_ & y & -> & _)|(? & _)]; [|lia].
        by eexists.
      + rewrite lookup_insert_ne by done. apply Hg.
    - destruct ((201 <=? k) && (k <=? 224)) eqn:E2; [|done].
      destruct (parse3PhaseValue rt (Some kv.2)) as [l|] eqn:El; [|done].
      destruct (parse3PhaseValue_finite rt _ _ El) as (a & b & c & -> & Ha & Hb & Hc).
      intros i' p'. unfold Screen.put.
      destruct (decide (k = i')) as [->|Hne].
      + rewrite lookup_insert_eq. intros [= <-]. right. split; [lia|].
        destruct (patch !! i') as [old|] eqn:Eo; [|by exists a, b, c].
        destruct (Hg _ _ Eo) as [(? & _)|(_ & a' & b' & c' & -> & _)]; [lia|].
        by exists a, b, c.
      + rewrite lookup_insert_ne by done. apply Hg. }
  assert (Hfold : forall entries patch, good patch ->
            good (fold_left (Screen.currentEntry rt) entries patch)).
  { induction entries as [|kv entries IH]; intros patch Hg; [done|].
    cbn [fold_left]. by apply IH, Hstep. }
  assert (Hall : good (Screen.currentSection rt j ∅)).
  { unfold Screen.currentSection.
    destruct (parseCurrentMap rt j); [apply Hfold|]; intros ? ?; by rewrite lookup_empty. }
  apply Hall.
Qed.

End StoreMore.

Lemma applyTagPatchImmediate_twice_witness :
  Store.applyTagPatchImmediate 5 (Store.statusPartial Codec.ON)
    (Store.applyTagPatchImmediate 5 (Store.statusPartial Codec.ON) ∅)
  = Store.applyTagPatchImmediate 5 (Store.statusPartial Codec.ON) ∅.
Proof.
  exact (proj1 (applyTagPatchImmediate_twice 5 (Store.statusPartial Codec.ON) ∅
                  eq_refl eq_refl)).
Defined.

Lemma current_patch_readings_witness :
  Screen.currentSection Reference.runtime (Some staleReadingMessage) ∅ !! 5
  = Some (Store.cur1p (-0.05))
  /\ ((1 <= 5 <= 120
       /\ exists x, Store.cur1p (-0.05) = Store.cur1p x /\ Js.isFinite x = true)
      \/ (201 <= 5 <= 224
          /\ exists a b c, Store.cur1p (-0.05) = Store.cur3p [a; b; c]
               /\ Js.isFinite a = true /\ Js.isFinite b = true
               /\ Js.isFinite c = true)).
Proof.
  split; [reflexivity|].
  exact (current_patch_readings Reference.runtime (Some staleReadingMessage) 5
           (Store.cur1p (-0.05)) eq_refl).
Defined.

(** ** Names and ratings on the way back, and the disconnect *)
Section ScreenMore.
Import Codec Store Screen.
Context (rt : JsRuntime) (cfg : Config).
Hypothesis cpid_ok : Text.isEmpty (cpid cfg) = false.
Hypothesis deviceId_ok : Text.isEmpty (deviceId cfg) = false.


(** X10.  A rating write made while connected with two finite numbers
    records the pending pair for 8 s, changes nothing on screen, and arms
    the read-back at 2.5 s and the timeout at 8.2 s once both publishes
    have resolved.  An entry of an inbound rating map for the channel is
    always queued for the screen; it confirms the write (the pending pair
    goes, "Rating saved" is raised) exactly when it is read before the
    pending pair expires and carries the same two numbers, and otherwise
    leaves the state alone.  When the 8.2 s timer finds the pair still
    pending it removes it, raises "Rating save timeout" and asks for the
    rating map again; when it finds none it does nothing. *)
Theorem rating_write_round_trip (N : Z) :
  (forall now sent okA okB cur sens st,
     conn st = CONNECTED -> Js.isFinite cur = true -> Js.isFinite sens = true ->
     let st' := publishSetRating cfg now sent okA okB N cur sens st in
     pendingRating st' !! N = Some (mkPendingRating cur sens (now + 8000))
     /\ store st' = store st
     /\ (okA = true -> okB = true ->
         timeouts st' = timeouts st ++ [(sent + 2500, RatingReadBack);
                                        (sent + 8200, RatingTimeout N)]))
  /\ (forall now acc k v cur sens p,
        chanOfKey k = Some N -> ratingPair rt v = Some (cur, sens) ->
        pendingRating (snd acc) !! N = Some p ->
        let acc' := ratingEntry rt now acc (k, v) in
        (exists partial, fst acc' !! N = Some partial
           /\ p_currentRating partial = Some cur /\ p_sensitivity partial = Some sens)
        /\ (now <= pr_expiresAt p -> (cur =? pr_cur p)%float = true ->
            (sens =? pr_sens p)%float = true ->
            pendingRating (snd acc') !! N = None
            /\ effects (snd acc')
               = effects (snd acc) ++ [Toast ("Rating saved: C" +:+ pretty N)])
        /\ ((cur =? pr_cur p)%float = false \/ (sens =? pr_sens p)%float = false
            \/ pr_expiresAt p < now ->
            snd acc' = snd acc))
  /\ (forall now failure st p,
        pendingRating st !! N = Some p ->
        let st' := runTimeout cfg now failure (RatingTimeout N) st in
        pendingRating st' !! N = None
        /\ effects st'
           = effects st
             ++ Toast ("Rating save timeout: " +:+ chanKey N)
                :: map PublishMqtt (publishToBothTopics cfg (readEnvelope cfg "4" "Rating")))
  /\ (forall now failure st,
        pendingRating st !! N = None ->
        runTimeout cfg now failure (RatingTimeout N) st = st).
Proof.
  split; [|split; [|split]].
  - intros now sent okA okB cur sens st Hc Hcur Hsens. cbn zeta.
    unfold publishSetRating.
    rewrite Hc, bool_decide_eq_true_2 by done. cbn [negb].
    rewrite cpid_ok, deviceId_ok, Hcur, Hsens. cbn [orb negb].
    destruct okA, okB; cbn [negb]; screen_fields; rewrite ?lookup_insert_eq;
      (split; [done|]); (split; [done|]); try done.
    intros _ _. by rewrite <- app_assoc.
  - intros now acc k v cur sens p Hk Hv Hp. cbn zeta.
    unfold ratingEntry. cbn [fst snd]. rewrite Hk, Hv, Hp.
    split; [|split].
    + assert (Hput : exists partial,
                put N (ratingPartial cur sens) (fst acc) !! N = Some partial
                /\ p_currentRating partial = Some cur
                /\ p_sensitivity partial = Some sens).
      { unfold put. rewrite lookup_insert_eq.
        destruct (fst acc !! N); eexists; (split; [reflexivity|done]). }
      by destruct (_ && _).
    + intros Hnow Hc Hs.
      replace (now <=? pr_expiresAt p) with true by lia.
      rewrite Hc, Hs. cbn [andb snd]. screen_fields.
      by rewrite lookup_delete_eq.
    + intros [Hc|[Hs|Hexp]].
      * rewrite Hc. by rewrite andb_false_r.
      * rewrite Hs. by rewrite andb_false_r.
      * replace (now <=? pr_expiresAt p) with false by lia. done.
  - intros now failure st p Hp. cbn zeta. unfold runTimeout. rewrite Hp.
    unfold requestRatingMap.
    assert (Ht : Text.isEmpty (tSlash cfg) = false)
      by (unfold tSlash; by rewrite cpid_ok, deviceId_ok).
    rewrite Ht, cpid_ok, deviceId_ok. cbn [orb andb]. screen_fields.
    rewrite lookup_delete_eq. split; [done|]. by rewrite <- app_assoc.
  - intros now failure st Hp. unfold runTimeout. by rewrite Hp.
Qed.

End ScreenMore.

Section DisconnectFacts.
Import Codec Store Screen.


End DisconnectFacts.


Lemma rating_write_round_trip_witness :
  Screen.pendingRating
    (Screen.publishSetRating sampleConfig 1000 1010 true true 17 12.5 2 connectedScreen)
    !! 17
  = Some (Screen.mkPendingRating 12.5 2 9000)
  /\ Screen.timeouts
       (Screen.publishSetRating sampleConfig 1000 1010 true true 17 12.5 2 connectedScreen)
     = [(3510, Screen.RatingReadBack); (9210, Screen.RatingTimeout 17)].
Proof.
  destruct (rating_write_round_trip Reference.runtime sampleConfig eq_refl eq_refl 17)
    as (Hwrite & _).
  destruct (Hwrite 1000 1010 true true 12.5%float 2%float connectedScreen
              eq_refl eq_refl eq_refl) as (Hp & _ & Ht).
  split; [exact Hp | exact (Ht eq_refl eq_refl)].
Defined.


(** The name queued by the write of 1000 is still flushed at 1120, after
    the disconnect: channel 17 shows it, marked as seen. *)
Example flush_after_disconnect :
  let st := Screen.store (Screen.disconnectNow afterNameWrite) in
  Store.patchTimer st = Some 1120
  /\ Store.tags st !! 17 = None
  /\ (Codec.tagName <$> Store.tags (Store.flush Reference.runtime 1120 st) !! 17)
     = Some "Pump A"%string
  /\ (Codec.seen <$> Store.tags (Store.flush Reference.runtime 1120 st) !! 17)
     = Some true.
Proof. vm_compute. repeat split; reflexivity. Qed.

(** ** The manager over all its runs, and the probe of [AddMqttDevice] *)
Section ManagerMore.
Import Manager.
Context (rt : JsRuntime).

(** X12.  Whatever calls, callbacks and timer firings reach the manager,
    in whatever order, it never reports a device as connected and
    connecting at once, and a reconnect timer is pending only while there
    is a device to reconnect to. *)
Theorem manager_flags_exclusive (evs : list Event) :
  let st := fold_left (step rt) evs initial in
  (connected st = true -> connecting st = false)
  /\ (reconnectTimer st <> None -> currentDevice st <> None).
Proof.
  cbn zeta.
  induction evs as [|ev evs IH] using rev_ind; [done|].
  rewrite fold_left_app. cbn [fold_left].
  remember (fold_left (step rt) evs initial) as st eqn:Est. clear Est.
  destruct IH as [Hflags Htimer].
  assert (Hsched : forall now s,
            (connected s = true -> connecting s = false) ->
            (reconnectTimer s <> None -> currentDevice s <> None) ->
            (connected (scheduleReconnect now s) = true ->
             connecting (scheduleReconnect now s) = false)
            /\ (reconnectTimer (scheduleReconnect now s) <> None ->
                currentDevice (scheduleReconnect now s) <> None)).
  { intros now s Hs Ht. unfold scheduleReconnect.
    destruct (currentDevice s) as [d|] eqn:E; cbn.
    - split; [exact Hs|]. intros _. by rewrite E.
    - split; [exact Hs|]. intros H. by apply Ht in H. }
  destruct ev; cbn [step].
  - done.
  - split; [done|exact Htimer].
  - apply Hsched; [done|exact Htimer].
  - unfold onStatus.
    destruct (Text.startsWith "DISCONNECTED" _).
    + apply Hsched; [|exact Htimer]. cbn. by destruct (_ || _).
    + cbn. split; [by destruct (_ || _)|exact Htimer].
  - apply Hsched; [exact Hflags|exact Htimer].
  - destruct (reconnectTimer st) eqn:E; [|by split].
    unfold reconnectFire. cbn.
    destruct (currentDevice st) eqn:E2; cbn; [done|].
    exfalso. apply Htimer; congruence.
  - done.
Qed.

(** X13.  After [disconnectDevice], and until [connectDevice] is called
    again, nothing re-arms the reconnect: whatever status and error
    callbacks, settled attempts and timer firings still arrive, there is
    no current device, no pending timer, and no delay is handed to
    [setTimeout]. *)
Theorem manager_quiet_after_disconnect (st0 : State) (evs : list Event) :
  Forall (fun ev => forall device, ev <> EvConnectDevice device) evs ->
  let st := fold_left (step rt) evs (disconnectDevice st0) in
  currentDevice st = None /\ reconnectTimer st = None
  /\ retryCount st = 0 /\ scheduled st = scheduled st0.
Proof.
  intros Hevs. cbn zeta.
  induction evs as [|ev evs IH] using rev_ind; [done|].
  apply Forall_app in Hevs as [Hevs Hev].
  apply (proj1 (Forall_singleton _ _)) in Hev.
  rewrite fold_left_app. cbn [fold_left].
  destruct (IH Hevs) as (Hd & Ht & Hr & Hs).
  remember (fold_left (step rt) evs (disconnectDevice st0)) as st eqn:Est. clear Est.
  assert (Hsched : forall now s, currentDevice s = None -> scheduleReconnect now s = s).
  { intros now s E. unfold scheduleReconnect. by rewrite E. }
  destruct ev; cbn [step]; try done.
  - by destruct (Hev device).
  - unfold connectDevice_rejected. by rewrite Hsched.
  - unfold onStatus. destruct (Text.startsWith "DISCONNECTED" _); [|done].
    by rewrite Hsched.
  - unfold onError. by rewrite Hsched.
  - by rewrite Ht.
Qed.

(** X14.  [authenticateForAddDevice] leaves no connection behind.  Without
    a host or without ids it throws before it asks anything of the client.
    Otherwise every connect it asks for comes right after a disconnect,
    there are one or two of them (the second with the opposite TLS flag),
    and the last thing it asks for is a disconnect, whether it returns or
    throws.  When it returns, the TLS mode it reports is the one of the
    last connect, with the subscribe topic and the base topic of the ids. *)
Theorem probe_cleans_up (host : string) (port : Js.value) (cpId deviceId : string)
    (useTlsInput : option bool) (tryOnce : nat -> bool -> option Error) :
  let result :=
    authenticateForAddDevice rt host port cpId deviceId useTlsInput tryOnce in
  let calls := snd result in
  let b := firstTlsMode useTlsInput (portOrDefault rt port) in
  (Text.isEmpty host || Text.isEmpty (buildSubscribeTopic cpId deviceId) = true ->
     calls = [] /\ exists err, fst result = Throw err)
  /\ (Text.isEmpty host || Text.isEmpty (buildSubscribeTopic cpId deviceId) = false ->
        (calls = [CallDisconnect; CallConnect b; CallDisconnect]
         \/ calls = [CallDisconnect; CallConnect b; CallDisconnect;
                     CallConnect (negb b); CallDisconnect])
        /\ forall info, fst result = Return info ->
             last (connectCalls calls) = Some (useTls info)
             /\ topicSub info = buildSubscribeTopic cpId deviceId
             /\ topicBase info = buildEventBaseTopic cpId deviceId).
Proof.
  cbn zeta. unfold authenticateForAddDevice. split.
  - intros H. apply orb_true_iff in H as [H|H].
    + rewrite H. split; [done|by eexists].
    + destruct (Text.isEmpty host); [split; [done|by eexists]|].
      rewrite H. split; [done|by eexists].
  - intros H. apply orb_false_iff in H as [H1 H2]. rewrite H1, H2.
    destruct (tryOnce 0%nat _) as [e1|].
    + destruct (_ =? 1883)%float.
      * split; [by left|done].
      * destruct (shouldFlipTls rt e1).
        -- destruct (tryOnce 1%nat _) as [e2|].
           ++ split; [by right|done].
           ++ split; [by right|]. by intros info [= <-].
        -- split; [by left|done].
    + split; [by left|]. by intros info [= <-].
Qed.

(** X15.  The failure [MqttClient.connect] reports as a protocol mismatch
    is one [authenticateForAddDevice] answers with a second attempt: the
    error thrown for a raw message that [mapMqttError] classifies so is
    recognised by [shouldFlipTls], and when the first attempt of the probe
    fails with it on a port other than 1883, the probe connects once more
    with the opposite TLS flag. *)
Theorem protocol_mismatch_flips (host : string) (port : Js.value)
    (cpId deviceId : string) (useTlsInput : option bool)
    (tryOnce : nat -> bool -> option Error) (raw : string) :
  let b := firstTlsMode useTlsInput (portOrDefault rt port) in
  let result :=
    authenticateForAddDevice rt host port cpId deviceId useTlsInput tryOnce in
  Text.isEmpty raw = false ->
  ClientError.mapMqttError rt raw
    = "Protocol mismatch: port may require TLS or WebSocket."%string ->
  shouldFlipTls rt (ClientError.connectError rt raw) = true
  /\ (Text.isEmpty host = false ->
      Text.isEmpty (buildSubscribeTopic cpId deviceId) = false ->
      tryOnce 0%nat b = Some (ClientError.connectError rt raw) ->
      (portOrDefault rt port =? 1883)%float = false ->
      connectCalls (snd result) = [b; negb b]).
Proof.
  intros b result Hraw Hmsg.
  assert (Hflip : shouldFlipTls rt (ClientError.connectError rt raw) = true).
  { unfold ClientError.mapMqttError in Hmsg.
    unfold shouldFlipTls, ClientError.connectError. cbn [Manager.raw Manager.message].
    rewrite Hraw.
    destruct (_ || _) in Hmsg; [discriminate|].
    destruct (Text.includes "UNRECOGNIZED PACKET" _) eqn:E; [done|].
    destruct (_ || _) in Hmsg; discriminate. }
  split; [done|].
  intros Hhost Htopic Hfirst Hport. subst result.
  unfold authenticateForAddDevice. rewrite Hhost, Htopic. fold b.
  rewrite Hfirst, Hport, Hflip. by destruct (tryOnce 1%nat (negb b)).
Qed.

End ManagerMore.

Lemma manager_quiet_after_disconnect_witness :
  Manager.reconnectTimer
    (fold_left (Manager.step Reference.runtime)
       [Manager.EvStatus 5000 "DISCONNECTED"; Manager.EvError 5001;
        Manager.EvRejected 5002; Manager.EvTimer]
       (Manager.disconnectDevice
          (Manager.consecutiveFailures
             (Manager.mkDevice "broker.local" (Some (JNum 8883)) None
                "devices/cp01/gw7/messages/events/#")
             0 [1000] Manager.initial)))
  = None.
Proof.
  refine (proj1 (proj2 (manager_quiet_after_disconnect Reference.runtime _ _ _))).
  repeat constructor; discriminate.
Defined.

Lemma protocol_mismatch_flips_witness :
  Manager.shouldFlipTls Reference.runtime
    (ClientError.connectError Reference.runtime
       "connect failed uri=tcp://broker.local:8883: Unrecognized packet")
  = true.
Proof.
  exact (proj1 (protocol_mismatch_flips Reference.runtime "broker.local"
                  (Some (JNum 8883)) "cp01" "gw7" None sampleTryOnce
                  "connect failed uri=tcp://broker.local:8883: Unrecognized packet"
                  eq_refl eq_refl)).
Defined.

(** ** The registry under the function-style API *)
Section DefaultClientFacts.
Import NativeClient DefaultClient.
Context {Inst : Type}.

Lemma run_single (calls : list (Call Inst)) :
  instanceMap (run calls)
  = match defaultClient (run calls) with
    | Some (clientId, inst) => [(clientId, inst)]
    | None => []
    end.
Proof.
  unfold run. induction calls as [|c calls IH] using rev_ind; [done|].
  rewrite fold_left_app. cbn [fold_left].
  remember (fold_left step calls initial) as st eqn:Est. clear Est.
  destruct c as [clientId inst|]; cbn [step].
  - unfold connectAndSubscribe, dropDefault. cbn [instanceMap defaultClient].
    rewrite IH. destruct (defaultClient st) as [[old o]|]; cbn; [|done].
    by rewrite String.eqb_refl.
  - unfold disconnectMqtt, dropDefault.
    destruct (defaultClient st) as [[old o]|] eqn:E; cbn [instanceMap defaultClient].
    + rewrite IH. cbn. by rewrite String.eqb_refl.
    + by rewrite IH, E.
Qed.

(** X16.  Through [connectAndSubscribe] and [disconnectMqtt], the only
    calls that create or drop a client, the registry holds the default
    client and nothing else.  So a native event without a client id, or
    with the id of the default client, goes to the default client; an
    event that carries any other id (that of a client replaced earlier) is
    dropped; and without a default client every event is dropped. *)
Theorem default_client_gets_every_event (calls : list (Call Inst)) (e : Event) :
  let st := run calls in
  route e (instanceMap st)
  = match defaultClient st with
    | Some (clientId, inst) =>
        match e with
        | Some id =>
            if Text.isEmpty id || String.eqb id clientId then Some inst else None
        | None => Some inst
        end
    | None => None
    end.
Proof.
  cbn zeta. rewrite run_single.
  destruct (defaultClient (run calls)) as [[clientId inst]|]; unfold route.
  - destruct e as [id|]; [|done].
    destruct (Text.isEmpty id); [done|]. cbn. by destruct (String.eqb id clientId).
  - destruct e as [id|]; [|done]. by destruct (Text.isEmpty id).
Qed.

End DefaultClientFacts.

(** ** The saved devices *)
Section DeviceStorageFacts.
Import DeviceStorage.
Context (rt : JsRuntime).

(** The key under which a saved device counts. *)
Abbreviation idOf := (fun d : json => deviceIdOf rt (Some d)).

Lemma withoutId_filter (b : string) (devices : list json) :
  JNull ∉ devices ->
  withoutId rt (Some b) devices
  = Some (filter (fun d => idOf d <> Some b) devices).
Proof.
  induction devices as [|d devices IH]; intros Hnull; [done|].
  apply not_elem_of_cons in Hnull as [Hd Hnull].
  cbn [withoutId]. rewrite IH by done.
  destruct (deviceIdOf rt (Some d)) as [a|] eqn:Ea; [|by destruct d].
  destruct (String.eqb_spec a b) as [E|E].
  - rewrite filter_cons_False; [done|]. intros H. apply H. by rewrite Ea, E.
  - rewrite filter_cons_True; [done|]. rewrite Ea. congruence.
Qed.

Lemma withoutId_null (key : option string) (devices : list json) :
  JNull ∈ devices -> withoutId rt key devices = None.
Proof.
  induction devices as [|d devices IH]; intros Hnull; [by apply elem_of_nil in Hnull|].
  apply elem_of_cons in Hnull as [<-|Hnull]; [done|].
  cbn [withoutId]. rewrite IH by done.
  by destruct (deviceIdOf rt (Some d)), key.
Qed.

Lemma withoutId_Some_inv (key : option string) (devices out : list json) :
  withoutId rt key devices = Some out -> JNull ∉ devices.
Proof. intros H Hnull. by rewrite withoutId_null in H. Qed.

(** X17.  When [addMqttDevice] does not throw, the list it saves starts
    with the new device, followed by exactly those saved devices, in their
    order, whose [deviceId] prints differently from the new one's.  So if
    no two saved devices printed the same [deviceId], none do afterwards;
    and adding the same device once more gives the same list. *)
Theorem addMqttDevice_replaces (device : json) (devices next : list json) :
  addMqttDevice rt device devices = Some next ->
  next = device :: filter (fun d => idOf d <> idOf device) devices
  /\ (NoDup (idOf <$> devices) -> NoDup (idOf <$> next))
  /\ (device <> JNull -> addMqttDevice rt device next = Some next).
Proof.
  unfold addMqttDevice.
  destruct (withoutId rt (deviceIdOf rt (Some device)) devices) as [others|] eqn:E;
    [|done].
  intros [= <-].
  pose proof (withoutId_Some_inv _ _ _ E) as Hnull.
  assert (Hothers : others = filter (fun d => idOf d <> idOf device) devices).
  { destruct (deviceIdOf rt (Some device)) as [b|] eqn:Eb.
    - rewrite withoutId_filter in E by done. congruence.
    - destruct devices as [|d devices].
      + cbn in E. by injection E as <-.
      + cbn [withoutId] in E. by destruct (deviceIdOf rt (Some d)). }
  split; [by rewrite Hothers|]. split.
  - intros Hnd. rewrite fmap_cons. apply NoDup_cons. split.
    + rewrite Hothers. intros Hin.
      apply list_elem_of_fmap in Hin as (d & Hd & Hin).
      apply list_elem_of_filter in Hin as [Hne _]. by apply Hne.
    + rewrite Hothers. eapply sublist_NoDup; [exact Hnd|].
      apply fmap_sublist, sublist_filter.
  - intros Hdev.
    destruct (deviceIdOf rt (Some device)) as [b|] eqn:Eb;
      [|by destruct device].
    cbn [withoutId]. rewrite Eb, String.eqb_refl.
    rewrite withoutId_filter.
    + by rewrite Hothers, list_filter_filter_l.
    + rewrite Hothers. intros Hin. by apply list_elem_of_filter in Hin as [_ Hin].
Qed.

(** X18.  [removeMqttDevice] throws exactly when a saved entry is [null];
    otherwise it keeps, in their order, the saved devices whose [deviceId]
    prints differently from the id given.  Removing a second time changes
    nothing, and removing the id of a device that was just added gives what
    removing it from the list before the addition gives. *)
Theorem removeMqttDevice_spec (deviceId : Js.value) (devices : list json) :
  let key := Some (Js.String_ rt deviceId) in
  (JNull ∈ devices -> removeMqttDevice rt deviceId devices = None)
  /\ (JNull ∉ devices ->
        removeMqttDevice rt deviceId devices
        = Some (filter (fun d => idOf d <> key) devices))
  /\ (forall out, removeMqttDevice rt deviceId devices = Some out ->
        removeMqttDevice rt deviceId out = Some out)
  /\ (forall device next,
        idOf device = key -> addMqttDevice rt device devices = Some next ->
        removeMqttDevice rt deviceId next = removeMqttDevice rt deviceId devices).
Proof.
  cbn zeta. unfold removeMqttDevice.
  split; [apply withoutId_null|]. split; [apply withoutId_filter|]. split.
  - intros out E. pose proof (withoutId_Some_inv _ _ _ E) as Hnull.
    rewrite withoutId_filter in E by done. injection E as <-.
    rewrite withoutId_filter.
    + by rewrite list_filter_filter_l.
    + intros Hin. by apply list_elem_of_filter in Hin as [_ Hin].
  - intros device next Hkey Hadd. unfold addMqttDevice in Hadd.
    rewrite Hkey in Hadd.
    destruct (withoutId rt _ devices) as [others|] eqn:E; [|done].
    injection Hadd as <-.
    pose proof (withoutId_Some_inv _ _ _ E) as Hnull.
    rewrite withoutId_filter in E by done. injection E as <-.
    cbn [withoutId]. rewrite Hkey, String.eqb_refl.
    rewrite withoutId_filter.
    + by rewrite list_filter_filter_l.
    + intros Hin. by apply list_elem_of_filter in Hin as [_ Hin].
Qed.

End DeviceStorageFacts.

Lemma addMqttDevice_replaces_witness :
  DeviceStorage.addMqttDevice Reference.runtime renamedDevice savedDevices
  = Some [renamedDevice;
          JObj [("friendlyName", JStr "Boiler"); ("deviceId", JStr "GW9")]]
  /\ DeviceStorage.addMqttDevice Reference.runtime renamedDevice
       [renamedDevice;
        JObj [("friendlyName", JStr "Boiler"); ("deviceId", JStr "GW9")]]
     = Some [renamedDevice;
             JObj [("friendlyName", JStr "Boiler"); ("deviceId", JStr "GW9")]].
Proof.
  split; [reflexivity|].
  exact (proj2 (proj2 (addMqttDevice_replaces Reference.runtime renamedDevice
                         savedDevices _ eq_refl))
           ltac:(discriminate)).
Defined.

(** ** The number field of the configuration dialog *)
Section ConfigDialogFacts.
Import Split ConfigDialog.

Lemma plain_digitsAndDots (s : string) : plain (digitsAndDots s) = true.
Proof.
  induction s as [|c s IH]; [done|]. cbn [digitsAndDots].
  destruct (Text.isDigit c || (Text.code c =? 46)) eqn:E; [|done].
  cbn [plain]. by rewrite E, IH.
Qed.

Lemma code_dot (c : ascii) : (Text.code c =? 46) = Ascii.eqb c ".".
Proof.
  destruct (Ascii.eqb_spec c ".") as [->|Hne]; [done|].
  apply Z.eqb_neq. intros H. apply Hne.
  unfold Text.code in H.
  apply (f_equal Z.to_N) in H. rewrite N2Z.id in H.
  apply (f_equal ascii_of_N) in H. by rewrite ascii_N_embedding in H.
Qed.

Lemma plain_append (a b : string) : plain (a +:+ b) = plain a && plain b.
Proof.
  induction a as [|c a IH]; [done|].
  rewrite append_cons. cbn [plain]. by rewrite IH, andb_assoc.
Qed.

Lemma dots_append (a b : string) : dots (a +:+ b) = (dots a + dots b)%nat.
Proof.
  induction a as [|c a IH]; [done|].
  rewrite append_cons. cbn [dots]. rewrite IH. destruct (Text.code c =? 46); lia.
Qed.

Lemma digitsOf_append (a b : string) :
  digitsOf (a +:+ b) = digitsOf a +:+ digitsOf b.
Proof.
  induction a as [|c a IH]; [done|].
  rewrite append_cons. cbn [digitsOf]. rewrite IH. by destruct (Text.isDigit c).
Qed.

(** The parts of a split hold no separator; glued together they hold what
    the text held apart from its dots. *)
Lemma split_parts (s : string) :
  exists p ps, split "." s = p :: ps
    /\ dots p = O /\ dots (join ps) = O
    /\ length ps = dots s
    /\ plain p && plain (join ps) = plain s
    /\ digitsOf p +:+ digitsOf (join ps) = digitsOf s
    /\ (dots s = O -> p = s).
Proof.
  induction s as [|c s (p & ps & Hs & Hp & Hps & Hlen & Hpl & Hdig & Hid)].
  - exists EmptyString, []. by repeat split.
  - cbn [split dots plain digitsOf]. rewrite Hs, code_dot.
    destruct (Ascii.eqb_spec c ".") as [->|Hne].
    + exists EmptyString, (p :: ps). repeat split; try done.
      * cbn [join]. rewrite dots_append. lia.
      * cbn [length]. lia.
      * cbn [join plain]. by rewrite plain_append.
      * cbn [join]. by rewrite digitsOf_append.
    + exists (String c p), ps. repeat split; try done.
      * cbn [dots]. rewrite code_dot. by destruct (Ascii.eqb_spec c ".").
      * cbn [plain]. rewrite code_dot.
        destruct (Ascii.eqb_spec c "."); [done|]. rewrite orb_false_r.
        by rewrite <- Hpl, andb_assoc.
      * cbn [digitsOf]. destruct (Text.isDigit c); [|done].
        by rewrite append_cons, Hdig.
      * intros H. by rewrite Hid.
Qed.

Lemma plain_fixed (s : string) :
  plain s = true -> digitsAndDots (commasToDots s) = s.
Proof.
  induction s as [|c s IH]; [done|]. cbn [plain commasToDots digitsAndDots].
  intros H. apply andb_true_iff in H as [Hc Hs].
  assert (Hcomma : (Text.code c =? 44) = false).
  { unfold Text.isDigit in Hc. lia. }
  by rewrite Hcomma, Hc, IH.
Qed.

Lemma digitsOf_clean (s : string) :
  digitsOf (digitsAndDots (commasToDots s)) = digitsOf s.
Proof.
  induction s as [|c s IH]; [done|]. cbn [commasToDots digitsAndDots digitsOf].
  destruct (Text.code c =? 44) eqn:Ec.
  - change (Text.isDigit "." || (Text.code "." =? 46)) with true. cbn iota.
    cbn [digitsOf]. change (Text.isDigit ".") with false. cbn iota.
    assert (Hd : Text.isDigit c = false) by (unfold Text.isDigit; lia).
    by rewrite Hd.
  - destruct (Text.isDigit c) eqn:Hd; cbn [orb].
    + cbn [digitsOf]. by rewrite Hd, IH.
    + destruct (Text.code c =? 46); [|done]. cbn [digitsOf]. by rewrite Hd.
Qed.

Lemma sanitizeDecimalInput_fixed (s : string) :
  plain s = true -> (dots s <= 1)%nat -> sanitizeDecimalInput s = s.
Proof.
  intros Hp Hd. unfold sanitizeDecimalInput. rewrite plain_fixed by done.
  destruct (split_parts s) as (p & ps & -> & _ & _ & Hlen & _).
  cbn [length]. rewrite Hlen.
  by rewrite (proj2 (Nat.ltb_ge _ _)) by lia.
Qed.

(** X19.  Whatever is typed, [sanitizeDecimalInput] returns a text of
    decimal digits with at most one dot, holding the digits that were typed
    in the order they were typed; a text that already has this form comes
    back unchanged, so cleaning twice is cleaning once. *)
Theorem sanitizeDecimalInput_shape (text : string) :
  let out := sanitizeDecimalInput text in
  plain out = true /\ (dots out <= 1)%nat
  /\ digitsOf out = digitsOf text
  /\ sanitizeDecimalInput out = out
  /\ (plain text = true -> (dots text <= 1)%nat -> out = text).
Proof.
  cbn zeta.
  assert (H : plain (sanitizeDecimalInput text) = true
              /\ (dots (sanitizeDecimalInput text) <= 1)%nat
              /\ digitsOf (sanitizeDecimalInput text) = digitsOf text).
  { unfold sanitizeDecimalInput.
    pose proof (plain_digitsAndDots (commasToDots text)) as Hplain.
    pose proof (digitsOf_clean text) as Hdigits.
    destruct (split_parts (digitsAndDots (commasToDots text)))
      as (p & ps & -> & Hp & Hps & Hlen & Hpl & Hdig & _).
    cbn [length hd tl]. rewrite Hlen.
    destruct (2 <? S (dots _))%nat eqn:E.
    - rewrite Hplain in Hpl. apply andb_true_iff in Hpl as [Hpl1 Hpl2].
      rewrite !plain_append, !dots_append, !digitsOf_append, Hp, Hps, Hpl1, Hpl2.
      change (digitsOf ".") with EmptyString. cbn [append].
      change (dots ".") with 1%nat.
      change ("" +:+ digitsOf (join ps)) with (digitsOf (join ps)).
      split; [done|]. split; [lia|]. by rewrite Hdig.
    - split; [done|]. split; [|done]. apply Nat.ltb_ge in E. lia. }
  destruct H as (Hp & Hd & Hdig).
  repeat split; try done.
  - by apply sanitizeDecimalInput_fixed.
  - apply sanitizeDecimalInput_fixed.
Qed.

End ConfigDialogFacts.

(** ** Publishing while connected *)
Section DeliverFacts.
Import NativeModule NativeClient Client.

Lemma deliverAll_connected (encode : Screen.Envelope -> string)
    (throws : list bool) (reqs : list Screen.PublishRequest) (native : State) :
  notConnected native = false -> Forall (fun b => b = false) throws ->
  deliverAll encode true throws reqs native
  = (mkState (client native) (wire native ++ map (toWire encode) reqs),
     map (fun _ => Resolved) reqs).
Proof.
  revert throws native. induction reqs as [|r reqs IH]; intros throws native Hn Ht.
  - cbn. rewrite app_nil_r. by destruct native.
  - cbn [deliverAll]. unfold publishMqtt, publish. cbn [negb]. rewrite Hn.
    assert (Hhead : default false (head throws) = false).
    { destruct Ht; [done|]. by subst. }
    rewrite Hhead.
    rewrite IH.
    + cbn [client wire map]. by rewrite <- app_assoc.
    + done.
    + destruct Ht; [constructor|done].
Qed.

(** X20.  While the Android client is connected, the requests of a screen
    helper reach it in their order, each with its topic, its encoded
    payload and its retained flag, the QoS brought into 0..2, and every
    promise resolves.  When the transport throws at one of them, those
    before it have been written, that one is rejected with MQTT_PUB_FAIL,
    and those after it are never asked for. *)
Theorem deliverAll_in_order (encode : Screen.Envelope -> string)
    (reqs : list Screen.PublishRequest) (native : State) :
  notConnected native = false ->
  (forall throws, Forall (fun b => b = false) throws ->
     deliverAll encode true throws reqs native
     = (mkState (client native) (wire native ++ map (toWire encode) reqs),
        map (fun _ => Resolved) reqs))
  /\ (forall k rest, (k < length reqs)%nat ->
        deliverAll encode true (replicate k false ++ true :: rest) reqs native
        = (mkState (client native) (wire native ++ map (toWire encode) (take k reqs)),
           replicate k Resolved ++ [Rejected "MQTT_PUB_FAIL"])).
Proof.
  intros Hn. split; [intros; by apply deliverAll_connected|].
  revert native Hn. induction reqs as [|r reqs IH]; intros native Hn k rest Hk.
  - cbn in Hk. lia.
  - destruct k as [|k].
    + cbn. unfold publishMqtt, publish. cbn [negb]. rewrite Hn.
      rewrite app_nil_r. by destruct native.
    + cbn [replicate app deliverAll head tail default from_option].
      unfold publishMqtt, publish. cbn [negb]. rewrite Hn.
      cbn [Datatypes.id].
      rewrite IH.
      * cbn [client wire take map]. by rewrite <- app_assoc.
      * done.
      * cbn in Hk. lia.
Qed.

End DeliverFacts.

(** ** A screen opened without ids *)
Section NoIds.
Import Codec Store Screen ScreenLog.
Context (rt : JsRuntime) (cfg : Config).
Hypothesis no_ids : Text.isEmpty (cpid cfg) || Text.isEmpty (deviceId cfg) = true.

Lemma tSlash_empty : tSlash cfg = ""%string.
Proof. unfold tSlash. by rewrite no_ids. Qed.

Lemma tNoSlash_empty : tNoSlash cfg = ""%string.
Proof. unfold tNoSlash. by rewrite no_ids. Qed.

Lemma published_app (es1 es2 : list Effect) :
  published (es1 ++ es2) = published es1 ++ published es2.
Proof. unfold published. apply omap_app. Qed.

(** X21.  When no ids can be read from the topic of the device, the screen
    never hands anything to [publishMqtt]: the four publish helpers return
    at once, the requests, the keep-alive, the name write and the rating
    write do nothing at all, and the status callback, the refresh and
    every timer callback leave the published requests as they were.
    [connectNow] gives up with the message "Topic invalid". *)
Theorem no_ids_no_publish (st : State) :
  (forall p, publishControl cfg st p = [] /\ publishCfg cfg st p = []
             /\ publishWrite cfg st p = [] /\ publishToBothTopics cfg p = [])
  /\ (forall bank, requestNameBank cfg bank st = st)
  /\ requestNameMap cfg st = st /\ requestRatingMap cfg st = st
  /\ sendFastIntervalOnce cfg st = st /\ sendFastIntervalTick cfg st = st
  /\ (forall now, published (effects (fastTimerFire cfg now st)) = published (effects st))
  /\ (forall now msg, published (effects (onStatus rt cfg now msg st))
                      = published (effects st))
  /\ published (effects (refreshNow cfg st)) = published (effects st)
  /\ (forall now sent okA okB N newName,
        publishSetName cfg now sent okA okB N newName st = st)
  /\ (forall now sent okA okB N cur sens,
        publishSetRating cfg now sent okA okB N cur sens st = st)
  /\ (forall now failure fn,
        published (effects (runTimeout cfg now failure fn st)) = published (effects st))
  /\ (conn st = DISCONNECTED ->
        conn (connectNow cfg st) = DISCONNECTED
        /\ effects (connectNow cfg st)
           = effects st ++ [Toast "Topic invalid: missing cpid/deviceId"]).
Proof.
  assert (Hreq : forall s, requestNameMap cfg s = s /\ requestRatingMap cfg s = s
                           /\ forall bank, requestNameBank cfg bank s = s).
  { intros s. unfold requestNameMap, requestRatingMap, requestNameBank.
    rewrite tSlash_empty, tNoSlash_empty. by cbn. }
  assert (Hfast : forall s, sendFastIntervalOnce cfg s = s /\ sendFastIntervalTick cfg s = s).
  { intros s. unfold sendFastIntervalOnce, sendFastIntervalTick. rewrite no_ids.
    destruct (didSendFastInterval s), (negb _); done. }
  split; [|split; [|split; [|split; [|split; [|split; [|split; [|split; [|split;
    [|split; [|split; [|split]]]]]]]]]]].
  - intros p. unfold publishControl, publishCfg, publishWrite, publishToBothTopics.
    rewrite tSlash_empty. cbn. by destruct (negb _).
  - apply Hreq.
  - apply Hreq.
  - apply Hreq.
  - apply Hfast.
  - apply Hfast.
  - intros now. unfold fastTimerFire.
    destruct (fastTimer st) eqn:E; [|done].
    destruct (negb _); [done|].
    rewrite (proj2 (Hfast st)), E. done.
  - intros now msg. unfold onStatus.
    destruct (Text.startsWith "CONNECTED" _); [done|].
    destruct (Text.startsWith "SUBSCRIBED" _).
    + destruct (negb _); [|done].
      rewrite (proj1 (proj2 (Hreq _))), (proj1 (Hreq _)), (proj1 (Hfast _)). done.
    + destruct (Text.startsWith "DISCONNECTED" _); [done|].
      by destruct (Text.startsWith "DISCONNECT" _).
  - unfold refreshNow. destruct (bool_decide _).
    + rewrite (proj1 (Hreq _)), (proj1 (proj2 (Hreq _))). screen_fields.
      rewrite published_app. cbn. by rewrite app_nil_r.
    + screen_fields. rewrite published_app. cbn. by rewrite app_nil_r.
  - intros. unfold publishSetName. rewrite no_ids. by destruct (negb _).
  - intros. unfold publishSetRating. rewrite no_ids. by destruct (negb _).
  - intros now failure fn. unfold runTimeout. destruct fn.
    + by rewrite no_ids.
    + by rewrite (proj2 (proj2 (Hreq _))).
    + destruct (pendingName st !! channel); [|done].
      rewrite (proj2 (proj2 (Hreq _))). screen_fields.
      rewrite published_app. cbn. by rewrite app_nil_r.
    + by rewrite (proj1 (proj2 (Hreq _))).
    + destruct (pendingRating st !! channel); [|done].
      rewrite (proj1 (proj2 (Hreq _))). screen_fields.
      rewrite published_app. cbn. by rewrite app_nil_r.
  - intros Hc. unfold connectNow. rewrite Hc. cbn [bool_decide orb].
    rewrite !bool_decide_eq_false_2 by done. cbn [orb]. by rewrite no_ids.
Qed.
End NoIds.

(** ** The listeners of the manager *)
Section ObserverFacts.
Import Observers.

Lemma seenBy_notify (fn : nat) (s : Snapshot) (cs : list (nat * Snapshot))
    (l : list nat) :
  map snd (List.filter (fun c : nat * Snapshot => Nat.eqb (fst c) fn)
             (cs ++ map (fun g => (g, s)) l))
  = map snd (List.filter (fun c : nat * Snapshot => Nat.eqb (fst c) fn) cs)
    ++ replicate (length (filter (fun g => g = fn) l)) s.
Proof.
  rewrite List.filter_app, map_app. f_equal.
  induction l as [|g l IH]; [done|]. cbn [map List.filter fst snd].
  destruct (Nat.eqb_spec g fn) as [->|Hne].
  - rewrite filter_cons_True by done. cbn. by rewrite IH.
  - by rewrite filter_cons_False.
Qed.

(** X22.  Whatever was subscribed, unsubscribed and set before, no
    listener is registered twice, and the last snapshot a registered
    listener was called with is the current state.  A further [setState]
    calls each registered listener exactly once, with the merged state,
    and calls no listener that is not registered. *)
Theorem listeners_see_latest (ops : list Op) (fn : nat) :
  let st := run ops in
  NoDup (listeners st)
  /\ (fn ∈ listeners st -> last (seenBy fn st) = Some (getMqttState st))
  /\ (forall patch, fn ∈ listeners st ->
        seenBy fn (setState patch st) = seenBy fn st ++ [merge (state st) patch])
  /\ (forall patch, fn ∉ listeners st ->
        seenBy fn (setState patch st) = seenBy fn st).
Proof.
  cbn zeta.
  assert (Hcount : forall l : list nat, NoDup l ->
            length (filter (fun g => g = fn) l) = if bool_decide (fn ∈ l) then 1%nat else 0%nat).
  { induction l as [|g l IH]; intros Hnd; [done|].
    apply NoDup_cons in Hnd as [Hg Hnd].
    destruct (decide (g = fn)) as [->|Hne].
    - rewrite filter_cons_True by done. cbn [length]. rewrite IH by done.
      rewrite (bool_decide_eq_false_2 _ Hg).
      by rewrite bool_decide_eq_true_2 by (by left).
    - rewrite filter_cons_False by done. rewrite IH by done.
      destruct (decide (fn ∈ l)) as [Hin|Hin].
      + rewrite !bool_decide_eq_true_2; [done|by right|done].
      + rewrite !bool_decide_eq_false_2; [done| |done].
        intros Hin'. apply elem_of_cons in Hin' as [->|]; done. }
  assert (Hinv : NoDup (listeners (run ops))
                 /\ (fn ∈ listeners (run ops) ->
                     last (seenBy fn (run ops)) = Some (state (run ops)))).
  { unfold run. induction ops as [|op ops IH] using rev_ind.
    - split; [constructor|]. intros H. by apply elem_of_nil in H.
    - rewrite fold_left_app. cbn [fold_left].
      remember (fold_left step ops initial) as st eqn:Est. clear Est.
      destruct IH as [Hnd Hlast].
      destruct op as [patch|g|g]; cbn [step].
      + unfold setState, notify. cbn [listeners state calls]. split; [done|].
        intros Hin. unfold seenBy. cbn [calls].
        rewrite seenBy_notify, Hcount by done.
        rewrite bool_decide_eq_true_2 by done. cbn. by rewrite last_snoc.
      + unfold subscribeMqttState. cbn [listeners state]. split.
        * destruct (decide (g ∈ listeners st)) as [Hin|Hin].
          -- by rewrite bool_decide_eq_true_2.
          -- rewrite bool_decide_eq_false_2 by done.
             apply NoDup_app. split; [done|]. split; [|apply NoDup_singleton].
             intros x Hx Hx'. apply list_elem_of_singleton in Hx'. by subst.
        * intros Hin. unfold seenBy. cbn [calls].
          rewrite List.filter_app, map_app. cbn [List.filter map fst snd].
          destruct (Nat.eqb_spec g fn) as [->|Hne].
          -- cbn. by rewrite last_snoc.
          -- cbn. rewrite app_nil_r.
             apply Hlast.
             destruct (bool_decide (g ∈ listeners st)); [done|].
             apply elem_of_app in Hin as [Hin|Hin]; [done|].
             apply list_elem_of_singleton in Hin. by subst.
      + unfold unsubscribe. cbn [listeners state]. split.
        * by apply NoDup_filter.
        * intros Hin. apply list_elem_of_filter in Hin as [_ Hin].
          by apply Hlast. }
  destruct Hinv as [Hnd Hlast].
  split; [done|]. split; [done|]. split.
  - intros patch Hin. unfold setState, notify, seenBy. cbn [calls listeners state].
    rewrite seenBy_notify, Hcount by done.
    by rewrite bool_decide_eq_true_2.
  - intros patch Hin. unfold setState, notify, seenBy. cbn [calls listeners state].
    rewrite seenBy_notify, Hcount by done.
    rewrite bool_decide_eq_false_2 by done. cbn. by rewrite app_nil_r.
Qed.
End ObserverFacts.

(** ** The connection a saved device gets *)
Section ClientFacts.
Import Client.
Context (rt : JsRuntime).

Lemma host_text (h : string) :
  Js.String_ rt (Js.or (Some (JStr h)) (Some (JStr ""))) = h.
Proof. by destruct h. Qed.

(** X23.  [connectDevice] never asks the native module for TLS on port
    1883, whatever the saved device says, and on any other valid port it
    asks for the saved TLS flag, or for what the port implies when none is
    saved.  A device without a usable port is connected on port 1883
    without TLS; a port that is not a positive finite number makes
    [connect] throw before the native module is called.  The host is
    passed trimmed. *)
Theorem connectDevice_tls (device : Manager.Device) :
  let p := Manager.portOrDefault rt (Manager.d_port device) in
  let wanted := Manager.firstTlsMode (Manager.d_useTls device) p in
  (negb (Js.isFinite p) || (p <=? 0)%float = true ->
     connectDevice_call rt device = None)
  /\ (negb (Js.isFinite p) || (p <=? 0)%float = false ->
        connectDevice_call rt device
        = Some (Text.trim (Manager.d_host device), p,
                if (p =? 1883)%float then false else wanted))
  /\ (Js.truthy (Some (JNum (Js.Number_ rt (Manager.d_port device)))) = false ->
        connectDevice_call rt device
        = Some (Text.trim (Manager.d_host device), 1883%float, false)).
Proof.
  cbn zeta. unfold connectDevice_call, connect. rewrite host_text.
  cbn [Js.Number_ useTlsBool].
  split; [|split].
  - by intros ->.
  - by intros ->.
  - intros H. unfold Manager.portOrDefault. rewrite H. reflexivity.
Qed.
End ClientFacts.

Lemma deliverAll_in_order_witness :
  NativeClient.deliverAll (fun _ => "{}"%string) true []
    (Screen.publishToBothTopics sampleConfig (Screen.fastInterval sampleConfig))
    connectedNative
  = (NativeModule.mkState (Some true)
       [NativeModule.WirePublish "devices/cp01/gw7/messages/events/" "{}" 1 false;
        NativeModule.WirePublish "devices/cp01/gw7/messages/events" "{}" 1 false],
     [NativeModule.Resolved; NativeModule.Resolved]).
Proof.
  exact (proj1 (deliverAll_in_order (fun _ => "{}"%string)
                  (Screen.publishToBothTopics sampleConfig
                     (Screen.fastInterval sampleConfig))
                  connectedNative eq_refl)
           [] (List.Forall_nil _)).
Defined.

Lemma no_ids_no_publish_witness :
  noIdsConfig = Screen.mkConfig "" ""
  /\ Screen.requestRatingMap noIdsConfig connectedScreen = connectedScreen
  /\ Screen.publishSetName noIdsConfig 1000 1010 true true 17 "Pump A" connectedScreen
     = connectedScreen.
Proof.
  destruct (no_ids_no_publish Reference.runtime noIdsConfig eq_refl connectedScreen)
    as (_ & _ & _ & Hrating & _ & _ & _ & _ & _ & Hname & _).
  split; [reflexivity|]. split; [exact Hrating|].
  exact (Hname 1000 1010 true true 17 "Pump A"%string).
Defined.
